(** * Buyer lead intake: validation, CSV import/export, update diffing

    A shallow embedding of the server side of the application:

    - [src/lib/validations/buyer.ts]      the three zod schemas
    - [src/lib/auth.ts]                   the cookie session and the demo users
    - [src/app/api/auth/login/route.ts]   POST (login)
    - [src/app/api/buyers/route.ts]       GET (list), POST (create)
    - [src/app/api/buyers/[id]/route.ts]  GET (detail), PUT (update), DELETE
    - [src/app/api/buyers/import/route.ts] POST (CSV import)
    - [src/app/api/buyers/export/route.ts] GET (CSV export)

    JavaScript values, the zod combinators the schemas are written with and
    the database are modelled first; the schemas and handlers follow the
    source line by line; the theorems come last. *)

From Stdlib Require Import ZArith Ascii String List Lia.
From stdpp Require Import base tactics option list gmap strings pretty sorting.

Local Open Scope string_scope.
Local Open Scope Z_scope.

(** ** JavaScript values *)

Module Js.

(** Objects have identity.  Inside one request an array or a Date is built at
    exactly one place, and its location names that place: the property of the
    JSON body it was parsed for, the row and column the database driver
    materialised it for, or the output property of one schema parse. *)
Inductive Loc : Type :=
| InBody (key : string)
| InRow (stmt : nat) (row : nat) (column : string)
| InParsed (call : nat) (key : string)
| InHandler (name : string).

#[global] Instance Loc_eq_dec : EqDecision Loc.
Proof. solve_decision. Defined.

(** Values.  Strings are ASCII strings.  Numbers are the integer-valued ones
    (budgets, time values, row numbers), NaN (what [parseInt] and an invalid
    date give) and the two infinities (what [parseInt] gives for digits
    beyond the range of a double); fractional numbers are not represented,
    and the negative zero is not told apart from zero. *)
#[warnings="-register-all"]
Inductive JsVal : Type :=
| JUndefined
| JNull
| JBool (b : bool)
| JNum (n : Z)
| JNaN
| JInfinity (negative : bool)
| JStr (s : string)
| JArr (l : Loc) (items : list JsVal)
| JDate (l : Loc) (t : option Z).

(** [if (v)], [a && b], [a || b]. *)
Definition truthy (v : JsVal) : bool :=
  match v with
  | JUndefined | JNull | JNaN => false
  | JBool b => b
  | JNum n => negb (n =? 0)
  | JStr s => negb (String.eqb s "")
  | JInfinity _ | JArr _ _ | JDate _ _ => true
  end.

Definition js_or (a b : JsVal) : JsVal := if truthy a then a else b.
Definition js_and (a b : JsVal) : JsVal := if truthy a then b else a.

(** [a === b]: primitives by value (NaN equals nothing), objects by
    identity. *)
Definition strict_eq (a b : JsVal) : bool :=
  match a, b with
  | JUndefined, JUndefined => true
  | JNull, JNull => true
  | JBool x, JBool y => Bool.eqb x y
  | JNum x, JNum y => x =? y
  | JInfinity x, JInfinity y => Bool.eqb x y
  | JStr x, JStr y => String.eqb x y
  | JArr l _, JArr l' _ => bool_decide (l = l')
  | JDate l _, JDate l' _ => bool_decide (l = l')
  | _, _ => false
  end.

(** [a < b] on numbers, the only operands the schemas give it. *)
Definition js_lt (a b : JsVal) : JsVal :=
  match a, b with
  | JNum x, JNum y => JBool (x <? y)
  | _, _ => JBool false
  end.

(** [xs.includes(v)] for an array literal of strings. *)
Definition includes (xs : list string) (v : JsVal) : bool :=
  existsb (fun x => strict_eq (JStr x) v) xs.

(** *** Strings *)

Definition dquote : ascii := "034"%char.
Definition newline : ascii := "010"%char.

Fixpoint trimStart (s : string) : string :=
  match s with
  | String c r => if Ascii.is_space c then trimStart r else s
  | EmptyString => EmptyString
  end.

Definition trim (s : string) : string :=
  String.rev (trimStart (String.rev (trimStart s))).

(** [s.split(sep)] for a one-character separator. *)
Fixpoint split_go (sep : ascii) (cur : string) (s : string) : list string :=
  match s with
  | EmptyString => [String.rev cur]
  | String c r =>
      if Ascii.eqb c sep then String.rev cur :: split_go sep EmptyString r
      else split_go sep (String c cur) r
  end.

Definition split (sep : ascii) (s : string) : list string :=
  split_go sep EmptyString s.

(** [s.replace(/c/g, by)]. *)
Fixpoint replaceAll (c : ascii) (by_ : string) (s : string) : string :=
  match s with
  | EmptyString => EmptyString
  | String d r =>
      if Ascii.eqb d c then by_ +:+ replaceAll c by_ r
      else String d (replaceAll c by_ r)
  end.

(** [String(v)], as a template literal and [Array.prototype.join] apply it.
    A Date prints in the host's time zone; no handler below prints one. *)
Fixpoint toString (v : JsVal) : string :=
  match v with
  | JUndefined => "undefined"
  | JNull => "null"
  | JBool true => "true"
  | JBool false => "false"
  | JNum n => pretty n
  | JNaN => "NaN"
  | JInfinity false => "Infinity"
  | JInfinity true => "-Infinity"
  | JStr s => s
  | JArr _ items =>
      String.concat ","
        (map (fun x => match x with
                       | JUndefined | JNull => EmptyString
                       | _ => toString x
                       end) items)
  | JDate _ _ => "[object Date]"
  end.

(** [items.join(sep)]: undefined and null print as the empty string. *)
Definition join (sep : string) (items : list JsVal) : string :=
  String.concat sep
    (map (fun x => match x with
                   | JUndefined | JNull => EmptyString
                   | _ => toString x
                   end) items).

(** *** Numbers

    The Number for an integer: the integer itself up to 2^53, beyond that the
    nearest double (53 significant bits, a tie going to the even one), and an
    infinity from 2^1024 on. *)
Definition to_double (n : Z) : JsVal :=
  let a := Z.abs n in
  if a <? 2 ^ 53 then JNum n
  else
    let e := Z.log2 a - 52 in
    let q := a / 2 ^ e in
    let r := a mod 2 ^ e in
    let half := 2 ^ (e - 1) in
    let q' := if (half <? r) || ((r =? half) && Z.odd q) then q + 1 else q in
    let m := q' * 2 ^ e in
    if 2 ^ 1024 <=? m then JInfinity (n <? 0)
    else JNum (if n <? 0 then - m else m).

(** *** parseInt(s, 10)

    Leading white space is skipped, one sign is read, then the longest run of
    decimal digits; whatever follows is ignored, and no digit at all is NaN.
    The result is the Number for the integer read. *)
Fixpoint leading_digits (acc : option Z) (s : string) : option Z :=
  match s with
  | String c r =>
      match Ascii.is_nat c with
      | Some d => leading_digits (Some (10 * default 0 acc + Z.of_nat d)) r
      | None => acc
      end
  | EmptyString => acc
  end.

(** The integer that [parseInt] reads, if any. *)
Definition integer_prefix (s : string) : option Z :=
  let body :=
    match trimStart s with
    | String "-"%char r => (true, r)
    | String "+"%char r => (false, r)
    | r => (false, r)
    end in
  match leading_digits None body.2 with
  | Some n => Some (if body.1 then - n else n)
  | None => None
  end.

Definition parseInt (s : string) : JsVal :=
  match integer_prefix s with
  | Some n => to_double n
  | None => JNaN
  end.

(** *** Dates *)

(** [TimeClip]: a time value beyond 8.64e15 ms is NaN. *)
Definition timeClip (t : Z) : option Z :=
  if Z.abs t <=? 8640000000000000 then Some t else None.

Section Dates.
(** [Date.parse], a host function: [None] is NaN. *)
Variable Date_parse : string -> option Z.

(** [new Date(v).getTime()] *)
Definition Date_getTime_of (v : JsVal) : option Z :=
  match v with
  | JDate _ t => t
  | JStr s => Date_parse s
  | JArr _ _ => Date_parse (toString v)
  | JNum n => timeClip n
  | JBool true => Some 1
  | JBool false | JNull => Some 0
  | JUndefined | JNaN | JInfinity _ => None
  end.
End Dates.

(** Plain objects: property name to value.  [o[k]] of a missing property is
    undefined. *)
Definition get (o : gmap string JsVal) (k : string) : JsVal :=
  default JUndefined (o !! k).

End Js.
Import Js.

(** ** The zod combinators

    zod is a dependency, not part of the repository.  The combinators below
    are the ones [buyer.ts] uses, with the parsing rules of zod 4 (the first
    release in which a refined object schema still has [partial]): a parse
    collects issues; an issue of a failed check lets parsing continue, an
    issue of a wrong type or value aborts, and the refinements of an object
    run only while no aborting issue was raised. *)

Module Zod.

Inductive IssueCode : Type :=
| invalid_type | too_small | too_big | invalid_format | invalid_value
| invalid_union | custom.

(** [message] is the text the schema supplies; [None] stands for the
    library's default text. *)
Record Issue : Type := mkIssue {
  code : IssueCode;
  path : list string;
  message : option string;
  continue : bool
}.

Record Payload : Type := mkPayload {
  value : JsVal;
  issues : list Issue
}.

Definition ok (v : JsVal) : Payload := mkPayload v [].
Definition abort (c : IssueCode) (v : JsVal) : Payload :=
  mkPayload v [mkIssue c [] None false].

Definition aborted (iss : list Issue) : bool :=
  existsb (fun i => negb (continue i)) iss.

Definition prefixIssues (key : string) (iss : list Issue) : list Issue :=
  map (fun i => mkIssue (code i) (key :: path i) (message i) (continue i)) iss.

Inductive Check : Type :=
| min_length (n : nat) (msg : option string)
| max_length (n : nat) (msg : option string)
| regex_format (re : string -> bool) (msg : option string)
| email_format (msg : option string)
| uuid_format
| int_format
| min_value (n : Z) (msg : option string).

Inductive Schema : Type :=
| ZString (checks : list Check)
| ZNumber (checks : list Check)
| ZDate
| ZEnum (values : list string)
| ZLiteral (s : string)
| ZArray (element : Schema)
| ZOptional (inner : Schema)
| ZDefault (inner : Schema) (defaultValue : Loc -> JsVal)
| ZUnion (first second : Schema)
| ZTransform (inner : Schema) (f : Loc -> JsVal -> JsVal)
| ZPipe (input output : Schema).

(** Whether the schema accepts a missing input ([optin] in zod 4). *)
Fixpoint optin (s : Schema) : bool :=
  match s with
  | ZOptional _ | ZDefault _ _ => true
  | ZUnion a b => optin a || optin b
  | ZTransform inner _ => optin inner
  | ZPipe a _ => optin a
  | _ => false
  end.

Definition isUndefined (v : JsVal) : bool :=
  match v with JUndefined => true | _ => false end.

Definition noIssues (p : Payload) : bool :=
  match issues p with [] => true | _ => false end.

Section Run.
(** The two string formats are regular expressions of the library. *)
Variable isEmail : string -> bool.
Variable isUuid : string -> bool.

Definition check_issue (c : IssueCode) (msg : option string) (holds : bool)
  : list Issue :=
  if holds then [] else [mkIssue c [] msg true].

(** [.int()] is the safe-integer format: beyond 2^53 - 1 in either
    direction the number is too big or too small. *)
Definition run_check (v : JsVal) (c : Check) : list Issue :=
  match c, v with
  | min_length n msg, JStr s =>
      check_issue too_small msg (n <=? String.length s)%nat
  | max_length n msg, JStr s =>
      check_issue too_big msg (String.length s <=? n)%nat
  | regex_format re msg, JStr s => check_issue invalid_format msg (re s)
  | email_format msg, JStr s => check_issue invalid_format msg (isEmail s)
  | uuid_format, JStr s => check_issue invalid_format None (isUuid s)
  | int_format, JNum x =>
      check_issue too_big None (x <=? 9007199254740991)
      ++ check_issue too_small None (-9007199254740991 <=? x)
  | min_value n msg, JNum x => check_issue too_small msg (n <=? x)
  | _, _ => []
  end.

Fixpoint run (s : Schema) (here : Loc) (v : JsVal) : Payload :=
  match s with
  | ZString cs =>
      match v with
      | JStr _ => mkPayload v (flat_map (run_check v) cs)
      | _ => abort invalid_type v
      end
  | ZNumber cs =>
      match v with
      | JNum _ => mkPayload v (flat_map (run_check v) cs)
      | _ => abort invalid_type v
      end
  | ZDate =>
      match v with
      | JDate _ (Some _) => ok v
      | _ => abort invalid_type v
      end
  | ZEnum values =>
      match v with
      | JStr x => if bool_decide (x ∈ values) then ok v
                  else abort invalid_value v
      | _ => abort invalid_value v
      end
  | ZLiteral x =>
      if strict_eq v (JStr x) then ok v else abort invalid_value v
  | ZArray element =>
      match v with
      | JArr _ items =>
          let rs := imap (fun i x =>
                      let r := run element here x in
                      mkPayload (value r) (prefixIssues (pretty i) (issues r)))
                    items in
          mkPayload (JArr here (map value rs)) (flat_map issues rs)
      | _ => abort invalid_type v
      end
  | ZOptional inner =>
      if optin inner then
        let r := run inner here v in
        if negb (noIssues r) && isUndefined v then ok JUndefined else r
      else if isUndefined v then ok v
      else run inner here v
  | ZDefault inner defaultValue =>
      if isUndefined v then ok (defaultValue here)
      else
        let r := run inner here v in
        if isUndefined (value r) then mkPayload (defaultValue here) (issues r)
        else r
  | ZUnion first second =>
      let r1 := run first here v in
      let r2 := run second here v in
      if noIssues r1 then r1
      else if noIssues r2 then r2
      else match aborted (issues r1), aborted (issues r2) with
           | false, true => r1
           | true, false => r2
           | _, _ => abort invalid_union v
           end
  | ZTransform inner f =>
      let r := run inner here v in
      if noIssues r then ok (f here (value r)) else r
  | ZPipe input output =>
      let r := run input here v in
      if noIssues r then run output here (value r) else r
  end.

(** Object schemas: the shape in declaration order, and the refinements. *)
Record Refinement : Type := mkRefinement {
  holds : gmap string JsVal -> bool;
  refinement_message : string;
  refinement_path : list string
}.

Record ObjectSchema : Type := mkObject {
  shape : list (string * Schema);
  refinements : list Refinement
}.

(** [schema.shape[key]] *)
Definition property (o : ObjectSchema) (key : string) : option Schema :=
  snd <$> find (fun e => String.eqb e.1 key) (shape o).

Record ObjectPayload : Type := mkObjectPayload {
  data : gmap string JsVal;
  object_issues : list Issue
}.

(** One property: its issues are recorded under its name; its value is set
    unless it is undefined and the input had no such property. *)
Definition run_property (call : nat) (input : gmap string JsVal)
    (acc : ObjectPayload) (entry : string * Schema) : ObjectPayload :=
  let r := run entry.2 (InParsed call entry.1) (get input entry.1) in
  mkObjectPayload
    (if isUndefined (value r) then
       match input !! entry.1 with
       | Some _ => <[entry.1 := JUndefined]> (data acc)
       | None => data acc
       end
     else <[entry.1 := value r]> (data acc))
    (object_issues acc ++ prefixIssues entry.1 (issues r)).

Definition run_refinement (acc : ObjectPayload) (r : Refinement)
  : ObjectPayload :=
  if aborted (object_issues acc) then acc
  else if holds r (data acc) then acc
  else mkObjectPayload (data acc)
         (object_issues acc ++
          [mkIssue custom (refinement_path r) (Some (refinement_message r)) true]).

Definition run_object (o : ObjectSchema) (call : nat)
    (input : gmap string JsVal) : ObjectPayload :=
  foldl run_refinement
    (foldl (run_property call input) (mkObjectPayload ∅ []) (shape o))
    (refinements o).

(** [schema.parse(input)] returns the data or throws a ZodError with the
    issues; [call] numbers the parse within the request. *)
Definition parse (o : ObjectSchema) (call : nat) (input : gmap string JsVal)
  : gmap string JsVal + list Issue :=
  let r := run_object o call input in
  match object_issues r with
  | [] => inl (data r)
  | iss => inr iss
  end.

End Run.
End Zod.

(** The surface of the library, under the names the source uses. *)
Module z.
Import Zod.

Definition add_check (c : Check) (s : Schema) : Schema :=
  match s with
  | ZString cs => ZString (cs ++ [c])
  | ZNumber cs => ZNumber (cs ++ [c])
  | _ => s
  end.

Definition min (n : Z) (msg : option string) (s : Schema) : Schema :=
  match s with
  | ZString _ => add_check (min_length (Z.to_nat n) msg) s
  | _ => add_check (min_value n msg) s
  end.
Definition max (n : Z) (msg : option string) (s : Schema) : Schema :=
  add_check (max_length (Z.to_nat n) msg) s.
Definition regex (re : String.string -> bool) (msg : option string) :=
  add_check (regex_format re msg).
Definition email (msg : option string) := add_check (email_format msg).
Definition uuid := add_check uuid_format.
Definition int := add_check int_format.
Definition optional := ZOptional.
Definition or (second first : Schema) := ZUnion first second.
Definition default_ (d : Loc -> JsVal) (s : Schema) := ZDefault s d.
Definition transform (f : Loc -> JsVal -> JsVal) (s : Schema) := ZTransform s f.
Definition pipe (output input : Schema) := ZPipe input output.
Definition enum := ZEnum.
Definition literal := ZLiteral.
Definition array := ZArray.
Definition number := ZNumber [].
Definition date := ZDate.
Definition object (shape : list (String.string * Schema)) := mkObject shape [].

Definition refine (f : gmap String.string JsVal -> bool) (msg : String.string)
    (path : list String.string) (o : ObjectSchema) : ObjectSchema :=
  mkObject (shape o) (refinements o ++ [mkRefinement f msg path]).

(** [partial] and [extend] rebuild the object from its shape; refinements
    are not carried over. *)
Definition partial (o : ObjectSchema) : ObjectSchema :=
  mkObject (map (fun e => (e.1, ZOptional e.2)) (shape o)) [].

Definition extend (more : list (String.string * Schema)) (o : ObjectSchema)
  : ObjectSchema :=
  mkObject
    (map (fun e => (e.1, default e.2 (snd <$> find (fun m => String.eqb m.1 e.1) more)))
       (shape o) ++
     filter (fun m => m.1 ∉ map fst (shape o)) more) [].

Definition string := ZString [].

End z.

(** Method chaining: [x |> f] is [x.f()]. *)
Notation "x |> f" := (f x) (at level 49, left associativity, only parsing).

(** ** src/lib/validations/buyer.ts *)

Definition cityEnum := z.enum ["Chandigarh"; "Mohali"; "Zirakpur"; "Panchkula"; "Other"].
Definition propertyTypeEnum := z.enum ["Apartment"; "Villa"; "Plot"; "Office"; "Retail"].
Definition bhkEnum := z.enum ["1"; "2"; "3"; "4"; "Studio"].
Definition purposeEnum := z.enum ["Buy"; "Rent"].
Definition timelineEnum := z.enum ["0-3m"; "3-6m"; ">6m"; "Exploring"].
Definition sourceEnum := z.enum ["Website"; "Referral"; "Walk-in"; "Call"; "Other"].
Definition statusEnum :=
  z.enum ["New"; "Qualified"; "Contacted"; "Visited"; "Negotiation"; "Converted"; "Dropped"].

(** The regular expression [/^\d{10,15}$/]. *)
Definition phoneRegex (s : string) : bool :=
  forallb (fun c => bool_decide (is_Some (Ascii.is_nat c))) (list_ascii_of_string s)
  && (10 <=? String.length s)%nat && (String.length s <=? 15)%nat.

(** The first refinement of both schemas:
    [['Apartment', 'Villa'].includes(data.propertyType) && !data.bhk]
    fails the check. *)
Definition bhkRefinement (data : gmap string JsVal) : bool :=
  if includes ["Apartment"; "Villa"] (get data "propertyType")
     && negb (truthy (get data "bhk"))
  then false
  else true.

(** The second refinement of both schemas:
    [data.budgetMin && data.budgetMax && data.budgetMax < data.budgetMin]
    fails the check. *)
Definition budgetRefinement (data : gmap string JsVal) : bool :=
  if truthy (js_and (js_and (get data "budgetMin") (get data "budgetMax"))
                    (js_lt (get data "budgetMax") (get data "budgetMin")))
  then false
  else true.

Definition createBuyerSchema : Zod.ObjectSchema :=
  z.object [
    ("fullName", z.string |> z.min 2 (Some "Full name must be at least 2 characters")
                          |> z.max 80 (Some "Full name must be at most 80 characters"));
    ("email", z.string |> z.email (Some "Invalid email format") |> z.optional
                       |> z.or (z.literal ""));
    ("phone", z.string |> z.regex phoneRegex (Some "Phone must be 10-15 digits"));
    ("city", cityEnum);
    ("propertyType", propertyTypeEnum);
    ("bhk", bhkEnum |> z.optional);
    ("purpose", purposeEnum);
    ("budgetMin", z.number |> z.int |> z.min 0 (Some "Budget must be positive") |> z.optional);
    ("budgetMax", z.number |> z.int |> z.min 0 (Some "Budget must be positive") |> z.optional);
    ("timeline", timelineEnum);
    ("source", sourceEnum);
    ("status", statusEnum |> z.default_ (fun _ => JStr "New"));
    ("notes", z.string |> z.max 1000 (Some "Notes must be at most 1000 characters")
                       |> z.optional);
    ("tags", z.array z.string |> z.optional |> z.default_ (fun here => JArr here []))
  ]
  |> z.refine bhkRefinement
       "BHK is required for Apartment and Villa properties" ["bhk"]
  |> z.refine budgetRefinement
       "Maximum budget must be greater than or equal to minimum budget" ["budgetMax"].

Definition updateBuyerSchema : Zod.ObjectSchema :=
  createBuyerSchema |> z.partial |> z.extend [
    ("id", z.string |> z.uuid);
    ("updatedAt", z.date)
  ].

(** [(val) => val ? parseInt(val, 10) : undefined] *)
Definition budgetTransform (_ : Loc) (val : JsVal) : JsVal :=
  if truthy val then parseInt (toString val) else JUndefined.

(** [(val) => val ? val.split(',').map(tag => tag.trim()).filter(Boolean) : []] *)
Definition tagsTransform (here : Loc) (val : JsVal) : JsVal :=
  if truthy val then
    JArr here
      (filter (fun tag => truthy tag)
         (map (fun tag => JStr (trim tag)) (split "," (toString val))))
  else JArr here [].

Definition csvImportRowSchema : Zod.ObjectSchema :=
  z.object [
    ("fullName", z.string |> z.min 2 None |> z.max 80 None);
    ("email", z.string |> z.email None |> z.optional |> z.or (z.literal ""));
    ("phone", z.string |> z.regex phoneRegex None);
    ("city", cityEnum);
    ("propertyType", propertyTypeEnum);
    ("bhk", bhkEnum |> z.optional |> z.or (z.literal ""));
    ("purpose", purposeEnum);
    ("budgetMin", z.string |> z.transform budgetTransform
                  |> z.pipe (z.number |> z.int |> z.min 0 None |> z.optional));
    ("budgetMax", z.string |> z.transform budgetTransform
                  |> z.pipe (z.number |> z.int |> z.min 0 None |> z.optional));
    ("timeline", timelineEnum);
    ("source", sourceEnum);
    ("notes", z.string |> z.max 1000 None |> z.optional |> z.or (z.literal ""));
    ("tags", z.string |> z.transform tagsTransform |> z.optional);
    ("status", statusEnum |> z.default_ (fun _ => JStr "New"))
  ]
  |> z.refine bhkRefinement
       "BHK is required for Apartment and Villa properties" ["bhk"]
  |> z.refine budgetRefinement
       "Maximum budget must be greater than or equal to minimum budget" ["budgetMax"].

(** ** The host and the database

    What the handlers reach outside the repository's source: the string
    formats of zod, [Date.parse], the clock, the identifiers PostgreSQL
    generates, SQL's LIKE, and whether a statement fails in the storage layer
    (a lost connection, a violated constraint). *)

(** Modelled from the spec: [lib/rate-limit] is not among the sources.  The
    limiter is an external pass/fail check, consulted with a key, a limit and
    a window before the handler reads or writes anything; [true] is
    [{ success: true }]. *)
Definition RateLimit : Type := string -> nat -> Z -> bool.

Record Host : Type := mkHost {
  isEmail : string -> bool;
  isUuid : string -> bool;
  Date_parse : string -> option Z;
  now : Z;
  randomUUID : nat -> string;
  like : string -> string -> bool;
  statement_fails : nat -> bool;
  rateLimit : RateLimit
}.

Inductive SqlVal : Type :=
| SqlNull
| SqlText (s : string)
| SqlInt (n : Z)
| SqlTextArray (items : list string)
| SqlTimestamp (t : Z).

(** [{ old, new }] of one field in a history entry. *)
Record Change : Type := mkChange { old : JsVal; new : JsVal }.

Record User : Type := mkUser {
  user_id : string;
  user_email : string;
  user_name : option string
}.

Record HistoryRow : Type := mkHistoryRow {
  history_id : string;
  buyerId : SqlVal;
  changedBy : SqlVal;
  changedAt : Z;
  diff : gmap string Change
}.

(** Modelled from the spec: [lib/db/schema] is not among the sources.  The
    tables are the three the handlers name; a buyer row maps each column of
    the README's data model to its value, a timestamp being the time value
    in milliseconds the driver hands over. *)
Record Tables : Type := mkTables {
  users : list User;
  buyers : list (gmap string SqlVal);
  buyerHistory : list HistoryRow
}.

(** Modelled from the spec: the columns of the buyers table, as the README
    lists them. *)
Definition buyerColumns : list string :=
  ["id"; "fullName"; "email"; "phone"; "city"; "propertyType"; "bhk";
   "purpose"; "budgetMin"; "budgetMax"; "timeline"; "source"; "status";
   "notes"; "tags"; "ownerId"; "createdAt"; "updatedAt"].

(** The state the handlers run in.  [db] is what the handler's connection
    sees; [commits] lists, newest first, every state made visible to other
    connections; [statements] counts the statements issued and [parses] the
    schema parses run. *)
Record World : Type := mkWorld {
  db : Tables;
  inTransaction : bool;
  commits : list Tables;
  statements : nat;
  parses : nat
}.

Definition start (t : Tables) : World := mkWorld t false [] 0 0.

(** *** Exceptions and the handler monad *)

Inductive Exception : Type :=
| ZodError (issues : list Zod.Issue)
| Error (message : string).

Inductive Outcome (A : Type) : Type :=
| Returned (a : A)
| Thrown (e : Exception).
Arguments Returned {A} a.
Arguments Thrown {A} e.

Definition M (A : Type) : Type := World -> Outcome A * World.

Definition ret {A} (a : A) : M A := fun w => (Returned a, w).
Definition throw {A} (e : Exception) : M A := fun w => (Thrown e, w).
Definition bind {A B} (m : M A) (k : A -> M B) : M B :=
  fun w => match m w with
           | (Returned a, w') => k a w'
           | (Thrown e, w') => (Thrown e, w')
           end.

Notation "x <- m ;; k" := (bind m (fun x => k))
  (at level 100, m at level 99, right associativity).
Notation "m ;;; k" := (bind m (fun _ => k))
  (at level 100, right associativity).

(** [try { body } catch (error) { handler }] where both return a response. *)
Definition try_catch {A} (body : M A) (handler : Exception -> A)
  : World -> A * World :=
  fun w => match body w with
           | (Returned a, w') => (a, w')
           | (Thrown e, w') => (handler e, w')
           end.

(** [array[0]] of a result set, read for one of its properties. *)
Definition first_row {A} (rows : list A) : M A :=
  match rows with
  | r :: _ => ret r
  | [] => throw (Error "TypeError: cannot read properties of undefined")
  end.

(** *** Statements *)

Section Database.
Context (host : Host).

(** A statement is numbered, may fail in the storage layer, and otherwise
    changes the tables; outside a transaction the change is visible at
    once. *)
Definition statement {A} (run : nat -> Tables -> A * Tables) : M A :=
  fun w =>
    let n := statements w in
    if statement_fails host n then
      (Thrown (Error "database error"),
       mkWorld (db w) (inTransaction w) (commits w) (S n) (parses w))
    else
      let r := run n (db w) in
      (Returned r.1,
       mkWorld r.2 (inTransaction w)
         (if inTransaction w then commits w else r.2 :: commits w)
         (S n) (parses w)).

Definition query {A} (run : nat -> Tables -> A) : M A :=
  fun w =>
    let n := statements w in
    if statement_fails host n then
      (Thrown (Error "database error"),
       mkWorld (db w) (inTransaction w) (commits w) (S n) (parses w))
    else
      (Returned (run n (db w)),
       mkWorld (db w) (inTransaction w) (commits w) (S n) (parses w)).

(** [db.transaction(async (tx) => body)]: the statements of [body] become
    visible together when it returns, and are undone when it throws. *)
Definition transaction {A} (body : M A) : M A :=
  fun w =>
    match body (mkWorld (db w) true (commits w) (statements w) (parses w)) with
    | (Returned a, w') =>
        (Returned a,
         mkWorld (db w') (inTransaction w) (db w' :: commits w')
           (statements w') (parses w'))
    | (Thrown e, w') =>
        (Thrown e,
         mkWorld (db w) (inTransaction w) (commits w')
           (statements w') (parses w'))
    end.

(** What the driver sends for a parameter, and what it builds for a fetched
    value; [undefined] properties are left out of a statement. *)
Definition to_sql (v : JsVal) : option SqlVal :=
  match v with
  | JUndefined => None
  | JNull => Some SqlNull
  | JNum n => Some (SqlInt n)
  | JStr s => Some (SqlText s)
  | JArr _ items => Some (SqlTextArray (map toString items))
  | JDate _ (Some t) => Some (SqlTimestamp t)
  | JDate _ None => Some SqlNull
  | JBool _ | JNaN | JInfinity _ => Some (SqlText (toString v))
  end.

Definition to_js (stmt row : nat) (column : string) (v : SqlVal) : JsVal :=
  match v with
  | SqlNull => JNull
  | SqlText s => JStr s
  | SqlInt n => JNum n
  | SqlTextArray items => JArr (InRow stmt row column) (map JStr items)
  | SqlTimestamp t => JDate (InRow stmt row column) (Some t)
  end.

Definition fetched_row (stmt i : nat) (r : gmap string SqlVal)
  : gmap string JsVal :=
  map_imap (fun column v => Some (to_js stmt i column v)) r.

Definition fetched (stmt : nat) (rows : list (gmap string SqlVal))
  : list (gmap string JsVal) :=
  imap (fetched_row stmt) rows.

(** Modelled from the spec: the database generates the id and the two
    timestamps of a row that does not supply them; any other column that is
    not supplied is NULL. *)
Definition column_default (stmt : nat) (column : string) : SqlVal :=
  if String.eqb column "id" then SqlText (randomUUID host stmt)
  else if String.eqb column "createdAt" || String.eqb column "updatedAt"
  then SqlTimestamp (now host)
  else SqlNull.

(** The row an insert stores: each column from [values], or its default. *)
Definition inserted_row (stmt : nat) (values : gmap string JsVal)
  : gmap string SqlVal :=
  list_to_map
    (map (fun c => (c, default (column_default stmt c) (to_sql (get values c))))
       buyerColumns).

(** [db.insert(buyers).values(values).returning()] *)
Definition insert_buyers (values : gmap string JsVal)
  : M (list (gmap string JsVal)) :=
  statement (fun n t =>
    (fetched n [inserted_row n values],
     mkTables (users t) (buyers t ++ [inserted_row n values]) (buyerHistory t))).

(** [db.insert(buyerHistory).values({ buyerId, changedBy, diff })] *)
Definition insert_buyerHistory (buyer changer : JsVal) (d : gmap string Change)
  : M unit :=
  statement (fun n t =>
    (tt, mkTables (users t) (buyers t)
           (buyerHistory t ++
            [mkHistoryRow (randomUUID host n)
               (default SqlNull (to_sql buyer)) (default SqlNull (to_sql changer))
               (now host) d]))).

(** [SET]: every column for which [values] has a defined property. *)
Definition set_columns (values : gmap string JsVal) (r : gmap string SqlVal)
  : gmap string SqlVal :=
  foldl (fun r c => match to_sql (get values c) with
                    | Some v => <[c := v]> r
                    | None => r
                    end) r buyerColumns.

(** [db.update(buyers).set(values).where(cond).returning()] *)
Definition update_buyers (values : gmap string JsVal)
    (cond : gmap string SqlVal -> bool) : M (list (gmap string JsVal)) :=
  statement (fun n t =>
    let rows := map (fun r => if cond r then set_columns values r else r)
                  (buyers t) in
    (fetched n (filter (fun r => cond r) rows),
     mkTables (users t) rows (buyerHistory t))).

(** [db.select().from(buyers).where(cond)] with its optional order and
    limit. *)
Definition select_buyers (cond : gmap string SqlVal -> bool)
    (order : list (gmap string SqlVal) -> list (gmap string SqlVal))
    (limit : option nat) : M (list (gmap string JsVal)) :=
  query (fun n t =>
    let rows := order (filter (fun r => cond r) (buyers t)) in
    fetched n (match limit with Some k => take k rows | None => rows end)).

Definition select_users (cond : User -> bool) (limit : nat) : M (list User) :=
  query (fun _ t => take limit (filter (fun u => cond u) (users t))).

(** [eq(column, value)] *)
Definition sql_eq (column value : string) (r : gmap string SqlVal) : bool :=
  match r !! column with
  | Some (SqlText s) => String.eqb s value
  | _ => false
  end.

(** [like(column, pattern)] *)
Definition sql_like (column pattern : string) (r : gmap string SqlVal) : bool :=
  match r !! column with
  | Some (SqlText s) => like host s pattern
  | _ => false
  end.

(** [orderBy(buyers.updatedAt)]: ascending, NULLs last. *)
Definition updatedAt_le (a b : gmap string SqlVal) : Prop :=
  match a !! "updatedAt", b !! "updatedAt" with
  | Some (SqlTimestamp x), Some (SqlTimestamp y) => x ≤ y
  | Some (SqlTimestamp _), _ => True
  | _, Some (SqlTimestamp _) => False
  | _, _ => True
  end.

#[global] Instance updatedAt_le_dec : RelDecision updatedAt_le.
Proof.
  intros a b. unfold updatedAt_le.
  destruct (a !! "updatedAt") as [[]|], (b !! "updatedAt") as [[]|]; apply _.
Defined.

Definition orderBy_updatedAt := merge_sort updatedAt_le.

End Database.

(** ** Requests and responses *)

(** A request: the [user-id] cookie, the JSON body ([None] when
    [request.json()] throws; a body that parses is a JSON object), the text
    of the uploaded file and the query parameters. *)
Record Request : Type := mkRequest {
  cookie : option string;
  json : option (gmap string JsVal);
  file : option string;
  searchParams : gmap string string
}.

Record RowError : Type := mkRowError {
  row : nat;
  message : Exception
}.

Inductive Body : Type :=
| ErrorBody (error : string)
| ErrorDetails (error : string) (details : list Zod.Issue)
| ImportErrors (error : string) (errors : list RowError) (validRows : nat)
| BuyerBody (buyer : option (gmap string JsVal))
| ImportedBody (imported : nat)
| CsvBody (content : string).

Record Response : Type := mkResponse {
  status : nat;
  body : Body
}.

Section Handlers.
Context (host : Host).

(** [schema.parse(input)]; the parses of a request are numbered. *)
Definition parse (schema : Zod.ObjectSchema) (input : gmap string JsVal)
  : M (gmap string JsVal) :=
  fun w =>
    let w' := mkWorld (db w) (inTransaction w) (commits w) (statements w)
                (S (parses w)) in
    match Zod.parse (isEmail host) (isUuid host) schema (parses w) input with
    | inl data => (Returned data, w')
    | inr issues => (Thrown (ZodError issues), w')
    end.

(** [try { body } catch (error) { handler }] inside a handler. *)
Definition catch {A} (body : M A) (handler : Exception -> M A) : M A :=
  fun w => match body w with
           | (Returned a, w') => (Returned a, w')
           | (Thrown e, w') => handler e w'
           end.

(** [xs.forEach((x, index) => ...)] and [for (const x of xs)], the loop
    variables threaded as [s]. *)
Fixpoint forEach {A St} (f : St -> A -> nat -> M St) (xs : list A) (index : nat)
    (s : St) : M St :=
  match xs with
  | [] => ret s
  | x :: rest => s' <- f s x index ;; forEach f rest (S index) s'
  end.

Definition request_json (request : Request) : M (gmap string JsVal) :=
  match json request with
  | Some o => ret o
  | None => throw (Error "SyntaxError: Unexpected token in JSON")
  end.

(** *** src/lib/auth.ts *)

Definition getCurrentUser (request : Request) : M (option User) :=
  match cookie request with
  | None => ret None
  | Some userId =>
      if negb (truthy (JStr userId)) then ret None
      else
        catch
          (user <- select_users host (fun u => String.eqb (user_id u) userId) 1 ;;
           ret (head user))
          (fun _ => ret None)
  end.

Definition requireAuth (request : Request) : M User :=
  user <- getCurrentUser request ;;
  match user with
  | None => throw (Error "Authentication required")
  | Some u => ret u
  end.

(** *** src/app/api/buyers/route.ts: POST *)

Definition POST_buyers (request : Request) : World -> Response * World :=
  try_catch
    (user <- requireAuth request ;;
     if negb (rateLimit host ("create:" +:+ user_id user) 5%nat 60000) then
       ret (mkResponse 429 (ErrorBody "Too many requests. Please try again later."))
     else
       body <- request_json request ;;
       validatedData <- parse createBuyerSchema body ;;
       newBuyer <- insert_buyers host
                     (<["ownerId" := JStr (user_id user)]> validatedData) ;;
       newBuyer0 <- first_row newBuyer ;;
       insert_buyerHistory host (get newBuyer0 "id") (JStr (user_id user))
         {["created" := mkChange JNull (JStr "New buyer created")]} ;;;
       ret (mkResponse 201 (BuyerBody (Some newBuyer0))))
    (fun error =>
       match error with
       | ZodError issues => mkResponse 400 (ErrorDetails "Validation failed" issues)
       | Error _ => mkResponse 500 (ErrorBody "Failed to create buyer")
       end).

(** *** src/app/api/buyers/[id]/route.ts: PUT *)

(** [a !== b] on two time values, NaN being [None]. *)
Definition time_differs (a b : option Z) : bool :=
  match a, b with
  | Some x, Some y => negb (x =? y)
  | _, _ => true
  end.

(** [date.getTime()] *)
Definition getTime (v : JsVal) : M (option Z) :=
  match v with
  | JDate _ t => ret t
  | _ => throw (Error "TypeError: getTime is not a function")
  end.

(** The diff loop: for every key of the validated data but [id],
    [updatedAt] and [ownerId], an entry when [oldValue !== newValue]. *)
Definition calculate_diff (existingBuyer0 validatedData : gmap string JsVal)
  : gmap string Change :=
  map_imap (fun key newValue =>
    if bool_decide (key ≠ "id" ∧ key ≠ "updatedAt" ∧ key ≠ "ownerId") then
      let oldValue := get existingBuyer0 key in
      if negb (strict_eq oldValue newValue)
      then Some (mkChange oldValue newValue)
      else None
    else None) validatedData.

Definition PUT_buyer (request : Request) (id : string)
  : World -> Response * World :=
  try_catch
    (user <- requireAuth request ;;
     if negb (rateLimit host ("update:" +:+ user_id user) 10%nat 60000) then
       ret (mkResponse 429 (ErrorBody "Too many requests. Please try again later."))
     else
       body <- request_json request ;;
       existingBuyer <- select_buyers host
                          (fun r => sql_eq "id" id r && sql_eq "ownerId" (user_id user) r)
                          (fun rows => rows) (Some 1%nat) ;;
       match existingBuyer with
       | [] => ret (mkResponse 404 (ErrorBody "Buyer not found or access denied"))
       | existingBuyer0 :: _ =>
           conflict <-
             (if truthy (get body "updatedAt") then
                stored <- getTime (get existingBuyer0 "updatedAt") ;;
                ret (time_differs
                       (Date_getTime_of (Date_parse host) (get body "updatedAt"))
                       stored)
              else ret false) ;;
           if (conflict : bool) then
             ret (mkResponse 409 (ErrorBody "Record changed, please refresh"))
           else
             validatedData <- parse updateBuyerSchema
                                (<["updatedAt" := get existingBuyer0 "updatedAt"]>
                                   (<["id" := JStr id]> body)) ;;
             let diff := calculate_diff existingBuyer0 validatedData in
             updatedBuyer <- update_buyers host
                               (<["updatedAt" := JDate (InHandler "updatedAt") (Some (now host))]>
                                  validatedData)
                               (sql_eq "id" id) ;;
             (if (0 <? size diff)%nat then
                insert_buyerHistory host (JStr id) (JStr (user_id user)) diff
              else ret tt) ;;;
             ret (mkResponse 200 (BuyerBody (head updatedBuyer)))
       end)
    (fun error =>
       match error with
       | ZodError issues => mkResponse 400 (ErrorDetails "Validation failed" issues)
       | Error _ => mkResponse 500 (ErrorBody "Failed to update buyer")
       end).

(** *** src/app/api/buyers/import/route.ts: POST *)

(** [text.split('\n').filter(line => line.trim())] *)
Definition nonblank_lines (text : string) : list string :=
  filter (fun line => truthy (JStr (trim line))) (split newline text).

(** The body of [headers.forEach]: [rowData[header] = values[i] || '']. *)
Definition build_rowData (headers values : list string) : gmap string JsVal :=
  foldl (fun rowData entry =>
           <[entry.2 := js_or (from_option JStr JUndefined (values !! entry.1))
                          (JStr "")]> rowData)
    ∅ (imap pair headers).

(** The body of [dataRows.forEach]; the loop variables are the two arrays
    [errors] and [validRows]. *)
Definition validate_row (headers : list string)
    (s : list RowError * list (gmap string JsVal)) (row_ : string) (index : nat)
  : M (list RowError * list (gmap string JsVal)) :=
  let values := map trim (split "," row_) in
  let rowData := build_rowData headers values in
  catch
    (validatedRow <- parse csvImportRowSchema rowData ;;
     ret (s.1, (s.2 ++ [validatedRow])%list))
    (fun error => ret ((s.1 ++ [mkRowError (index + 2) error])%list, s.2)).

(** The body of the loop inside the transaction. *)
Definition import_row (user : User) (results : list (gmap string JsVal))
    (rowData : gmap string JsVal) (_ : nat) : M (list (gmap string JsVal)) :=
  newBuyer <- insert_buyers host (<["ownerId" := JStr (user_id user)]> rowData) ;;
  newBuyer0 <- first_row newBuyer ;;
  insert_buyerHistory host (get newBuyer0 "id") (JStr (user_id user))
    {["created" := mkChange JNull (JStr "Imported from CSV")]} ;;;
  ret (results ++ [newBuyer0])%list.

Definition POST_import (request : Request) : World -> Response * World :=
  try_catch
    (user <- requireAuth request ;;
     match file request with
     | None => ret (mkResponse 400 (ErrorBody "No file provided"))
     | Some text =>
         let lines := nonblank_lines text in
         if (length lines =? 0)%nat then
           ret (mkResponse 400 (ErrorBody "Empty file"))
         else
           let headers := map trim (split "," (default EmptyString (head lines))) in
           let dataRows := drop 1 lines in
           if (200 <? length dataRows)%nat then
             ret (mkResponse 400 (ErrorBody "Maximum 200 rows allowed"))
           else
             checked <- forEach (validate_row headers) dataRows 0 ([], []) ;;
             let errors := checked.1 in
             let validRows := checked.2 in
             if (0 <? length errors)%nat then
               ret (mkResponse 400
                      (ImportErrors "Validation errors found" errors (length validRows)))
             else
               insertedBuyers <- transaction
                                   (forEach (import_row user) validRows 0 []) ;;
               ret (mkResponse 200 (ImportedBody (length insertedBuyers)))
     end)
    (fun _ => mkResponse 500 (ErrorBody "Failed to import CSV")).

(** *** src/app/api/buyers/export/route.ts: GET *)

(** [searchParams.get(name) || ''] *)
Definition param (request : Request) (name : string) : string :=
  default EmptyString (searchParams request !! name).

Definition whereConditions (request : Request)
  : list (gmap string SqlVal -> bool) :=
  let search := param request "search" in
  let city := param request "city" in
  let propertyType := param request "propertyType" in
  let status := param request "status" in
  let timeline := param request "timeline" in
  (if truthy (JStr search) then
     [fun r => sql_like host "fullName" ("%" +:+ search +:+ "%") r
               || sql_like host "phone" ("%" +:+ search +:+ "%") r
               || sql_like host "email" ("%" +:+ search +:+ "%") r]
   else []) ++
  (if truthy (JStr city) then [sql_eq "city" city] else []) ++
  (if truthy (JStr propertyType) then [sql_eq "propertyType" propertyType] else []) ++
  (if truthy (JStr status) then [sql_eq "status" status] else []) ++
  (if truthy (JStr timeline) then [sql_eq "timeline" timeline] else []).

Definition csv_headers : list string :=
  ["fullName"; "email"; "phone"; "city"; "propertyType"; "bhk";
   "purpose"; "budgetMin"; "budgetMax"; "timeline"; "source";
   "notes"; "tags"; "status"].

(** The items of [buyer.tags || []]; the column is an array or NULL. *)
Definition items_of (v : JsVal) : list JsVal :=
  match v with
  | JArr _ items => items
  | _ => []
  end.

Definition quoted (field : JsVal) : string :=
  String dquote (toString field) +:+ String dquote EmptyString.

(** The array literal of one export row, before [.map(field => ...)]. *)
Definition csv_fields (buyer : gmap string JsVal) : list JsVal :=
  [ get buyer "fullName";
    js_or (get buyer "email") (JStr "");
    get buyer "phone";
    get buyer "city";
    get buyer "propertyType";
    js_or (get buyer "bhk") (JStr "");
    get buyer "purpose";
    js_or (get buyer "budgetMin") (JStr "");
    js_or (get buyer "budgetMax") (JStr "");
    get buyer "timeline";
    get buyer "source";
    JStr (replaceAll dquote (String dquote (String dquote EmptyString))
            (toString (js_or (get buyer "notes") (JStr ""))));
    JStr (join ";" (items_of (js_or (get buyer "tags") (JArr (InHandler "tags") []))));
    get buyer "status" ].

Definition csv_row (buyer : gmap string JsVal) : string :=
  String.concat "," (map quoted (csv_fields buyer)).

Definition GET_export (request : Request) : World -> Response * World :=
  try_catch
    (user <- requireAuth request ;;
     let conditions := whereConditions request in
     buyersList <- select_buyers host
                     (fun r => forallb (fun c => c r) conditions)
                     orderBy_updatedAt None ;;
     let csvRows := String.concat "," csv_headers :: map csv_row buyersList in
     ret (mkResponse 200 (CsvBody (String.concat (String newline EmptyString) csvRows))))
    (fun _ => mkResponse 500 (ErrorBody "Failed to export CSV")).

End Handlers.

(** ** Consistency of the two tables *)

#[global] Instance SqlVal_eq_dec : EqDecision SqlVal.
Proof. solve_decision. Defined.

(** A buyer row has a history entry when some entry refers to its id. *)
Definition has_history (t : Tables) (r : gmap string SqlVal) : bool :=
  existsb (fun h => bool_decide (r !! "id" = Some (buyerId h))) (buyerHistory t).

Definition every_buyer_has_history (t : Tables) : bool :=
  forallb (has_history t) (buyers t).

(** [result.error.issues[0].path] of a failed parse. *)
Definition first_issue_path (r : gmap string JsVal + list Zod.Issue)
  : option (list string) :=
  match r with
  | inl _ => None
  | inr issues => Zod.path <$> head issues
  end.

(** What a parse accepted under the given keys; [None] when it threw. *)
Definition accepted_with (r : gmap string JsVal + list Zod.Issue)
    (keys : list string) : option (list JsVal) :=
  match r with
  | inl data => Some (map (get data) keys)
  | inr _ => None
  end.

(** A numeric cell, as the specification of the CSV mode reads: decimal
    digits after an optional sign, and nothing else. *)
Definition numeric (cell : string) : bool :=
  let digits :=
    match cell with
    | String "-"%char r => r
    | String "+"%char r => r
    | r => r
    end in
  negb (String.eqb digits "")
  && forallb (fun c => bool_decide (is_Some (Ascii.is_nat c)))
       (list_ascii_of_string digits).

(** The part of a cell [parseInt] reads digits from. *)
Definition after_sign (s : string) : string :=
  match trimStart s with
  | String "-"%char r => r
  | String "+"%char r => r
  | r => r
  end.

(** The schema of both budget properties of [csvImportRowSchema]. *)
Definition csvBudgetCell : Zod.Schema :=
  z.string |> z.transform budgetTransform
           |> z.pipe (z.number |> z.int |> z.min 0 None |> z.optional).

(** The outcome of validating one data row, as parse number [call]. *)
Definition row_outcome (host : Host) (headers : list string) (call : nat)
    (row_ : string) : gmap string JsVal + list Zod.Issue :=
  Zod.parse (isEmail host) (isUuid host) csvImportRowSchema call
    (build_rowData headers (map trim (split "," row_))).

Arguments row_outcome : simpl never.

(** The errors and the valid rows the validation loop collects, for rows
    numbered from [index] and parsed from parse number [call]. *)
Fixpoint failed_rows (host : Host) (headers : list string) (call index : nat)
    (rows : list string) : list RowError :=
  match rows with
  | [] => []
  | r :: rest =>
      match row_outcome host headers call r with
      | inr issues => [mkRowError (index + 2) (ZodError issues)]
      | inl _ => []
      end ++ failed_rows host headers (S call) (S index) rest
  end.

Fixpoint passed_rows (host : Host) (headers : list string) (call : nat)
    (rows : list string) : list (gmap string JsVal) :=
  match rows with
  | [] => []
  | r :: rest =>
      match row_outcome host headers call r with
      | inr _ => []
      | inl data => [data]
      end ++ passed_rows host headers (S call) rest
  end.

(** ** The other handlers

    [GET] and [DELETE] of [src/app/api/buyers/[id]/route.ts], the login
    route and [createDemoUser]; their responses have bodies of their own. *)

Record Reply (B : Type) : Type := mkReply {
  reply_status : nat;
  reply_body : B
}.
Arguments mkReply {B} _ _.
Arguments reply_status {B} _.
Arguments reply_body {B} _.

Inductive DetailBody : Type :=
| DetailError (error : string)
| Detail (buyer : gmap string JsVal) (history : list HistoryRow).

Inductive DeleteBody : Type :=
| DeleteError (error : string)
| DeleteSuccess.

Inductive LoginBody : Type :=
| LoginError (error : string)
| LoggedIn (user : User).

(** The login response also sets the [user-id] cookie. *)
Record LoginReply : Type := mkLoginReply {
  login_status : nat;
  login_body : LoginBody;
  set_cookie : option string
}.

(** [desc(buyerHistory.changedAt)] *)
Definition changedAt_ge (a b : HistoryRow) : Prop := changedAt b ≤ changedAt a.

#[global] Instance changedAt_ge_dec : RelDecision changedAt_ge.
Proof. intros a b. unfold changedAt_ge. apply _. Defined.

Section MoreHandlers.
Context (host : Host).

(** Modelled from the spec: a history entry is owned by its record and
    "cascades on deletion, or is independently retained"; which of the two
    holds, or whether the database refuses to delete a record that entries
    refer to, is decided by the foreign key declared in [lib/db/schema],
    which is not among the sources.  [history_after_delete doomed history]
    is the history table after the records [doomed] have been deleted, or
    [None] when the database refuses the delete. *)
Variable history_after_delete :
  list (gmap string SqlVal) -> list HistoryRow -> option (list HistoryRow).

(** Modelled from the spec: the text the database driver sends for a
    parameter of a text column; [lib/db] is not among the sources. *)
Variable param_text : JsVal -> string.

(** [db.select().from(buyerHistory).where(cond).orderBy(order).limit(limit)] *)
Definition select_buyerHistory (cond : HistoryRow -> bool)
    (order : list HistoryRow -> list HistoryRow) (limit : nat)
  : M (list HistoryRow) :=
  query host (fun _ t => take limit (order (filter (fun h => cond h) (buyerHistory t)))).

(** [eq(buyerHistory.buyerId, id)] *)
Definition history_of (id : string) (h : HistoryRow) : bool :=
  bool_decide (buyerId h = SqlText id).

(** *** src/app/api/buyers/[id]/route.ts: GET *)

Definition GET_buyer (request : Request) (id : string)
  : World -> Reply DetailBody * World :=
  try_catch
    (user <- requireAuth host request ;;
     buyer <- select_buyers host (sql_eq "id" id) (fun rows => rows) (Some 1%nat) ;;
     match buyer with
     | [] => ret (mkReply 404 (DetailError "Buyer not found"))
     | buyer0 :: _ =>
         history <- select_buyerHistory (history_of id)
                      (merge_sort changedAt_ge) 5 ;;
         ret (mkReply 200 (Detail buyer0 history))
     end)
    (fun _ => mkReply 500 (DetailError "Failed to fetch buyer")).

(** *** src/app/api/buyers/[id]/route.ts: DELETE *)

(** [db.delete(buyers).where(cond)]: the rows that match leave the buyers
    table. *)
Definition delete_buyers (cond : gmap string SqlVal -> bool) : M unit :=
  fun w =>
    let n := statements w in
    let t := db w in
    let failed :=
      (Thrown (Error "database error"),
       mkWorld t (inTransaction w) (commits w) (S n) (parses w)) in
    if statement_fails host n then failed
    else
      match history_after_delete (filter (fun r => cond r) (buyers t))
              (buyerHistory t) with
      | None => failed
      | Some history =>
          let t' := mkTables (users t)
                      (filter (fun r => negb (cond r)) (buyers t)) history in
          (Returned tt,
           mkWorld t' (inTransaction w)
             (if inTransaction w then commits w else t' :: commits w)
             (S n) (parses w))
      end.

Definition DELETE_buyer (request : Request) (id : string)
  : World -> Reply DeleteBody * World :=
  try_catch
    (user <- requireAuth host request ;;
     existingBuyer <- select_buyers host
                        (fun r => sql_eq "id" id r && sql_eq "ownerId" (user_id user) r)
                        (fun rows => rows) (Some 1%nat) ;;
     match existingBuyer with
     | [] => ret (mkReply 404 (DeleteError "Buyer not found or access denied"))
     | _ :: _ =>
         delete_buyers (sql_eq "id" id) ;;;
         ret (mkReply 200 DeleteSuccess)
     end)
    (fun _ => mkReply 500 (DeleteError "Failed to delete buyer")).

(** *** src/lib/auth.ts: createDemoUser *)

(** The name column of a new user: NULL for an undefined or null name. *)
Definition name_column (name : JsVal) : option string :=
  match name with
  | JUndefined | JNull => None
  | _ => Some (param_text name)
  end.

(** [db.insert(users).values({ email, name }).returning()]: the id is
    generated. *)
Definition insert_users (email name : JsVal) : M (list User) :=
  statement host (fun n t =>
    let user := mkUser (randomUUID host n) (param_text email) (name_column name) in
    ([user], mkTables (users t ++ [user]) (buyers t) (buyerHistory t))).

Definition createDemoUser (email name : JsVal) : M User :=
  existingUser <- select_users host
                    (fun u => String.eqb (user_email u) (param_text email)) 1 ;;
  match existingUser with
  | existingUser0 :: _ => ret existingUser0
  | [] =>
      newUser <- insert_users email name ;;
      first_row newUser
  end.

(** *** src/app/api/auth/login/route.ts: POST *)

Definition POST_login (request : Request) : World -> LoginReply * World :=
  try_catch
    (body <- request_json request ;;
     let email := get body "email" in
     let name := get body "name" in
     if negb (truthy email) then
       ret (mkLoginReply 400 (LoginError "Email is required") None)
     else
       user <- createDemoUser email name ;;
       ret (mkLoginReply 200 (LoggedIn user) (Some (user_id user))))
    (fun _ => mkLoginReply 500 (LoginError "Failed to login") None).

End MoreHandlers.

(** *** src/app/api/buyers/route.ts: GET *)

(** [parseInt(s)]: without a radix, a [0x] or [0X] after the sign selects
    base 16. *)
Definition hex_digit (c : ascii) : option Z :=
  match Ascii.is_nat c with
  | Some d => Some (Z.of_nat d)
  | None =>
      let n := Z.of_nat (nat_of_ascii c) in
      if (97 <=? n) && (n <=? 102) then Some (n - 87)
      else if (65 <=? n) && (n <=? 70) then Some (n - 55)
      else None
  end.

Fixpoint leading_hex_digits (acc : option Z) (s : string) : option Z :=
  match s with
  | String c r =>
      match hex_digit c with
      | Some d => leading_hex_digits (Some (16 * default 0 acc + d)) r
      | None => acc
      end
  | EmptyString => acc
  end.

Definition parseInt_any_radix (s : string) : JsVal :=
  let body :=
    match trimStart s with
    | String "-"%char r => (true, r)
    | String "+"%char r => (false, r)
    | r => (false, r)
    end in
  match body.2 with
  | String "0"%char (String x r) =>
      if Ascii.eqb x "x" || Ascii.eqb x "X" then
        match leading_hex_digits None r with
        | Some n => to_double (if body.1 then - n else n)
        | None => JNaN
        end
      else parseInt s
  | _ => parseInt s
  end.

(** [a - b] and [a * b] on what [parseInt] returns: the exact result,
    rounded once. *)
Definition js_sub (a b : JsVal) : JsVal :=
  match a, b with
  | JNum x, JNum y => to_double (x - y)
  | JInfinity s, JNum _ => JInfinity s
  | JNum _, JInfinity s => JInfinity (negb s)
  | JInfinity s, JInfinity t => if Bool.eqb s t then JNaN else JInfinity s
  | _, _ => JNaN
  end.

Definition js_mul (a b : JsVal) : JsVal :=
  match a, b with
  | JNum x, JNum y => to_double (x * y)
  | JInfinity s, JNum y | JNum y, JInfinity s =>
      if y =? 0 then JNaN else JInfinity (xorb s (y <? 0))
  | JInfinity s, JInfinity t => JInfinity (xorb s t)
  | _, _ => JNaN
  end.

(** A number in a JSON response: NaN and the infinities are written as
    null. *)
Definition json_number (v : JsVal) : JsVal :=
  match v with
  | JNaN | JInfinity _ => JNull
  | _ => v
  end.

(** [Math.ceil(total / limit)] in a JSON response, [total] being the length
    of an array: a zero limit gives an infinity or NaN, an infinite one
    gives zero. *)
Definition totalPages_of (total : nat) (limit : JsVal) : JsVal :=
  match limit with
  | JNum l => if l =? 0 then JNull else JNum (- ((- Z.of_nat total) / l))
  | JInfinity _ => JNum 0
  | _ => JNull
  end.

Inductive ListBody : Type :=
| ListError (error : string)
| Listing (buyers : list (gmap string JsVal)) (page limit : JsVal) (total : nat)
    (totalPages : JsVal).

Section ListHandler.
Context (host : Host).

(** Modelled from the spec: what the query builder and the database make
    of [orderBy(asc(buyers[sortBy]))] or [desc], [limit(limit)] and
    [offset(offset)] on the rows that match: the rows of the page, or [None]
    when the query fails.  [lib/db] and the types of the columns are not
    among the sources. *)
Variable page_of : string -> bool -> JsVal -> JsVal ->
                   list (gmap string SqlVal) -> option (list (gmap string SqlVal)).

(** [searchParams.get(name) || fallback] *)
Definition param_or (request : Request) (name fallback : string) : string :=
  toString (js_or (JStr (param request name)) (JStr fallback)).

(** The second query of the handler. *)
Definition select_page (cond : gmap string SqlVal -> bool) (sortBy : string)
    (ascending : bool) (limit offset : JsVal) : M (list (gmap string JsVal)) :=
  fun w =>
    let n := statements w in
    let w' := mkWorld (db w) (inTransaction w) (commits w) (S n) (parses w) in
    if statement_fails host n then (Thrown (Error "database error"), w')
    else
      match page_of sortBy ascending limit offset
              (filter (fun r => cond r) (buyers (db w))) with
      | Some rows => (Returned (fetched n rows), w')
      | None => (Thrown (Error "database error"), w')
      end.

Definition GET_buyers (request : Request) : World -> Reply ListBody * World :=
  try_catch
    (user <- requireAuth host request ;;
     let page := parseInt_any_radix (param_or request "page" "1") in
     let limit := parseInt_any_radix (param_or request "limit" "10") in
     let sortBy := param_or request "sortBy" "updatedAt" in
     let sortOrder := param_or request "sortOrder" "desc" in
     let offset := js_mul (js_sub page (JNum 1)) limit in
     let conditions := whereConditions host request in
     totalCount <- select_buyers host (fun r => forallb (fun c => c r) conditions)
                     (fun rows => rows) None ;;
     buyersList <- select_page (fun r => forallb (fun c => c r) conditions)
                     sortBy (String.eqb sortOrder "asc") limit offset ;;
     ret (mkReply 200
            (Listing buyersList (json_number page) (json_number limit)
               (length totalCount) (totalPages_of (length totalCount) limit))))
    (fun _ => mkReply 500 (ListError "Failed to fetch buyers")).

End ListHandler.

(** ** Sample data for the examples *)

Module Sample.

Definition instant : Z := 1704067200000.
Definition iso : string := "2024-01-01T00:00:00.000Z".

(** The shape of a UUID: 36 characters, hyphens at 8, 13, 18 and 23. *)
Definition uuid_shape (s : string) : bool :=
  (String.length s =? 36)%nat
  && forallb (fun i => match String.get i s with
                       | Some c => Ascii.eqb c "-"
                       | None => false
                       end) [8; 13; 18; 23]%nat.

(** A host in which no statement fails and the limiter lets every request
    pass; an email has an at sign, a UUID has the shape of one, the only date
    string known is [iso], and the n-th statement generates the id that ends
    in the digit n. *)
Definition host : Host := {|
  isEmail := fun s => existsb (Ascii.eqb "@") (list_ascii_of_string s);
  isUuid := uuid_shape;
  Date_parse := fun s => if String.eqb s iso then Some instant else None;
  now := instant;
  randomUUID := fun n => "00000000-0000-4000-8000-00000000000" +:+ pretty n;
  like := fun _ _ => true;
  statement_fails := fun _ => false;
  rateLimit := fun _ _ _ => true
|}.

(** The same host, except that statement number [k] fails. *)
Definition failing (k : nat) : Host := {|
  isEmail := isEmail host;
  isUuid := isUuid host;
  Date_parse := Date_parse host;
  now := now host;
  randomUUID := randomUUID host;
  like := like host;
  statement_fails := fun n => (n =? k)%nat;
  rateLimit := rateLimit host
|}.

Definition alice : User := mkUser "alice" "alice@example.com" None.

Definition no_buyers : Tables := mkTables [alice] [] [].

(** A create payload that passes every field rule: a plot needs no bhk. *)
Definition plot (budgetMin budgetMax : JsVal) : gmap string JsVal :=
  list_to_map [
    ("fullName", JStr "John Doe"); ("phone", JStr "1234567890");
    ("city", JStr "Chandigarh"); ("propertyType", JStr "Plot");
    ("purpose", JStr "Buy"); ("budgetMin", budgetMin); ("budgetMax", budgetMax);
    ("timeline", JStr "3-6m"); ("source", JStr "Website")
  ].

(** The same lead as a CSV row object. *)
Definition plot_row (budgetMin budgetMax : string) : gmap string JsVal :=
  list_to_map [
    ("fullName", JStr "John Doe"); ("phone", JStr "1234567890");
    ("city", JStr "Chandigarh"); ("propertyType", JStr "Plot");
    ("purpose", JStr "Buy"); ("budgetMin", JStr budgetMin);
    ("budgetMax", JStr budgetMax);
    ("timeline", JStr "3-6m"); ("source", JStr "Website")
  ].

(** The records of [src/lib/__tests__/validations.test.ts]. *)
Definition validBuyer : gmap string JsVal :=
  list_to_map [
    ("fullName", JStr "John Doe"); ("email", JStr "john@example.com");
    ("phone", JStr "1234567890"); ("city", JStr "Chandigarh");
    ("propertyType", JStr "Apartment"); ("bhk", JStr "2"); ("purpose", JStr "Buy");
    ("budgetMin", JNum 1000000); ("budgetMax", JNum 2000000);
    ("timeline", JStr "3-6m"); ("source", JStr "Website");
    ("notes", JStr "Looking for a 2BHK apartment");
    ("tags", JArr (InBody "tags") [JStr "urgent"; JStr "premium"])
  ].

Definition buyerWithoutBHK : gmap string JsVal :=
  list_to_map [
    ("fullName", JStr "John Doe"); ("phone", JStr "1234567890");
    ("city", JStr "Chandigarh"); ("propertyType", JStr "Apartment");
    ("purpose", JStr "Buy"); ("timeline", JStr "3-6m"); ("source", JStr "Website")
  ].

Definition buyerWithInvalidBudget : gmap string JsVal :=
  <["bhk" := JStr "2"]>
    (<["budgetMin" := JNum 2000000]>
       (<["budgetMax" := JNum 1000000]> buyerWithoutBHK)).

Definition buyerWithInvalidPhone : gmap string JsVal :=
  <["bhk" := JStr "2"]> (<["phone" := JStr "123"]> buyerWithoutBHK).

Definition csvRow : gmap string JsVal :=
  list_to_map [
    ("fullName", JStr "John Doe"); ("email", JStr "john@example.com");
    ("phone", JStr "1234567890"); ("city", JStr "Chandigarh");
    ("propertyType", JStr "Apartment"); ("bhk", JStr "2"); ("purpose", JStr "Buy");
    ("budgetMin", JStr "1000000"); ("budgetMax", JStr "2000000");
    ("timeline", JStr "3-6m"); ("source", JStr "Website");
    ("notes", JStr "Looking for a 2BHK apartment");
    ("tags", JStr "urgent,premium"); ("status", JStr "New")
  ].

Definition csvRowOfEmptyStrings : gmap string JsVal :=
  list_to_map [
    ("fullName", JStr "John Doe"); ("email", JStr "");
    ("phone", JStr "1234567890"); ("city", JStr "Chandigarh");
    ("propertyType", JStr "Plot"); ("bhk", JStr ""); ("purpose", JStr "Buy");
    ("budgetMin", JStr ""); ("budgetMax", JStr "");
    ("timeline", JStr "3-6m"); ("source", JStr "Website");
    ("notes", JStr ""); ("tags", JStr ""); ("status", JStr "New")
  ].

(** Alice creates the plot lead with the tag vip. *)
Definition create_request : Request :=
  mkRequest (Some "alice")
    (Some (<["tags" := JArr (InBody "tags") [JStr "vip"]]> (plot (JNum 5) (JNum 9))))
    None ∅.

(** The tables after that request, and the row and id of the lead. *)
Definition one_buyer : Tables :=
  db (POST_buyers host create_request (start no_buyers)).2.
Definition stored_row : gmap string SqlVal :=
  default ∅ (head (buyers one_buyer)).
Definition stored_id : string := "00000000-0000-4000-8000-000000000001".

(** Updates of that lead: the payload carries the values the stored record
    has, except for the status and the timestamp given. *)
Definition payload (status : string) (updatedAt : JsVal) : gmap string JsVal :=
  <["updatedAt" := updatedAt]>
    (<["status" := JStr status]>
       (<["tags" := JArr (InBody "tags") [JStr "vip"]]> (plot (JNum 5) (JNum 9)))).

Definition same_values (updatedAt : JsVal) : gmap string JsVal :=
  payload "New" updatedAt.

Definition update_request (updatedAt : JsVal) : Request :=
  mkRequest (Some "alice") (Some (same_values updatedAt)) None ∅.

Definition status_request (status : string) : Request :=
  mkRequest (Some "alice") (Some (payload status (JStr iso))) None ∅.

(** A lead whose name and notes both hold a double quote: Jo, quote, e. *)
Definition quoted_name : string := "Jo" +:+ String dquote "e".
Definition quoted_notes : string :=
  "say " +:+ String dquote "hi" +:+ String dquote EmptyString.

Definition quoted_lead : Tables :=
  db (POST_buyers host
        (mkRequest (Some "alice")
           (Some (<["fullName" := JStr quoted_name]>
                    (<["notes" := JStr quoted_notes]>
                       (<["tags" := JArr (InBody "tags") [JStr "a"; JStr "b"]]>
                          (plot (JNum 5) (JNum 9))))))
           None ∅)
        (start no_buyers)).2.

Definition export_request : Request := mkRequest (Some "alice") None None ∅.

(** The line the export writes for that lead, field by field: the quote in
    the name is single, the quotes in the notes are doubled. *)
Definition q : string := String dquote EmptyString.
Definition wrap (field : string) : string := q +:+ field +:+ q.
Definition exported_line : string :=
  String.concat "," [
    wrap ("Jo" +:+ q +:+ "e"); wrap ""; wrap "1234567890"; wrap "Chandigarh";
    wrap "Plot"; wrap ""; wrap "Buy"; wrap "5"; wrap "9"; wrap "3-6m";
    wrap "Website"; wrap ("say " +:+ q +:+ q +:+ "hi" +:+ q +:+ q);
    wrap "a;b"; wrap "New"
  ].

(** CSV files: a header, a line that validates and one whose name is too
    short. *)
Definition csv_header : string :=
  "fullName,phone,city,propertyType,purpose,timeline,source,budgetMin,budgetMax".
Definition good_line : string :=
  "Jane Roe,9998887777,Mohali,Plot,Buy,0-3m,Website,,".
Definition bad_line : string :=
  "J,9998887777,Mohali,Plot,Buy,0-3m,Website,,".

Definition csv (lines : list string) : string :=
  String.concat (String newline EmptyString) (csv_header :: lines).

(** Ten data rows, the fifth of them invalid. *)
Definition fifth_invalid : string :=
  csv (replicate 4 good_line ++ [bad_line] ++ replicate 5 good_line).

(** 201 data rows. *)
Definition oversized : string := csv (replicate 201 good_line).

Definition upload (text : string) : Request :=
  mkRequest (Some "alice") None (Some text) ∅.

End Sample.

(** The row numbers an import response reports. *)
Definition reported_rows (r : Response) : list nat :=
  match body r with
  | ImportErrors _ errors _ => map row errors
  | _ => []
  end.

(** The host with another rate limiter. *)
Definition with_rateLimit (host : Host) (limiter : RateLimit) : Host := {|
  isEmail := isEmail host;
  isUuid := isUuid host;
  Date_parse := Date_parse host;
  now := now host;
  randomUUID := randomUUID host;
  like := like host;
  statement_fails := statement_fails host;
  rateLimit := limiter
|}.

(** The tables and the visible states are as they were. *)
Definition untouched (w w' : World) : Prop :=
  db w' = db w /\ commits w' = commits w.

(** More sample data: a host whose limiter lets nothing pass, and the world
    in which Alice has just been authenticated. *)
Module Scenario.

Definition throttled : Host := with_rateLimit Sample.host (fun _ _ _ => false).

Definition authenticated (t : Tables) : World := mkWorld t false [] 1 0.

(** What validation returns for a create payload that names an owner. *)
Definition validated_plot : gmap string JsVal :=
  match Zod.parse (isEmail Sample.host) (isUuid Sample.host) createBuyerSchema 0
          (<["ownerId" := JStr "mallory"]> (Sample.plot (JNum 5) (JNum 9))) with
  | inl data => data
  | inr _ => ∅
  end.

(** What validation returns for the plot lead. *)
Definition validated_lead : gmap string JsVal :=
  match Zod.parse (isEmail Sample.host) (isUuid Sample.host) createBuyerSchema 0
          (Sample.plot (JNum 5) (JNum 9)) with
  | inl data => data
  | inr _ => ∅
  end.

(** What validation returns for the update that sets the status of
    Alice's lead to Contacted. *)
Definition validated_update : gmap string JsVal :=
  match Zod.parse (isEmail Sample.host) (isUuid Sample.host) updateBuyerSchema 0
          (<["updatedAt" := get (fetched_row 1 0 Sample.stored_row) "updatedAt"]>
             (<["id" := JStr Sample.stored_id]>
                (Sample.payload "Contacted" (JStr Sample.iso)))) with
  | inl data => data
  | inr _ => ∅
  end.

Definition bob : User := mkUser "bob" "bob@example.com" None.

(** A database that keeps the history entries of a deleted record. *)
Definition retained (doomed : list (gmap string SqlVal)) (history : list HistoryRow)
  : option (list HistoryRow) := Some history.

(** Alice's lead, in a database that Bob uses too. *)
Definition shared : Tables :=
  mkTables [Sample.alice; bob] (buyers Sample.one_buyer)
    (buyerHistory Sample.one_buyer).

Definition as_bob (body : option (gmap string JsVal)) : Request :=
  mkRequest (Some "bob") body None ∅.

(** A driver that sends a string as it is. *)
Definition param_text (v : JsVal) : string := toString v.

Definition login_request (email : string) : Request :=
  mkRequest None (Some {["email" := JStr email]}) None ∅.

(** The file an export of Alice's lead gives, uploaded again. *)
Definition exported_file : string :=
  match body (GET_export Sample.host Sample.export_request (start Sample.one_buyer)).1 with
  | CsvBody content => content
  | _ => ""
  end.

(** A database that can sort by [updatedAt] only, and takes a limit and
    an offset that are natural numbers. *)
Definition page_of (sortBy : string) (ascending : bool) (limit offset : JsVal)
    (rows : list (gmap string SqlVal)) : option (list (gmap string SqlVal)) :=
  match limit, offset with
  | JNum l, JNum o =>
      if String.eqb sortBy "updatedAt" && (0 <=? l) && (0 <=? o) then
        let sorted := orderBy_updatedAt rows in
        Some (take (Z.to_nat l)
                (drop (Z.to_nat o) (if ascending then sorted else reverse sorted)))
      else None
  | _, _ => None
  end.

End Scenario.

(** What a parse that succeeds stores under a key: the value its schema
    produces, or nothing when the key is not declared, or when the value is
    undefined and the input has no such property. *)
Definition validated (host : Host) (o : Zod.ObjectSchema) (call : nat)
    (input : gmap string JsVal) (key : string) : option JsVal :=
  match Zod.property o key with
  | Some schema =>
      let v := Zod.value (Zod.run (isEmail host) (isUuid host) schema
                            (InParsed call key) (get input key)) in
      if Zod.isUndefined v then
        match input !! key with
        | Some _ => Some JUndefined
        | None => None
        end
      else Some v
  | None => None
  end.

(** The concurrency check of an update: [None] when reading the stored
    timestamp throws, otherwise whether the update is refused. *)
Definition conflict (host : Host) (body existingBuyer0 : gmap string JsVal)
  : option bool :=
  if truthy (get body "updatedAt") then
    match get existingBuyer0 "updatedAt" with
    | JDate _ stored =>
        Some (time_differs (Date_getTime_of (Date_parse host) (get body "updatedAt"))
                stored)
    | _ => None
    end
  else Some false.

(** The three columns that identify a record and its owner. *)
Definition identity (r : gmap string SqlVal)
  : option SqlVal * option SqlVal * option SqlVal :=
  (r !! "id", r !! "ownerId", r !! "createdAt").

(** What an update found in the record for a field of the validated data,
    and whether the diff loop reports the field. *)
Definition reported (existingBuyer0 validatedData : gmap string JsVal)
    (key : string) : option Change :=
  match validatedData !! key with
  | Some newValue =>
      if bool_decide (key ∈ ["id"; "updatedAt"; "ownerId"]) then None
      else if strict_eq (get existingBuyer0 key) newValue then None
      else Some (mkChange (get existingBuyer0 key) newValue)
  | None => None
  end.

(** The records and the history entries that the loop of the import
    inserts for the validated rows, the first insert being statement
    number [stmt]: each row takes two statements. *)
Fixpoint imported_rows (host : Host) (user : User) (stmt : nat)
    (validRows : list (gmap string JsVal)) : list (gmap string SqlVal) :=
  match validRows with
  | [] => []
  | rowData :: rest =>
      inserted_row host stmt (<["ownerId" := JStr (user_id user)]> rowData)
      :: imported_rows host user (S (S stmt)) rest
  end.

Fixpoint imported_entries (host : Host) (user : User) (stmt : nat)
    (validRows : list (gmap string JsVal)) : list HistoryRow :=
  match validRows with
  | [] => []
  | rowData :: rest =>
      mkHistoryRow (randomUUID host (S stmt))
        (default SqlNull
           (inserted_row host stmt (<["ownerId" := JStr (user_id user)]> rowData)
              !! "id"))
        (SqlText (user_id user)) (now host)
        {["created" := mkChange JNull (JStr "Imported from CSV")]}
      :: imported_entries host user (S (S stmt)) rest
  end.

(** The values of an enum schema. *)
Definition values_of (s : Zod.Schema) : list string :=
  match s with
  | Zod.ZEnum values => values
  | _ => []
  end.

(** The fields of a lead that are enums in both the create schema and the
    CSV schema. *)
Definition enum_fields : list (string * Zod.Schema) :=
  [("city", cityEnum); ("propertyType", propertyTypeEnum); ("purpose", purposeEnum);
   ("timeline", timelineEnum); ("source", sourceEnum)].

(** A string without a comma. *)
Definition comma_free (s : string) : bool :=
  forallb (fun c => negb (Ascii.eqb c ",")) (list_ascii_of_string s).

(** * Properties *)

(** ** The repository's tests, on the model

    The assertions of [validations.test.ts] that zod's rules bear out.  The
    last test also expects email and bhk to come out undefined; an empty
    string is accepted by the [z.literal('')] branch and comes out as the
    empty string. *)

Example should_validate_a_valid_buyer :
  accepted_with
    (Zod.parse (isEmail Sample.host) (isUuid Sample.host) createBuyerSchema 0
       Sample.validBuyer) ["status"] = Some [JStr "New"].
Proof. vm_compute. reflexivity. Qed.

Example should_require_BHK_for_Apartment_and_Villa :
  first_issue_path
    (Zod.parse (isEmail Sample.host) (isUuid Sample.host) createBuyerSchema 0
       Sample.buyerWithoutBHK) = Some ["bhk"].
Proof. vm_compute. reflexivity. Qed.

Example should_validate_budget_constraints :
  first_issue_path
    (Zod.parse (isEmail Sample.host) (isUuid Sample.host) createBuyerSchema 0
       Sample.buyerWithInvalidBudget) = Some ["budgetMax"].
Proof. vm_compute. reflexivity. Qed.

Example should_validate_phone_number_format :
  first_issue_path
    (Zod.parse (isEmail Sample.host) (isUuid Sample.host) createBuyerSchema 0
       Sample.buyerWithInvalidPhone) = Some ["phone"].
Proof. vm_compute. reflexivity. Qed.

Example should_validate_CSV_row_with_string_numbers :
  accepted_with
    (Zod.parse (isEmail Sample.host) (isUuid Sample.host) csvImportRowSchema 0
       Sample.csvRow) ["budgetMin"; "budgetMax"; "tags"]
  = Some [JNum 1000000; JNum 2000000;
          JArr (InParsed 0 "tags") [JStr "urgent"; JStr "premium"]].
Proof. vm_compute. reflexivity. Qed.

Example should_handle_empty_strings_in_CSV :
  accepted_with
    (Zod.parse (isEmail Sample.host) (isUuid Sample.host) csvImportRowSchema 0
       Sample.csvRowOfEmptyStrings)
    ["budgetMin"; "budgetMax"; "tags"; "email"; "bhk"]
  = Some [JUndefined; JUndefined; JArr (InParsed 0 "tags") []; JStr ""; JStr ""].
Proof. vm_compute. reflexivity. Qed.

(** ** The budget rule (C6) *)

(** The refinement fails exactly on two numbers, both non-zero, with the
    maximum below the minimum: a zero is falsy and ends the [&&] chain. *)
Lemma budgetRefinement_fails_iff (data : gmap string JsVal) (lo hi : Z) :
  get data "budgetMin" = JNum lo ->
  get data "budgetMax" = JNum hi ->
  budgetRefinement data = false <-> lo <> 0 /\ hi <> 0 /\ hi < lo.
Proof.
  intros Hlo Hhi. unfold budgetRefinement, js_and, js_lt. rewrite Hlo, Hhi.
  cbn [truthy].
  destruct (Z.eqb_spec lo 0) as [E1|E1].
  { subst lo. cbn. split; [discriminate | lia]. }
  destruct (Z.eqb_spec hi 0) as [E2|E2].
  { subst hi. cbn. split; [discriminate | lia]. }
  apply Z.eqb_neq in E1 as E1'. apply Z.eqb_neq in E2 as E2'.
  cbn. rewrite ?E1', ?E2'. cbn. rewrite ?E1', ?E2'. cbn.
  destruct (Z.ltb_spec hi lo); cbn; split; intros; try discriminate; lia.
Qed.

(** An absent bound never fails the rule. *)
Lemma budgetRefinement_absent (data : gmap string JsVal) :
  get data "budgetMin" = JUndefined \/ get data "budgetMax" = JUndefined ->
  budgetRefinement data = true.
Proof.
  unfold budgetRefinement, js_and.
  intros [H|H]; rewrite H; simpl; [reflexivity|].
  destruct (truthy (get data "budgetMin")) eqn:E; simpl; rewrite ?E; simpl;
    rewrite ?E; reflexivity.
Qed.

(** C6, the code at the failing input: with budgetMin 5 and budgetMax 0 both
    bounds are present and the maximum is below the minimum, yet the create
    schema and the CSV schema both accept the record, and the refinement
    itself holds. *)
Theorem budget_rule_accepts_zero_maximum :
  accepted_with
    (Zod.parse (isEmail Sample.host) (isUuid Sample.host) createBuyerSchema 0
       (Sample.plot (JNum 5) (JNum 0)))
    ["budgetMin"; "budgetMax"] = Some [JNum 5; JNum 0]
  /\ accepted_with
    (Zod.parse (isEmail Sample.host) (isUuid Sample.host) csvImportRowSchema 0
       (Sample.plot_row "5" "0"))
    ["budgetMin"; "budgetMax"] = Some [JNum 5; JNum 0]
  /\ budgetRefinement (Sample.plot (JNum 5) (JNum 0)) = true.
Proof. vm_compute. auto. Qed.

(** ** Issues of an object parse *)

Lemma flat_map_nil_inv {A B} (f : A -> list B) (l : list A) (x : A) :
  flat_map f l = [] -> In x l -> f x = [].
Proof.
  induction l as [|y l IH]; simpl; [done|].
  intros [H1 H2]%app_eq_nil [->|Hin]; auto.
Qed.

Section ObjectIssues.
Context (isEmail isUuid : string -> bool).

Lemma run_properties_issues call input shape acc :
  Zod.object_issues (foldl (Zod.run_property isEmail isUuid call input) acc shape)
  = (Zod.object_issues acc ++
     flat_map (fun e => Zod.prefixIssues e.1
                 (Zod.issues (Zod.run isEmail isUuid e.2 (InParsed call e.1)
                                (get input e.1)))) shape)%list.
Proof.
  revert acc. induction shape as [|e shape IH]; intros acc; simpl.
  - by rewrite app_nil_r.
  - rewrite IH. simpl. by rewrite <- app_assoc.
Qed.

Lemma run_refinements_issues refinements acc :
  exists more,
    Zod.object_issues (foldl Zod.run_refinement acc refinements)
    = (Zod.object_issues acc ++ more)%list.
Proof.
  revert acc. induction refinements as [|r rs IH]; intros acc; simpl.
  - exists []. by rewrite app_nil_r.
  - destruct (IH (Zod.run_refinement acc r)) as [more ->].
    unfold Zod.run_refinement.
    destruct (Zod.aborted _); [by eexists|].
    destruct (Zod.holds _ _); [by eexists|].
    simpl. eexists. by rewrite <- app_assoc.
Qed.

(** An issue of one property fails the parse of the object. *)
Lemma property_issue_fails_parse o call input key schema :
  (key, schema) ∈ Zod.shape o ->
  Zod.issues (Zod.run isEmail isUuid schema (InParsed call key) (get input key)) <> [] ->
  exists issues, Zod.parse isEmail isUuid o call input = inr issues.
Proof.
  intros Hin Hne. unfold Zod.parse, Zod.run_object.
  destruct (run_refinements_issues (Zod.refinements o)
              (foldl (Zod.run_property isEmail isUuid call input)
                 (Zod.mkObjectPayload ∅ []) (Zod.shape o))) as [more ->].
  rewrite run_properties_issues. simpl.
  match goal with |- context [match ?l with _ => _ end] =>
    destruct l as [|i l'] eqn:El end; [|by eexists].
  exfalso. apply app_eq_nil in El as [El _].
  apply list_elem_of_In in Hin.
  pose proof (flat_map_nil_inv _ _ _ El Hin) as Hall. simpl in Hall.
  unfold Zod.prefixIssues in Hall. apply map_eq_nil in Hall. done.
Qed.

End ObjectIssues.

(** ** Budget cells of the CSV mode (C7) *)

Lemma leading_digits_Some acc s : leading_digits (Some acc) s <> None.
Proof.
  revert acc. induction s as [|c s IH]; intros acc; simpl; [done|].
  destruct (Ascii.is_nat c); [apply IH | done].
Qed.

(** No integer is read exactly when no digit follows the white space and
    the sign. *)
Lemma integer_prefix_None_iff (s : string) :
  integer_prefix s = None <->
  match after_sign s with
  | String c _ => Ascii.is_nat c = None
  | EmptyString => True
  end.
Proof.
  unfold integer_prefix, after_sign.
  set (body := match trimStart s with
               | String "-"%char r => (true, r)
               | String "+"%char r => (false, r)
               | r => (false, r)
               end).
  assert (Hbody : body.2 = match trimStart s with
                           | String "-"%char r => r
                           | String "+"%char r => r
                           | r => r
                           end).
  { subst body. destruct (trimStart s) as [|c r]; [done|].
    destruct c as [[] [] [] [] [] [] [] []]; reflexivity. }
  rewrite <- Hbody. destruct (body.2) as [|c r]; simpl; [done|].
  destruct (Ascii.is_nat c) eqn:Ec.
  - destruct (leading_digits (Some _) r) eqn:E.
    + split; discriminate.
    + by apply leading_digits_Some in E.
  - done.
Qed.

Lemma to_double_not_NaN n : to_double n <> JNaN.
Proof.
  unfold to_double. destruct (Z.abs n <? 2 ^ 53); [done|]. cbv zeta.
  by destruct (2 ^ 1024 <=? _).
Qed.

Lemma to_double_cases n :
  (exists m, to_double n = JNum m) \/ (exists b, to_double n = JInfinity b).
Proof.
  unfold to_double. destruct (Z.abs n <? 2 ^ 53); [by left; eexists|]. cbv zeta.
  destruct (2 ^ 1024 <=? _); [right|left]; by eexists.
Qed.

(** [parseInt] gives NaN exactly when no digit follows the white space and
    the sign. *)
Lemma parseInt_NaN_iff (s : string) :
  parseInt s = JNaN <->
  match after_sign s with
  | String c _ => Ascii.is_nat c = None
  | EmptyString => True
  end.
Proof.
  rewrite <- integer_prefix_None_iff. unfold parseInt.
  destruct (integer_prefix s) as [n|]; [|done].
  split; [|done]. intros H. by apply to_double_not_NaN in H.
Qed.

(** Up to 2^53 - 1 in either direction the Number is the integer. *)
Lemma to_double_safe n :
  (-9007199254740991) <= n <= 9007199254740991 -> to_double n = JNum n.
Proof.
  intros Hn. unfold to_double.
  assert ((Z.abs n <? 2 ^ 53) = true) as ->; [|done].
  apply Z.ltb_lt. change (2 ^ 53) with 9007199254740992. lia.
Qed.

(** Beyond that it is an infinity or a number that is at least 2^53 away
    from zero, on the side of the integer. *)
Lemma to_double_unsafe n :
  9007199254740991 < Z.abs n ->
  to_double n = JInfinity (n <? 0)
  \/ exists m, 9007199254740991 < m
               /\ to_double n = JNum (if n <? 0 then - m else m).
Proof.
  intros Hn. unfold to_double.
  assert ((Z.abs n <? 2 ^ 53) = false) as ->.
  { apply Z.ltb_ge. change (2 ^ 53) with 9007199254740992. lia. }
  cbv zeta. destruct (2 ^ 1024 <=? _); [by left|]. right.
  set (a := Z.abs n) in *. set (e := Z.log2 a - 52).
  eexists. split; [|reflexivity].
  assert (Ha : 0 < a) by lia.
  destruct (Z.log2_spec a Ha) as [Hlo _].
  assert (Hlog : 53 <= Z.log2 a).
  { apply Z.log2_le_pow2; [done|]. change (2 ^ 53) with 9007199254740992. lia. }
  assert (He : 1 <= e) by (subst e; lia).
  assert (Hpow : 2 ^ Z.log2 a = 2 ^ 52 * 2 ^ e).
  { subst e. rewrite <- Z.pow_add_r by lia. f_equal. lia. }
  assert (H2e : 2 <= 2 ^ e).
  { change 2 with (2 ^ 1) at 1. apply Z.pow_le_mono_r; lia. }
  assert (Hq : 2 ^ 52 <= a / 2 ^ e).
  { apply Z.div_le_lower_bound; [lia|]. rewrite Z.mul_comm, <- Hpow. done. }
  set (q := a / 2 ^ e) in *.
  match goal with |- _ < (if ?b then _ else _) * _ => destruct b end.
  - change (2 ^ 52) with 4503599627370496 in Hq.
    assert (4503599627370496 * 2 <= (q + 1) * 2 ^ e)
      by (apply Z.mul_le_mono_nonneg; lia).
    lia.
  - change (2 ^ 52) with 4503599627370496 in Hq.
    assert (4503599627370496 * 2 <= q * 2 ^ e)
      by (apply Z.mul_le_mono_nonneg; lia).
  lia.
Qed.

(** Whatever follows the digits is ignored. *)
Lemma leading_digits_ignores_tail acc digits c rest :
  forallb (fun d => bool_decide (is_Some (Ascii.is_nat d)))
    (list_ascii_of_string digits) = true ->
  Ascii.is_nat c = None ->
  leading_digits acc (digits +:+ String c rest) = leading_digits acc digits.
Proof.
  revert acc. induction digits as [|d digits IH]; intros acc Hd Hc; simpl.
  - by rewrite Hc.
  - simpl in Hd. apply andb_prop in Hd as [Hd1 Hd2].
    apply bool_decide_eq_true in Hd1 as [n Hn]. rewrite Hn. by apply IH.
Qed.

(** A string that begins with a digit has no white space or sign to skip. *)
Lemma integer_prefix_digit d s :
  is_Some (Ascii.is_nat d) ->
  integer_prefix (String d s) = leading_digits None (String d s).
Proof.
  intros [k Hk]. unfold integer_prefix.
  destruct d as [[] [] [] [] [] [] [] []]; try discriminate Hk;
    cbn [trimStart Ascii.is_space fst snd];
    by destruct (leading_digits None _).
Qed.

Lemma csv_budget_property key schema :
  key ∈ ["budgetMin"; "budgetMax"] ->
  Zod.property csvImportRowSchema key = Some schema ->
  schema = csvBudgetCell /\ (key, schema) ∈ Zod.shape csvImportRowSchema.
Proof.
  assert (Hmin : Zod.property csvImportRowSchema "budgetMin" = Some csvBudgetCell)
    by reflexivity.
  assert (Hmax : Zod.property csvImportRowSchema "budgetMax" = Some csvBudgetCell)
    by reflexivity.
  intros Hk Hs.
  apply elem_of_cons in Hk as [->|Hk];
    [|apply elem_of_cons in Hk as [->|Hk]; [|by apply elem_of_nil in Hk]];
    rewrite ?Hmin, ?Hmax in Hs; injection Hs as <-; (split; [reflexivity|]).
  - do 7 apply list_elem_of_further. apply list_elem_of_here.
  - do 8 apply list_elem_of_further. apply list_elem_of_here.
Qed.

Lemma csv_budget_run isEmail isUuid here cell :
  Zod.run isEmail isUuid csvBudgetCell here (JStr cell) =
  if String.eqb cell "" then Zod.ok JUndefined
  else match parseInt cell with
       | JNum n =>
           Zod.mkPayload (JNum n)
             (Zod.check_issue Zod.too_big None (n <=? 9007199254740991)
              ++ Zod.check_issue Zod.too_small None (-9007199254740991 <=? n)
              ++ Zod.check_issue Zod.too_small None (0 <=? n))
       | v => Zod.abort Zod.invalid_type v
       end.
Proof.
  cbn -[parseInt Z.leb]. unfold budgetTransform. cbn [truthy toString].
  destruct (String.eqb cell "") eqn:E; cbn -[parseInt Z.leb]; [reflexivity|].
  unfold parseInt. destruct (integer_prefix cell) as [n|]; [|reflexivity].
  destruct (to_double_cases n) as [(m & ->)|(b & ->)]; cbn -[Z.leb]; [|reflexivity].
  by rewrite app_nil_r, app_assoc.
Qed.

(** C7, amended: in CSV mode, for each of the two budget cells, the empty
    string is coerced to absent; a non-empty cell is read by parseInt, which
    takes the digits after optional white space and sign and ignores
    whatever follows them: the field is that integer when it lies between 0
    and 2^53 - 1, and the field and with it the whole row fail when the
    integer is negative or above 2^53 - 1, or when no digit follows the
    white space and sign.  The last four parts say what is read: the digits
    up to the first other character, after the white space and the sign. *)
Theorem csv_budget_cell (host : Host) (key : string) (schema : Zod.Schema)
    (here : Loc) (cell : string) :
  key ∈ ["budgetMin"; "budgetMax"] ->
  Zod.property csvImportRowSchema key = Some schema ->
  let r := Zod.run (isEmail host) (isUuid host) schema here (JStr cell) in
  let row_fails :=
    forall call rowData, rowData !! key = Some (JStr cell) ->
      exists issues,
        Zod.parse (isEmail host) (isUuid host) csvImportRowSchema call rowData
        = inr issues in
  (cell = "" -> r = Zod.ok JUndefined)
  /\ (cell <> "" -> forall n, integer_prefix cell = Some n ->
        0 <= n <= 9007199254740991 -> r = Zod.ok (JNum n))
  /\ (cell <> "" -> forall n, integer_prefix cell = Some n ->
        n < 0 \/ 9007199254740991 < n -> Zod.issues r <> [] /\ row_fails)
  /\ (cell <> "" ->
        match after_sign cell with
        | String c _ => Ascii.is_nat c = None
        | EmptyString => True
        end ->
        integer_prefix cell = None /\ Zod.issues r <> [] /\ row_fails)
  /\ (forall d digits c rest,
        forallb (fun x => bool_decide (is_Some (Ascii.is_nat x)))
          (list_ascii_of_string (String d digits)) = true ->
        Ascii.is_nat c = None ->
        integer_prefix (String d digits +:+ String c rest)
        = integer_prefix (String d digits))
  /\ (forall c s, Ascii.is_space c = true ->
        integer_prefix (String c s) = integer_prefix s)
  /\ (forall s, integer_prefix (String "-" s) = Z.opp <$> leading_digits None s
                /\ integer_prefix (String "+" s) = leading_digits None s)
  /\ (forall d s, is_Some (Ascii.is_nat d) ->
        integer_prefix (String d s) = leading_digits None (String d s)).
Proof.
  intros Hk Hs r row_fails.
  destruct (csv_budget_property key schema Hk Hs) as [-> Hin].
  assert (Hrow : Zod.issues r <> [] -> row_fails).
  { intros Hr call rowData Hcell.
    eapply property_issue_fails_parse; [exact Hin|].
    unfold get. rewrite Hcell.
    change (default JUndefined (Some (JStr cell))) with (JStr cell).
    assert (Hhere : forall l1 l2,
              Zod.issues (Zod.run (isEmail host) (isUuid host) csvBudgetCell l1 (JStr cell))
              = Zod.issues (Zod.run (isEmail host) (isUuid host) csvBudgetCell l2
                              (JStr cell)))
      by (intros l1 l2; by rewrite !csv_budget_run).
    by rewrite (Hhere _ here). }
  assert (Hbad : forall n, cell <> "" -> integer_prefix cell = Some n ->
                   n < 0 \/ 9007199254740991 < n -> Zod.issues r <> []).
  { intros n Hne Hn Hrange. subst r. rewrite csv_budget_run.
    apply String.eqb_neq in Hne. rewrite Hne. unfold parseInt. rewrite Hn.
    destruct (Z_le_gt_dec (Z.abs n) 9007199254740991) as [Hsafe|Hunsafe].
    - rewrite to_double_safe by lia. unfold Zod.check_issue. cbn [Zod.issues].
      destruct (Z.leb_spec 0 n); [lia|]. intros Hnil.
      by apply app_eq_nil in Hnil as [_ [_ Hnil]%app_eq_nil].
    - destruct (to_double_unsafe n) as [->|(m & Hm & ->)]; [lia|done|].
      unfold Zod.check_issue. cbn [Zod.issues].
      destruct (Z.ltb_spec n 0).
      + destruct (Z.leb_spec (-9007199254740991) (- m)); [lia|]. intros Hnil.
        by apply app_eq_nil in Hnil as [_ [Hnil _]%app_eq_nil].
      + destruct (Z.leb_spec m 9007199254740991); [lia|]. intros Hnil.
        by apply app_eq_nil in Hnil as [Hnil _]. }
  split; [|split; [|split; [|split; [|split; [|split; [|split]]]]]].
  - intros ->. subst r. by rewrite csv_budget_run.
  - intros Hne n Hn Hrange. subst r. rewrite csv_budget_run.
    apply String.eqb_neq in Hne. rewrite Hne. unfold parseInt.
    rewrite Hn, to_double_safe by lia. unfold Zod.check_issue.
    destruct (Z.leb_spec n 9007199254740991); [|lia].
    destruct (Z.leb_spec (-9007199254740991) n); [|lia].
    destruct (Z.leb_spec 0 n); [done|lia].
  - intros Hne n Hn Hrange. split; [by apply (Hbad n)|].
    by apply Hrow, (Hbad n).
  - intros Hne Hnodigit.
    assert (Hr : Zod.issues r <> []).
    { subst r. rewrite csv_budget_run. apply String.eqb_neq in Hne. rewrite Hne.
      apply parseInt_NaN_iff in Hnodigit. by rewrite Hnodigit. }
    split; [by apply integer_prefix_None_iff|]. split; [done|by apply Hrow].
  - intros d digits c rest Hdigits Hc.
    assert (Hd : is_Some (Ascii.is_nat d)).
    { cbn [list_ascii_of_string forallb] in Hdigits.
      apply andb_prop in Hdigits as [Hd _]. by apply bool_decide_eq_true in Hd. }
    change (String d digits +:+ String c rest)
      with (String d (digits +:+ String c rest)).
    rewrite !integer_prefix_digit by done.
    change (String d (digits +:+ String c rest))
      with (String d digits +:+ String c rest).
    by apply leading_digits_ignores_tail.
  - intros c s Hc. unfold integer_prefix. cbn [trimStart]. by rewrite Hc.
  - intros s. unfold integer_prefix. cbn [trimStart Ascii.is_space fst snd].
    by destruct (leading_digits None s).
  - intros d s Hd. by apply integer_prefix_digit.
Qed.

Lemma csv_budget_cell_witness :
  Zod.run (isEmail Sample.host) (isUuid Sample.host) csvBudgetCell
    (InParsed 0 "budgetMin") (JStr "1000000")
  = Zod.ok (JNum 1000000).
Proof.
  refine (proj1 (proj2 (csv_budget_cell Sample.host "budgetMin" csvBudgetCell
                          (InParsed 0 "budgetMin") "1000000" _ _))
            _ 1000000 _ _).
  - apply list_elem_of_here.
  - reflexivity.
  - discriminate.
  - reflexivity.
  - lia.
Defined.

(** C7 as stated fails: the cell 12abc is not empty and not numeric, and the
    row is accepted with the budget 12. *)
Lemma csv_budget_cell_counterexample :
  numeric "12abc" = false
  /\ accepted_with
       (Zod.parse (isEmail Sample.host) (isUuid Sample.host) csvImportRowSchema 0
          (Sample.plot_row "12abc" ""))
       ["budgetMin"] = Some [JNum 12].
Proof. vm_compute. auto. Qed.

(** The budget cell 9007199254740993 is numeric, and the row is rejected:
    [parseInt] reads it as 2^53, which is no safe integer. *)
Example csv_budget_beyond_safe_integers :
  numeric "9007199254740993" = true
  /\ parseInt "9007199254740993" = JNum 9007199254740992
  /\ accepted_with
       (Zod.parse (isEmail Sample.host) (isUuid Sample.host) csvImportRowSchema 0
          (Sample.plot_row "9007199254740993" ""))
       ["budgetMin"] = None.
Proof. vm_compute. auto. Qed.

(** ** CSV import (C3, C8, C10) *)

Lemma getCurrentUser_world host request w o w' :
  getCurrentUser host request w = (o, w') ->
  db w' = db w /\ inTransaction w' = inTransaction w
  /\ commits w' = commits w /\ parses w' = parses w.
Proof.
  unfold getCurrentUser. intros H.
  destruct (cookie request) as [userId|]; [|by inversion H].
  destruct (negb (truthy (JStr userId))); [by inversion H|].
  unfold catch, bind, select_users, query, ret in H.
  destruct (statement_fails host (statements w)); by inversion H.
Qed.

Lemma requireAuth_world host request w o w' :
  requireAuth host request w = (o, w') ->
  db w' = db w /\ inTransaction w' = inTransaction w
  /\ commits w' = commits w /\ parses w' = parses w.
Proof.
  unfold requireAuth, bind. intros H.
  destruct (getCurrentUser host request w) as [[[u|]|e] w1] eqn:E;
    apply getCurrentUser_world in E; unfold ret, throw in H; by inversion H; subst.
Qed.

Lemma validate_row_outcome host headers s r index w :
  validate_row host headers s r index w =
  (Returned
     match row_outcome host headers (parses w) r with
     | inl data => (s.1, (s.2 ++ [data])%list)
     | inr issues => ((s.1 ++ [mkRowError (index + 2) (ZodError issues)])%list, s.2)
     end,
   mkWorld (db w) (inTransaction w) (commits w) (statements w) (S (parses w))).
Proof.
  unfold validate_row, catch, bind, parse, ret, row_outcome.
  destruct (Zod.parse _ _ _ _ _); reflexivity.
Qed.

Lemma validate_rows host headers rows : forall index errors valid w,
  forEach (validate_row host headers) rows index (errors, valid) w =
  (Returned ((errors ++ failed_rows host headers (parses w) index rows)%list,
             (valid ++ passed_rows host headers (parses w) rows)%list),
   mkWorld (db w) (inTransaction w) (commits w) (statements w)
     (parses w + length rows)).
Proof.
  induction rows as [|r rows IH]; intros index errors valid w;
    cbn [forEach failed_rows passed_rows length].
  - unfold ret. rewrite !app_nil_r, Nat.add_0_r. by destruct w.
  - unfold bind at 1. rewrite validate_row_outcome.
    destruct (row_outcome host headers (parses w) r) as [data|issues];
      cbn [fst snd]; rewrite IH; cbn [parses db inTransaction commits statements];
      rewrite <- !app_assoc; cbn [app];
      replace (S (parses w) + length rows)%nat with (parses w + S (length rows))%nat
        by lia; reflexivity.
Qed.

Lemma elem_of_failed_rows host headers rows : forall call index e,
  e ∈ failed_rows host headers call index rows <->
  exists i row_ issues,
    rows !! i = Some row_
    /\ row_outcome host headers (call + i) row_ = inr issues
    /\ e = mkRowError (index + i + 2) (ZodError issues).
Proof.
  induction rows as [|r rows IH]; intros call index e; cbn [failed_rows].
  - split; [by intros ?%elem_of_nil | by intros (i & ? & ? & ? & _)].
  - rewrite elem_of_app, IH. split.
    + intros [He|(i & row_ & issues & Hi & Ho & ->)].
      * destruct (row_outcome host headers call r) as [|issues] eqn:E;
          [by apply elem_of_nil in He|].
        apply list_elem_of_singleton in He as ->.
        exists 0%nat, r, issues. rewrite !Nat.add_0_r. done.
      * exists (S i), row_, issues. simpl.
        replace (call + S i)%nat with (S call + i)%nat by lia.
        replace (index + S i + 2)%nat with (S index + i + 2)%nat by lia. done.
    + intros ([|i] & row_ & issues & Hi & Ho & ->); simpl in Hi.
      * left. simplify_eq. rewrite Nat.add_0_r in Ho. rewrite Ho.
        rewrite Nat.add_0_r. apply list_elem_of_singleton. done.
      * right. exists i, row_, issues.
        replace (S call + i)%nat with (call + S i)%nat by lia.
        replace (S index + i + 2)%nat with (index + S i + 2)%nat by lia. done.
Qed.

(** The response of an import whose batch was parsed and has a failing
    row. *)
Lemma POST_import_rejected host request w user w1 text :
  requireAuth host request w = (Returned user, w1) ->
  file request = Some text ->
  nonblank_lines text <> [] ->
  (length (drop 1 (nonblank_lines text)) <= 200)%nat ->
  let headers := map trim (split "," (default EmptyString (head (nonblank_lines text)))) in
  let dataRows := drop 1 (nonblank_lines text) in
  let errors := failed_rows host headers (parses w1) 0 dataRows in
  errors <> [] ->
  POST_import host request w =
  (mkResponse 400
     (ImportErrors "Validation errors found" errors
        (length (passed_rows host headers (parses w1) dataRows))),
   mkWorld (db w1) (inTransaction w1) (commits w1) (statements w1)
     (parses w1 + length dataRows)).
Proof.
  intros Hauth Hfile Hlines Hsize headers dataRows errors Herrors.
  unfold POST_import, try_catch. unfold bind at 1. rewrite Hauth, Hfile.
  cbv zeta. subst errors dataRows headers.
  destruct (nonblank_lines text) as [|l ls] eqn:El; [done|].
  cbn [length Nat.eqb].
  apply Nat.ltb_ge in Hsize. rewrite Hsize.
  unfold bind at 1. rewrite validate_rows. cbn [fst snd app].
  match goal with |- context [failed_rows ?a ?b ?c ?d ?e] =>
    destruct (failed_rows a b c d e) as [|e' es] eqn:Ee end; [done|].
  reflexivity.
Qed.

(** C3: when a row of a parsed batch fails validation, nothing is committed
    (the tables and the list of visible states are as before), and the one
    response carries an error for every failing row: data row [i] is
    reported with the issues of its parse. *)
Theorem import_is_all_or_nothing (host : Host) (request : Request) (w w1 : World)
    (user : User) (text : string) :
  requireAuth host request w = (Returned user, w1) ->
  file request = Some text ->
  nonblank_lines text <> [] ->
  (length (drop 1 (nonblank_lines text)) <= 200)%nat ->
  let headers := map trim (split "," (default EmptyString (head (nonblank_lines text)))) in
  let dataRows := drop 1 (nonblank_lines text) in
  (exists i row_ issues,
      dataRows !! i = Some row_
      /\ row_outcome host headers (parses w + i) row_ = inr issues) ->
  let r := POST_import host request w in
  db r.2 = db w /\ commits r.2 = commits w
  /\ exists errors validRows,
       r.1 = mkResponse 400 (ImportErrors "Validation errors found" errors validRows)
       /\ forall i row_ issues,
            dataRows !! i = Some row_ ->
            row_outcome host headers (parses w + i) row_ = inr issues ->
            mkRowError (i + 2) (ZodError issues) ∈ errors.
Proof.
  intros Hauth Hfile Hlines Hsize headers dataRows (i & row_ & issues & Hi & Ho) r.
  destruct (requireAuth_world _ _ _ _ _ Hauth) as (Hdb & _ & Hcommits & Hparses).
  assert (Hreported : forall i row_ issues,
             dataRows !! i = Some row_ ->
             row_outcome host headers (parses w + i) row_ = inr issues ->
             mkRowError (i + 2) (ZodError issues)
               ∈ failed_rows host headers (parses w1) 0 dataRows).
  { intros j rj ij Hj Hoj. apply elem_of_failed_rows.
    exists j, rj, ij. rewrite Hparses. done. }
  assert (Herrors : failed_rows host headers (parses w1) 0 dataRows <> []).
  { intros E. specialize (Hreported _ _ _ Hi Ho). rewrite E in Hreported.
    by apply elem_of_nil in Hreported. }
  subst r.
  rewrite (POST_import_rejected host request w user w1 text Hauth Hfile Hlines Hsize Herrors).
  cbn [fst snd db commits]. split; [done|]. split; [done|].
  eexists _, _. split; [reflexivity|]. exact Hreported.
Qed.

Lemma import_is_all_or_nothing_witness :
  let r := POST_import Sample.host (Sample.upload Sample.fifth_invalid)
             (start Sample.no_buyers) in
  db r.2 = Sample.no_buyers /\ commits r.2 = [] /\ reported_rows r.1 = [6%nat].
Proof.
  destruct (import_is_all_or_nothing Sample.host (Sample.upload Sample.fifth_invalid)
              (start Sample.no_buyers)
              (mkWorld Sample.no_buyers false [] 1 0) Sample.alice Sample.fifth_invalid)
    as (Hdb & Hcommits & _).
  - reflexivity.
  - reflexivity.
  - vm_compute. discriminate.
  - vm_compute. lia.
  - exists 4%nat, Sample.bad_line. eexists. split; [vm_compute; reflexivity|].
    vm_compute. reflexivity.
  - intros r. split; [exact Hdb|]. split; [exact Hcommits|].
    vm_compute. reflexivity.
Defined.

(** C8, amended: every reported error carries the zero-based index of its
    data row plus 2, and every failing row is reported so: the first data
    row reports as row 2 and the fifth as row 6. *)
Theorem import_error_row_numbers (host : Host) (request : Request) (w w1 : World)
    (user : User) (text : string) :
  requireAuth host request w = (Returned user, w1) ->
  file request = Some text ->
  nonblank_lines text <> [] ->
  (length (drop 1 (nonblank_lines text)) <= 200)%nat ->
  let headers := map trim (split "," (default EmptyString (head (nonblank_lines text)))) in
  let dataRows := drop 1 (nonblank_lines text) in
  (exists i row_ issues,
      dataRows !! i = Some row_
      /\ row_outcome host headers (parses w + i) row_ = inr issues) ->
  exists errors validRows,
    (POST_import host request w).1
    = mkResponse 400 (ImportErrors "Validation errors found" errors validRows)
    /\ (forall e, e ∈ errors ->
          exists i row_ issues,
            dataRows !! i = Some row_
            /\ row_outcome host headers (parses w + i) row_ = inr issues
            /\ e = mkRowError (i + 2) (ZodError issues))
    /\ (forall i row_ issues,
          dataRows !! i = Some row_ ->
          row_outcome host headers (parses w + i) row_ = inr issues ->
          mkRowError (i + 2) (ZodError issues) ∈ errors).
Proof.
  intros Hauth Hfile Hlines Hsize headers dataRows (i & row_ & issues & Hi & Ho).
  destruct (requireAuth_world _ _ _ _ _ Hauth) as (_ & _ & _ & Hparses).
  assert (Herrors : failed_rows host headers (parses w1) 0 dataRows <> []).
  { intros E.
    assert (mkRowError (i + 2) (ZodError issues)
              ∈ failed_rows host headers (parses w1) 0 dataRows) as Hin.
    { apply elem_of_failed_rows. exists i, row_, issues. rewrite Hparses. done. }
    rewrite E in Hin. by apply elem_of_nil in Hin. }
  rewrite (POST_import_rejected host request w user w1 text Hauth Hfile Hlines Hsize Herrors).
  eexists _, _. split; [reflexivity|]. rewrite Hparses. split.
  - intros e He. apply elem_of_failed_rows in He. exact He.
  - intros j rj ij Hj Hoj. apply elem_of_failed_rows. exists j, rj, ij. done.
Qed.

Lemma import_error_row_numbers_witness :
  exists errors validRows,
    (POST_import Sample.host (Sample.upload Sample.fifth_invalid)
       (start Sample.no_buyers)).1
    = mkResponse 400 (ImportErrors "Validation errors found" errors validRows)
    /\ forall e, e ∈ errors -> exists i, (i < 10)%nat /\ row e = (i + 2)%nat.
Proof.
  destruct (import_error_row_numbers Sample.host (Sample.upload Sample.fifth_invalid)
              (start Sample.no_buyers)
              (mkWorld Sample.no_buyers false [] 1 0) Sample.alice Sample.fifth_invalid)
    as (errors & validRows & Hr & Hrows & _).
  - reflexivity.
  - reflexivity.
  - vm_compute. discriminate.
  - vm_compute. lia.
  - exists 4%nat, Sample.bad_line. eexists. split; [vm_compute; reflexivity|].
    vm_compute. reflexivity.
  - exists errors, validRows. split; [exact Hr|].
    intros e He. destruct (Hrows e He) as (i & row_ & issues & Hi & _ & ->).
    exists i. split; [|reflexivity].
    apply lookup_lt_Some in Hi. vm_compute in Hi. lia.
Defined.

(** C8 as stated fails: in a batch of ten data rows whose fifth is the
    invalid one, the only row number reported is 6, not 7. *)
Lemma import_fifth_row_counterexample :
  reported_rows
    (POST_import Sample.host (Sample.upload Sample.fifth_invalid)
       (start Sample.no_buyers)).1 = [6%nat]
  /\ 7%nat ∉ reported_rows
       (POST_import Sample.host (Sample.upload Sample.fifth_invalid)
          (start Sample.no_buyers)).1.
Proof.
  assert (E : reported_rows
    (POST_import Sample.host (Sample.upload Sample.fifth_invalid)
       (start Sample.no_buyers)).1 = [6%nat]) by (vm_compute; reflexivity).
  rewrite E. split; [reflexivity|].
  intros H. apply list_elem_of_singleton in H. discriminate.
Qed.

(** C10: a file with more than 200 data rows is rejected with the batch
    size error; no row was validated (the count of schema parses is as
    before) and nothing was written. *)
Theorem import_rejects_oversized_batch (host : Host) (request : Request)
    (w w1 : World) (user : User) (text : string) :
  requireAuth host request w = (Returned user, w1) ->
  file request = Some text ->
  (200 < length (drop 1 (nonblank_lines text)))%nat ->
  let r := POST_import host request w in
  r.1 = mkResponse 400 (ErrorBody "Maximum 200 rows allowed")
  /\ parses r.2 = parses w
  /\ db r.2 = db w /\ commits r.2 = commits w.
Proof.
  intros Hauth Hfile Hsize r. subst r.
  destruct (requireAuth_world _ _ _ _ _ Hauth) as (Hdb & _ & Hcommits & Hparses).
  assert (E : POST_import host request w
              = (mkResponse 400 (ErrorBody "Maximum 200 rows allowed"), w1)).
  { unfold POST_import, try_catch. unfold bind at 1. rewrite Hauth, Hfile.
    cbv zeta.
    destruct (nonblank_lines text) as [|l ls] eqn:El; [simpl in Hsize; lia|].
    cbn [length Nat.eqb].
    apply Nat.ltb_lt in Hsize. rewrite Hsize. reflexivity. }
  rewrite E. cbn [fst snd]. done.
Qed.

Lemma import_rejects_oversized_batch_witness :
  let r := POST_import Sample.host (Sample.upload Sample.oversized)
             (start Sample.no_buyers) in
  r.1 = mkResponse 400 (ErrorBody "Maximum 200 rows allowed")
  /\ parses r.2 = 0%nat
  /\ db r.2 = Sample.no_buyers /\ commits r.2 = [].
Proof.
  apply (import_rejects_oversized_batch Sample.host (Sample.upload Sample.oversized)
           (start Sample.no_buyers)
           (mkWorld Sample.no_buyers false [] 1 0) Sample.alice Sample.oversized).
  - reflexivity.
  - reflexivity.
  - vm_compute. lia.
Defined.

(** ** Updates: the concurrency check (C4, C5) *)

Lemma fetched_updatedAt stmt i (r : gmap string SqlVal) t :
  r !! "updatedAt" = Some (SqlTimestamp t) ->
  get (fetched_row stmt i r) "updatedAt" = JDate (InRow stmt i "updatedAt") (Some t).
Proof.
  intros H. unfold get, fetched_row. rewrite map_lookup_imap, H. reflexivity.
Qed.

Lemma time_differs_true a t : a <> Some t -> time_differs a (Some t) = true.
Proof.
  intros H. destruct a as [x|]; [|reflexivity]. simpl.
  destruct (Z.eqb_spec x t); [congruence | reflexivity].
Qed.

Lemma time_differs_false t : time_differs (Some t) (Some t) = false.
Proof. simpl. by rewrite Z.eqb_refl. Qed.

(** C4: once the request is authenticated, within its rate limit, and the
    record exists and is owned by the caller, a supplied timestamp that is
    not the stored one gives Conflict, and neither the tables nor the list
    of visible states change. *)
Theorem stale_update_conflicts (host : Host) (request : Request) (id : string)
    (w w1 : World) (user : User) (body : gmap string JsVal)
    (existing : gmap string SqlVal) (rest : list (gmap string SqlVal)) (t : Z) :
  requireAuth host request w = (Returned user, w1) ->
  rateLimit host ("update:" +:+ user_id user) 10%nat 60000 = true ->
  json request = Some body ->
  statement_fails host (statements w1) = false ->
  filter (fun r => sql_eq "id" id r && sql_eq "ownerId" (user_id user) r)
    (buyers (db w)) = existing :: rest ->
  existing !! "updatedAt" = Some (SqlTimestamp t) ->
  truthy (get body "updatedAt") = true ->
  Date_getTime_of (Date_parse host) (get body "updatedAt") <> Some t ->
  let r := PUT_buyer host request id w in
  r.1 = mkResponse 409 (ErrorBody "Record changed, please refresh")
  /\ db r.2 = db w /\ commits r.2 = commits w.
Proof.
  intros Hauth Hrate Hjson Hok Hrow Ht Hsupplied Hstale r. subst r.
  destruct (requireAuth_world _ _ _ _ _ Hauth) as (Hdb & _ & Hcommits & _).
  assert (E : PUT_buyer host request id w
              = (mkResponse 409 (ErrorBody "Record changed, please refresh"),
                 mkWorld (db w) (inTransaction w1) (commits w1)
                   (S (statements w1)) (parses w1))).
  { unfold PUT_buyer, try_catch. unfold bind at 1. rewrite Hauth, Hrate.
    cbn [negb]. unfold request_json. rewrite Hjson. unfold bind at 1, ret at 1.
    unfold bind at 1. unfold select_buyers, query. rewrite Hok.
    rewrite Hdb, Hrow. cbn [take fetched imap].
    rewrite Hsupplied, (fetched_updatedAt _ _ _ _ Ht).
    unfold bind, getTime, ret. rewrite (time_differs_true _ _ Hstale).
    reflexivity. }
  rewrite E. cbn [fst snd db commits]. done.
Qed.

Lemma stale_update_conflicts_witness :
  let r := PUT_buyer Sample.host (Sample.update_request (JNum 1)) Sample.stored_id
             (start Sample.one_buyer) in
  r.1 = mkResponse 409 (ErrorBody "Record changed, please refresh")
  /\ db r.2 = Sample.one_buyer /\ commits r.2 = [].
Proof.
  apply (stale_update_conflicts Sample.host (Sample.update_request (JNum 1))
           Sample.stored_id (start Sample.one_buyer)
           (mkWorld Sample.one_buyer false [] 1 0) Sample.alice
           (Sample.same_values (JNum 1)) Sample.stored_row [] Sample.instant).
  - vm_cast_no_check (eq_refl (Returned Sample.alice,
                               mkWorld Sample.one_buyer false [] 1 0)).
  - reflexivity.
  - reflexivity.
  - reflexivity.
  - vm_cast_no_check (eq_refl [Sample.stored_row]).
  - vm_cast_no_check (eq_refl (Some (SqlTimestamp Sample.instant))).
  - vm_compute. reflexivity.
  - vm_compute. discriminate.
Defined.

(** The response and the tables of an update that passes the gates, the
    concurrency check and validation while no statement fails. *)
Lemma PUT_buyer_applied host request id w w1 user body existing rest validatedData :
  requireAuth host request w = (Returned user, w1) ->
  rateLimit host ("update:" +:+ user_id user) 10%nat 60000 = true ->
  json request = Some body ->
  (forall n, statement_fails host n = false) ->
  filter (fun r => sql_eq "id" id r && sql_eq "ownerId" (user_id user) r)
    (buyers (db w)) = existing :: rest ->
  (truthy (get body "updatedAt") = true ->
   exists t, existing !! "updatedAt" = Some (SqlTimestamp t)
             /\ Date_getTime_of (Date_parse host) (get body "updatedAt") = Some t) ->
  let existingBuyer0 := fetched_row (statements w1) 0 existing in
  Zod.parse (isEmail host) (isUuid host) updateBuyerSchema (parses w1)
    (<["updatedAt" := get existingBuyer0 "updatedAt"]> (<["id" := JStr id]> body))
  = inl validatedData ->
  let diff := calculate_diff existingBuyer0 validatedData in
  let rows :=
    map (fun r => if sql_eq "id" id r
                  then set_columns
                         (<["updatedAt" := JDate (InHandler "updatedAt") (Some (now host))]>
                            validatedData) r
                  else r) (buyers (db w)) in
  (PUT_buyer host request id w).1
  = mkResponse 200
      (BuyerBody (head (fetched (S (statements w1)) (filter (fun r => sql_eq "id" id r) rows))))
  /\ db (PUT_buyer host request id w).2
     = mkTables (users (db w)) rows
         (buyerHistory (db w) ++
          if (0 <? size diff)%nat
          then [mkHistoryRow (randomUUID host (S (S (statements w1))))
                  (SqlText id) (SqlText (user_id user)) (now host) diff]
          else []).
Proof.
  intros Hauth Hrate Hjson Hok Hrow Hpass existingBuyer0 Hparse diff rows.
  destruct (requireAuth_world _ _ _ _ _ Hauth) as (Hdb & _ & Hcommits & _).
  assert (exists w', PUT_buyer host request id w
            = (mkResponse 200
                 (BuyerBody (head (fetched (S (statements w1))
                                     (filter (fun r => sql_eq "id" id r) rows)))), w')
            /\ db w' = mkTables (users (db w)) rows
                 (buyerHistory (db w) ++
                  if (0 <? size diff)%nat
                  then [mkHistoryRow (randomUUID host (S (S (statements w1))))
                          (SqlText id) (SqlText (user_id user)) (now host) diff]
                  else [])) as (w' & E & Hw').
  { unfold PUT_buyer, try_catch. unfold bind at 1. rewrite Hauth, Hrate.
    cbn [negb]. unfold request_json. rewrite Hjson. unfold bind at 1, ret at 1.
    unfold bind at 1. unfold select_buyers, query. rewrite Hok.
    rewrite Hdb, Hrow. cbn [take fetched imap]. fold existingBuyer0.
    assert (Hconflict :
      forall w2, (if truthy (get body "updatedAt")
       then stored <- getTime (get existingBuyer0 "updatedAt") ;;
            ret (time_differs (Date_getTime_of (Date_parse host) (get body "updatedAt")) stored)
       else ret false) w2 = (Returned false, w2)).
    { intros w2. destruct (truthy (get body "updatedAt")) eqn:Et; [|reflexivity].
      destruct (Hpass eq_refl) as (t & Ht & Hd). subst existingBuyer0.
      rewrite (fetched_updatedAt _ _ _ _ Ht), Hd.
      unfold bind, getTime, ret. by rewrite time_differs_false. }
    unfold bind at 1. rewrite Hconflict.
    unfold bind at 1. unfold parse at 1. cbn [parses]. rewrite Hparse.
    fold diff.
    unfold bind at 1. unfold update_buyers, statement. cbn [statements]. rewrite Hok.
    cbn [fst snd db buyers users buyerHistory]. fold rows.
    unfold bind at 1.
    destruct (0 <? size diff)%nat.
    - unfold insert_buyerHistory, statement. cbn [statements]. rewrite Hok.
      cbn [fst snd db buyers users buyerHistory]. unfold ret.
      eexists. split; reflexivity.
    - unfold ret. eexists. split; [reflexivity|]. cbn [db]. by rewrite app_nil_r. }
  rewrite E. cbn [fst snd]. done.
Qed.

(** C5: when the payload has no truthy [updatedAt], the concurrency check
    is skipped: Conflict is never the response, whatever the stored
    timestamp is; and when the request passes the gates and validation and
    no statement fails, the update is applied to the stored row. *)
Theorem update_without_timestamp_skips_check (host : Host) (request : Request)
    (id : string) (w : World) :
  (forall body, json request = Some body -> truthy (get body "updatedAt") = false) ->
  status (PUT_buyer host request id w).1 <> 409%nat
  /\ forall w1 user body existing rest validatedData,
       requireAuth host request w = (Returned user, w1) ->
       rateLimit host ("update:" +:+ user_id user) 10%nat 60000 = true ->
       json request = Some body ->
       (forall n, statement_fails host n = false) ->
       filter (fun r => sql_eq "id" id r && sql_eq "ownerId" (user_id user) r)
         (buyers (db w)) = existing :: rest ->
       Zod.parse (isEmail host) (isUuid host) updateBuyerSchema (parses w1)
         (<["updatedAt" := get (fetched_row (statements w1) 0 existing) "updatedAt"]>
            (<["id" := JStr id]> body))
       = inl validatedData ->
       status (PUT_buyer host request id w).1 = 200%nat
       /\ buyers (db (PUT_buyer host request id w).2)
          = map (fun r => if sql_eq "id" id r
                          then set_columns
                                 (<["updatedAt" := JDate (InHandler "updatedAt")
                                                     (Some (now host))]> validatedData) r
                          else r) (buyers (db w)).
Proof.
  intros Hfalsy. split.
  - unfold PUT_buyer, try_catch.
    unfold bind at 1.
    destruct (requireAuth host request w) as [[user|e] w1]; [|by destruct e].
    destruct (negb (rateLimit host _ _ _)); [by simpl|].
    unfold request_json. destruct (json request) as [body|] eqn:Hjson; [|by simpl].
    unfold bind at 1, ret at 1. unfold bind at 1.
    destruct (select_buyers host _ _ _ w1) as [[rows|e] w2]; [|by destruct e].
    destruct rows as [|existing ?]; [by simpl|].
    rewrite (Hfalsy _ eq_refl). unfold bind at 1, ret at 1.
    unfold bind at 1.
    destruct (parse host updateBuyerSchema _ w2) as [[validatedData|e] w3];
      [|by destruct e].
    unfold bind at 1.
    destruct (update_buyers host _ _ w3) as [[updated|e] w4]; [|by destruct e].
    unfold bind at 1.
    match goal with |- context [(if ?c then ?a else ?b) w4] =>
      destruct ((if c then a else b) w4) as [[?|e] w5] end; [|by destruct e].
    simpl. discriminate.
  - intros w1 user body existing rest validatedData Hauth Hrate Hjson Hok Hrow Hparse.
    destruct (PUT_buyer_applied host request id w w1 user body existing rest
                validatedData Hauth Hrate Hjson Hok Hrow) as [E1 E2]; [|exact Hparse|].
    + intros Ht. rewrite (Hfalsy _ Hjson) in Ht. discriminate.
    + rewrite E1, E2. done.
Qed.

Lemma update_without_timestamp_skips_check_witness :
  status (PUT_buyer Sample.host (Sample.update_request JUndefined) Sample.stored_id
            (start Sample.one_buyer)).1 <> 409%nat.
Proof.
  refine (proj1 (update_without_timestamp_skips_check Sample.host
                   (Sample.update_request JUndefined) Sample.stored_id
                   (start Sample.one_buyer) _)).
  intros body H. injection H as <-. vm_compute. reflexivity.
Defined.

(** ** Updates: the change set (C2) *)

Lemma calculate_diff_lookup existing validatedData key :
  calculate_diff existing validatedData !! key =
  match validatedData !! key with
  | Some newValue =>
      if bool_decide (key ≠ "id" ∧ key ≠ "updatedAt" ∧ key ≠ "ownerId") then
        if strict_eq (get existing key) newValue then None
        else Some (mkChange (get existing key) newValue)
      else None
  | None => None
  end.
Proof.
  unfold calculate_diff. rewrite map_lookup_imap.
  destruct (validatedData !! key) as [newValue|]; simpl; [|done].
  case_bool_decide; [|done]. by destruct (strict_eq _ _).
Qed.

(** An array of the validated data is never the array the driver built for
    the stored row, so a [tags] property is always reported as changed,
    whatever its items are. *)
Lemma tags_always_differ stmt i (r : gmap string SqlVal) validatedData items call new_items :
  r !! "tags" = Some (SqlTextArray items) ->
  validatedData !! "tags" = Some (JArr (InParsed call "tags") new_items) ->
  calculate_diff (fetched_row stmt i r) validatedData !! "tags"
  = Some (mkChange (JArr (InRow stmt i "tags") (map JStr items))
            (JArr (InParsed call "tags") new_items)).
Proof.
  intros Hr Hv. rewrite calculate_diff_lookup, Hv.
  unfold get, fetched_row. rewrite map_lookup_imap, Hr. reflexivity.
Qed.

(** A property whose stored and validated values are the same string
    or number is not part of the change set. *)
Lemma equal_primitives_not_reported existing validatedData key v :
  validatedData !! key = Some v ->
  get existing key = v ->
  (exists s, v = JStr s) \/ (exists n, v = JNum n) ->
  calculate_diff existing validatedData !! key = None.
Proof.
  intros Hv He Hprim. rewrite calculate_diff_lookup, Hv, He.
  case_bool_decide; [|done].
  destruct Hprim as [[s ->]|[n ->]]; simpl.
  - by rewrite String.eqb_refl.
  - by rewrite Z.eqb_refl.
Qed.

(** C2, the code at the failing input: the payload carries the values the
    stored record has, with the matching timestamp; the update succeeds,
    and a history entry is inserted whose change set has the one key
    [tags], with the same items as old and as new value. *)
Theorem noop_update_inserts_history :
  let r := PUT_buyer Sample.host (Sample.update_request (JStr Sample.iso))
             Sample.stored_id (start Sample.one_buyer) in
  forallb (fun e => bool_decide (to_sql e.2 = Sample.stored_row !! e.1))
    (map_to_list (delete "updatedAt" (Sample.same_values (JStr Sample.iso)))) = true
  /\ status r.1 = 200%nat
  /\ length (buyerHistory Sample.one_buyer) = 1%nat
  /\ map (fun h => map_to_list (diff h)) (drop 1 (buyerHistory (db r.2)))
     = [[("tags", mkChange (JArr (InRow 1 0 "tags") [JStr "vip"])
                    (JArr (InParsed 0 "tags") [JStr "vip"]))]].
Proof. vm_compute. auto. Qed.

(** ** Atomicity of the writes (C1) *)

Lemma to_sql_to_js stmt i c v : to_sql (to_js stmt i c v) = Some v.
Proof.
  destruct v; simpl; try reflexivity.
  rewrite map_map. simpl. by rewrite map_id.
Qed.

Lemma has_history_extend t row h :
  every_buyer_has_history t = true ->
  row !! "id" = Some (buyerId h) ->
  every_buyer_has_history
    (mkTables (users t) (buyers t ++ [row]) (buyerHistory t ++ [h])) = true.
Proof.
  unfold every_buyer_has_history, has_history. simpl. intros Hall Hid.
  rewrite forallb_app. apply andb_true_intro. split.
  - rewrite forallb_forall in Hall |- *. intros r Hr.
    rewrite existsb_app. by rewrite (Hall r Hr).
  - simpl. rewrite existsb_app. simpl.
    rewrite (bool_decide_eq_true_2 _ Hid). by rewrite !orb_true_r.
Qed.

Lemma fetched_row_id stmt i (r : gmap string SqlVal) v :
  r !! "id" = Some v ->
  default SqlNull (to_sql (get (fetched_row stmt i r) "id")) = v.
Proof.
  intros H. unfold get, fetched_row. rewrite map_lookup_imap, H. simpl.
  by rewrite to_sql_to_js.
Qed.

Lemma inserted_row_id host stmt values :
  inserted_row host stmt values !! "id"
  = Some (default (column_default host stmt "id") (to_sql (get values "id"))).
Proof.
  unfold inserted_row.
  change buyerColumns with ("id" :: tail buyerColumns). cbn [map list_to_map].
  apply lookup_insert_eq.
Qed.

Lemma import_row_step host user results rowData idx w :
  inTransaction w = true ->
  match import_row host user results rowData idx w with
  | (Returned rs, w') =>
      length rs = S (length results)
      /\ (every_buyer_has_history (db w) = true ->
          every_buyer_has_history (db w') = true)
      /\ commits w' = commits w /\ inTransaction w' = true
  | (Thrown _, w') => commits w' = commits w /\ inTransaction w' = true
  end.
Proof.
  destruct w as [[us bs hs] tx cs n p]. cbn [inTransaction]. intros ->.
  unfold import_row, bind, insert_buyers, insert_buyerHistory, statement.
  cbn [statements inTransaction].
  destruct (statement_fails host n); [done|].
  cbn [fst snd fetched imap first_row ret inTransaction commits statements db].
  destruct (statement_fails host (S n)); [done|].
  cbn [fst snd inTransaction commits db users buyers buyerHistory]. unfold ret.
  split; [by rewrite length_app, Nat.add_1_r|]. split; [|done].
  intros Hall. apply (has_history_extend (mkTables us bs hs)); [done|]. cbn [buyerId].
  rewrite inserted_row_id. f_equal. symmetry. apply fetched_row_id.
  apply inserted_row_id.
Qed.

Lemma import_rows_loop host user rows : forall idx results w,
  inTransaction w = true ->
  match forEach (import_row host user) rows idx results w with
  | (Returned rs, w') =>
      length rs = (length results + length rows)%nat
      /\ (every_buyer_has_history (db w) = true ->
          every_buyer_has_history (db w') = true)
      /\ commits w' = commits w /\ inTransaction w' = true
  | (Thrown _, w') => commits w' = commits w /\ inTransaction w' = true
  end.
Proof.
  induction rows as [|r rows IH]; intros idx results w Htx; cbn [forEach length].
  - unfold ret. by rewrite Nat.add_0_r.
  - unfold bind. pose proof (import_row_step host user results r idx w Htx) as Hstep.
    destruct (import_row host user results r idx w) as [[rs|e] w']; [|done].
    destruct Hstep as (Hlen & Hhist & Hcommits & Htx').
    specialize (IH (S idx) rs w' Htx').
    destruct (forEach (import_row host user) rows (S idx) rs w') as [[rs'|e] w''].
    + destruct IH as (Hlen' & Hhist' & Hcommits' & Htx'').
      repeat split; [lia | auto | congruence | done].
    + destruct IH as (Hcommits' & Htx''). split; [congruence | done].
Qed.

(** The import is atomic: either it leaves the tables and the visible states
    as they were, or it succeeds and makes one new state visible, in which
    every buyer has a history entry if that held before. *)
Lemma POST_import_atomic host request w :
  inTransaction w = false ->
  let r := POST_import host request w in
  (db r.2 = db w /\ commits r.2 = commits w)
  \/ (status r.1 = 200%nat
      /\ commits r.2 = db r.2 :: commits w
      /\ (every_buyer_has_history (db w) = true ->
          every_buyer_has_history (db r.2) = true)).
Proof.
  intros Htx r. subst r.
  destruct (POST_import host request w) as [response w'] eqn:E. cbn [fst snd].
  unfold POST_import, try_catch in E. unfold bind at 1 in E.
  destruct (requireAuth host request w) as [[user|e] w1] eqn:Hauth;
    destruct (requireAuth_world _ _ _ _ _ Hauth) as (Hdb & Htx1 & Hcommits & _);
    [|left; by inversion E; subst].
  destruct (file request) as [text|]; [|left; by inversion E; subst].
  cbv zeta in E.
  destruct (length (nonblank_lines text) =? 0)%nat; [left; by inversion E; subst|].
  destruct (200 <? length (drop 1 (nonblank_lines text)))%nat;
    [left; by inversion E; subst|].
  unfold bind at 1 in E. rewrite validate_rows in E. cbn [fst snd] in E.
  destruct (0 <? length _)%nat; [left; by inversion E; subst|].
  unfold bind at 1, transaction in E.
  cbn [db commits statements parses inTransaction] in E.
  match type of E with context [forEach (import_row host user) ?rows 0%nat [] ?w0] =>
    pose proof (import_rows_loop host user rows 0%nat [] w0 eq_refl) as Hloop;
    destruct (forEach (import_row host user) rows 0%nat [] w0) as [[rs|e] w2]
  end.
  - destruct Hloop as (_ & Hhist & Hcommits2 & _). right.
    inversion E; subst. cbn [fst snd status db commits] in *.
    rewrite Hcommits2, Hcommits, <- Hdb. done.
  - destruct Hloop as (Hcommits2 & _). left.
    inversion E; subst. cbn [fst snd db commits] in *. rewrite Hcommits2. done.
Qed.

Lemma insert_buyers_run host values w :
  insert_buyers host values w =
  if statement_fails host (statements w) then
    (Thrown (Error "database error"),
     mkWorld (db w) (inTransaction w) (commits w) (S (statements w)) (parses w))
  else
    let t := mkTables (users (db w))
               (buyers (db w) ++ [inserted_row host (statements w) values])
               (buyerHistory (db w)) in
    (Returned [fetched_row (statements w) 0 (inserted_row host (statements w) values)],
     mkWorld t (inTransaction w)
       (if inTransaction w then commits w else t :: commits w)
       (S (statements w)) (parses w)).
Proof.
  unfold insert_buyers, statement.
  destruct (statement_fails host (statements w)); reflexivity.
Qed.

Lemma insert_buyerHistory_run host buyer changer d w :
  insert_buyerHistory host buyer changer d w =
  if statement_fails host (statements w) then
    (Thrown (Error "database error"),
     mkWorld (db w) (inTransaction w) (commits w) (S (statements w)) (parses w))
  else
    let t := mkTables (users (db w)) (buyers (db w))
               (buyerHistory (db w) ++
                [mkHistoryRow (randomUUID host (statements w))
                   (default SqlNull (to_sql buyer)) (default SqlNull (to_sql changer))
                   (now host) d]) in
    (Returned tt,
     mkWorld t (inTransaction w)
       (if inTransaction w then commits w else t :: commits w)
       (S (statements w)) (parses w)).
Proof.
  unfold insert_buyerHistory, statement.
  destruct (statement_fails host (statements w)); reflexivity.
Qed.

Lemma parse_world host schema input w o w' :
  parse host schema input w = (o, w') ->
  db w' = db w /\ inTransaction w' = inTransaction w /\ commits w' = commits w
  /\ statements w' = statements w.
Proof.
  unfold parse. destruct (Zod.parse _ _ _ _ _); intros H;
    apply (f_equal snd) in H; cbn [snd] in H; by subst w'.
Qed.

(** A create that answers 201 made two states visible: first the one with
    the new record and the history as it was, then the one with the history
    entry. *)
Lemma POST_buyers_commits_twice host request w :
  inTransaction w = false ->
  let r := POST_buyers host request w in
  status r.1 = 201%nat ->
  exists between,
    commits r.2 = db r.2 :: between :: commits w
    /\ length (buyers between) = S (length (buyers (db w)))
    /\ buyerHistory between = buyerHistory (db w)
    /\ length (buyerHistory (db r.2)) = S (length (buyerHistory (db w))).
Proof.
  intros Htx r. subst r. pattern (POST_buyers host request w).
  match goal with |- ?Q _ => set (P := Q) end.
  unfold POST_buyers, try_catch. unfold bind at 1.
  destruct (requireAuth host request w) as [[user|e] w1] eqn:Hauth;
    [|by destruct e].
  destruct (requireAuth_world _ _ _ _ _ Hauth) as (Hdb & Htx1 & Hcommits & _).
  destruct (negb (rateLimit host _ _ _)); [done|].
  unfold request_json. destruct (json request) as [body|]; [|done].
  unfold bind at 1, ret at 1. unfold bind at 1.
  destruct (parse host createBuyerSchema body w1) as [[validatedData|e] w2] eqn:Hparse;
    [|by destruct e].
  destruct (parse_world _ _ _ _ _ _ Hparse) as (Hdb2 & Htx2 & Hcommits2 & _).
  unfold bind at 1. rewrite insert_buyers_run.
  destruct (statement_fails host (statements w2)); [done|].
  cbv zeta. unfold bind at 1, first_row, ret at 1.
  unfold bind at 1. rewrite insert_buyerHistory_run.
  cbn [statements]. destruct (statement_fails host (S (statements w2))); [done|].
  cbv zeta. unfold ret. subst P.
  cbn [fst snd db commits inTransaction buyers buyerHistory users].
  intros _. rewrite Htx2, Htx1, Htx, Hcommits2, Hcommits, Hdb2, Hdb.
  eexists. split; [reflexivity|]. cbn [buyers buyerHistory].
  rewrite !length_app. cbn [length]. repeat split; lia.
Qed.


(** C1, the code at the failing input.  A create makes the record visible
    before its history entry: of the two states it commits, the earlier one
    has a buyer without history.  When the history insert fails, the create
    answers 500 and the record stays, without history; likewise an update
    that changes the status answers 500 and leaves the changed record with
    no entry for the change.  The import, whose writes are in one
    transaction, leaves nothing behind under the same failure. *)
Theorem create_and_update_are_not_atomic :
  (let created := POST_buyers Sample.host Sample.create_request
                    (start Sample.no_buyers) in
   status created.1 = 201%nat
   /\ map every_buyer_has_history (commits created.2) = [true; false])
  /\ (let failed := POST_buyers (Sample.failing 2) Sample.create_request
                      (start Sample.no_buyers) in
      status failed.1 = 500%nat
      /\ length (buyers (db failed.2)) = 1%nat
      /\ buyerHistory (db failed.2) = []
      /\ every_buyer_has_history (db failed.2) = false)
  /\ (let updated := PUT_buyer (Sample.failing 3) (Sample.status_request "Contacted")
                       Sample.stored_id (start Sample.one_buyer) in
      status updated.1 = 500%nat
      /\ map (fun r => r !! "status") (buyers (db updated.2))
         = [Some (SqlText "Contacted")]
      /\ buyerHistory (db updated.2) = buyerHistory Sample.one_buyer)
  /\ (let imported := POST_import (Sample.failing 2)
                        (Sample.upload (Sample.csv [Sample.good_line; Sample.good_line]))
                        (start Sample.no_buyers) in
      status imported.1 = 500%nat
      /\ db imported.2 = Sample.no_buyers
      /\ commits imported.2 = []).
Proof. vm_compute. repeat split; reflexivity. Qed.

(** ** CSV export (C9) *)

#[global] Instance updatedAt_le_total : Total updatedAt_le.
Proof.
  intros a b. unfold updatedAt_le.
  destruct (a !! "updatedAt") as [[]|], (b !! "updatedAt") as [[]|]; auto; lia.
Qed.

(** The rows come out in ascending order of [updatedAt]. *)
Lemma orderBy_updatedAt_sorted rows : Sorted updatedAt_le (orderBy_updatedAt rows).
Proof. apply Sorted_merge_sort. apply _. Qed.

Lemma orderBy_updatedAt_permutation rows : orderBy_updatedAt rows ≡ₚ rows.
Proof. apply merge_sort_Permutation. Qed.

(** The file of an authenticated export whose query does not fail: the
    header, then one line per selected row, in the order of the query. *)
Lemma GET_export_content host request w user w1 :
  requireAuth host request w = (Returned user, w1) ->
  statement_fails host (statements w1) = false ->
  (GET_export host request w).1
  = mkResponse 200
      (CsvBody
         (String.concat (String newline EmptyString)
            (String.concat "," csv_headers
             :: map csv_row
                  (fetched (statements w1)
                     (orderBy_updatedAt
                        (filter (fun r => forallb (fun c => c r) (whereConditions host request))
                           (buyers (db w)))))))).
Proof.
  intros Hauth Hok.
  destruct (requireAuth_world _ _ _ _ _ Hauth) as (Hdb & _).
  unfold GET_export, try_catch. unfold bind at 1. rewrite Hauth.
  cbv zeta. unfold bind at 1. unfold select_buyers, query. rewrite Hok, Hdb.
  reflexivity.
Qed.

(** Tags are joined with a semicolon. *)
Lemma csv_fields_tags buyer l items :
  get buyer "tags" = JArr l (map JStr items) ->
  csv_fields buyer !! 12%nat = Some (JStr (String.concat ";" items)).
Proof.
  intros H. unfold csv_fields. rewrite H. cbn [lookup list_lookup js_or truthy items_of].
  unfold join. rewrite map_map. cbn [toString]. by rewrite map_id.
Qed.

(** C9, the code at the failing input: the exported line of a lead whose
    name is Jo, quote, e: the quote of the name is written as it is, only
    the quotes of the notes are doubled. *)
Theorem export_doubles_quotes_only_in_notes :
  (GET_export Sample.host Sample.export_request (start Sample.quoted_lead)).1
  = mkResponse 200
      (CsvBody (String.concat (String newline EmptyString)
                  [String.concat "," csv_headers; Sample.exported_line])).
Proof. vm_compute. reflexivity. Qed.

(** * Further properties of the handlers *)

(** ** Authentication *)

Lemma requireAuth_returns host request w user w1 :
  requireAuth host request w = (Returned user, w1) ->
  cookie request = Some (user_id user)
  /\ user_id user <> ""
  /\ head (filter (fun u => String.eqb (user_id u) (user_id user)) (users (db w)))
     = Some user.
Proof.
  unfold requireAuth, bind, getCurrentUser.
  destruct (cookie request) as [userId|]; [|by unfold ret, throw].
  destruct (negb (truthy (JStr userId))) eqn:Hid; [by unfold ret, throw|].
  unfold catch, bind, select_users, query, ret, throw.
  destruct (statement_fails host (statements w)); [done|].
  destruct (filter _ (users (db w))) as [|u rest] eqn:Hf; [done|].
  cbn [take head]. intros H. assert (u = user) as -> by congruence. clear H.
  assert (Hin : user ∈ filter (fun u => String.eqb (user_id u) userId) (users (db w)))
    by (rewrite Hf; apply list_elem_of_here).
  apply list_elem_of_filter in Hin as [Heq _].
  apply Is_true_true, String.eqb_eq in Heq. subst userId.
  split; [done|]. split; [|by rewrite Hf].
  intros E. rewrite E in Hid. done.
Qed.

Lemma requireAuth_throws host request w :
  (forall u, u ∈ users (db w) -> cookie request <> Some (user_id u)) ->
  exists w1,
    requireAuth host request w = (Thrown (Error "Authentication required"), w1)
    /\ db w1 = db w /\ commits w1 = commits w /\ parses w1 = parses w.
Proof.
  intros Hnone. unfold requireAuth, bind, getCurrentUser.
  destruct (cookie request) as [userId|]; [|by eexists].
  destruct (negb (truthy (JStr userId))); [by eexists|].
  unfold catch, bind, select_users, query, ret, throw.
  destruct (statement_fails host (statements w)); [by eexists|].
  destruct (filter _ (users (db w))) as [|u rest] eqn:Hf; [by eexists|].
  exfalso.
  assert (Hin : u ∈ filter (fun u => String.eqb (user_id u) userId) (users (db w)))
    by (rewrite Hf; apply list_elem_of_here).
  apply list_elem_of_filter in Hin as [Heq Hu].
  apply Is_true_true, String.eqb_eq in Heq. subst userId.
  by apply (Hnone u Hu).
Qed.

(** X1: the user a handler works for is the first row of the users table whose
    id is the value of the cookie, and that value is not empty; the lookup
    changes nothing. *)
Theorem authenticated_user_is_the_cookie_row (host : Host) (request : Request)
    (w w1 : World) (user : User) :
  requireAuth host request w = (Returned user, w1) ->
  cookie request = Some (user_id user)
  /\ user_id user <> ""
  /\ user ∈ users (db w)
  /\ head (filter (fun u => String.eqb (user_id u) (user_id user)) (users (db w)))
     = Some user
  /\ untouched w w1.
Proof.
  intros Hauth.
  destruct (requireAuth_returns _ _ _ _ _ Hauth) as (Hc & Hne & Hhead).
  destruct (requireAuth_world _ _ _ _ _ Hauth) as (Hdb & _ & Hcommits & _).
  repeat split; try done.
  destruct (filter _ (users (db w))) as [|u rest] eqn:Hf; [done|].
  injection Hhead as ->.
  assert (Hin : user ∈ filter (fun u => String.eqb (user_id u) (user_id user))
                  (users (db w))) by (rewrite Hf; apply list_elem_of_here).
  by apply list_elem_of_filter in Hin as [_ Hin].
Qed.

Lemma authenticated_user_is_the_cookie_row_witness :
  Sample.alice ∈ users Sample.no_buyers.
Proof.
  refine (proj1 (proj2 (proj2
    (authenticated_user_is_the_cookie_row Sample.host
       (mkRequest (Some "alice") None None ∅) (start Sample.no_buyers)
       (Scenario.authenticated Sample.no_buyers) Sample.alice _)))).
  reflexivity.
Defined.

(** X2: when the cookie names no row of the users table, every handler that
    needs a user answers 500 with its own message and leaves the tables and
    the visible states as they were: such a request is never answered
    401. *)
Theorem unauthenticated_requests_get_500 (host : Host) (history_after_delete :
       list (gmap string SqlVal) -> list HistoryRow -> option (list HistoryRow))
    (page_of : string -> bool -> JsVal -> JsVal ->
               list (gmap string SqlVal) -> option (list (gmap string SqlVal)))
    (request : Request) (id : string) (w : World) :
  (forall u, u ∈ users (db w) -> cookie request <> Some (user_id u)) ->
  exists w1,
    untouched w w1
    /\ POST_buyers host request w
       = (mkResponse 500 (ErrorBody "Failed to create buyer"), w1)
    /\ PUT_buyer host request id w
       = (mkResponse 500 (ErrorBody "Failed to update buyer"), w1)
    /\ POST_import host request w
       = (mkResponse 500 (ErrorBody "Failed to import CSV"), w1)
    /\ GET_export host request w
       = (mkResponse 500 (ErrorBody "Failed to export CSV"), w1)
    /\ GET_buyer host request id w
       = (mkReply 500 (DetailError "Failed to fetch buyer"), w1)
    /\ DELETE_buyer host history_after_delete request id w
       = (mkReply 500 (DeleteError "Failed to delete buyer"), w1)
    /\ GET_buyers host page_of request w
       = (mkReply 500 (ListError "Failed to fetch buyers"), w1).
Proof.
  intros Hnone.
  destruct (requireAuth_throws host request w Hnone) as (w1 & Hauth & Hdb & Hcommits & _).
  exists w1. split; [done|].
  repeat split.
  - unfold POST_buyers, try_catch. unfold bind at 1. by rewrite Hauth.
  - unfold PUT_buyer, try_catch. unfold bind at 1. by rewrite Hauth.
  - unfold POST_import, try_catch. unfold bind at 1. by rewrite Hauth.
  - unfold GET_export, try_catch. unfold bind at 1. by rewrite Hauth.
  - unfold GET_buyer, try_catch. unfold bind at 1. by rewrite Hauth.
  - unfold DELETE_buyer, try_catch. unfold bind at 1. by rewrite Hauth.
  - unfold GET_buyers, try_catch. unfold bind at 1. by rewrite Hauth.
Qed.

Lemma unauthenticated_requests_get_500_witness :
  exists w1,
    POST_buyers Sample.host (mkRequest None (Some (Sample.plot (JNum 5) (JNum 9))) None ∅)
      (start Sample.no_buyers)
    = (mkResponse 500 (ErrorBody "Failed to create buyer"), w1).
Proof.
  destruct (unauthenticated_requests_get_500 Sample.host Scenario.retained Scenario.page_of
              (mkRequest None (Some (Sample.plot (JNum 5) (JNum 9))) None ∅) ""
              (start Sample.no_buyers)) as (w1 & _ & H & _).
  - intros u _. discriminate.
  - by exists w1.
Defined.

(** ** The rate limiter *)

(** X3: a create or an update that the limiter refuses is answered 429 right
    after the user has been looked up: the body is not read, nothing is
    validated and no statement is issued. *)
Theorem rate_limited_writes_get_429 (host : Host) (request : Request) (id : string)
    (w w1 : World) (user : User) :
  requireAuth host request w = (Returned user, w1) ->
  (rateLimit host ("create:" +:+ user_id user) 5%nat 60000 = false ->
   POST_buyers host request w
   = (mkResponse 429 (ErrorBody "Too many requests. Please try again later."), w1))
  /\ (rateLimit host ("update:" +:+ user_id user) 10%nat 60000 = false ->
      PUT_buyer host request id w
      = (mkResponse 429 (ErrorBody "Too many requests. Please try again later."), w1))
  /\ untouched w w1 /\ parses w1 = parses w.
Proof.
  intros Hauth.
  destruct (requireAuth_world _ _ _ _ _ Hauth) as (Hdb & _ & Hcommits & Hparses).
  repeat split; try done.
  - intros Hrate. unfold POST_buyers, try_catch. unfold bind at 1.
    by rewrite Hauth, Hrate.
  - intros Hrate. unfold PUT_buyer, try_catch. unfold bind at 1.
    by rewrite Hauth, Hrate.
Qed.

Lemma rate_limited_writes_get_429_witness :
  POST_buyers Scenario.throttled Sample.create_request (start Sample.no_buyers)
  = (mkResponse 429 (ErrorBody "Too many requests. Please try again later."),
     Scenario.authenticated Sample.no_buyers).
Proof.
  refine (proj1 (rate_limited_writes_get_429 Scenario.throttled Sample.create_request ""
                   (start Sample.no_buyers) (Scenario.authenticated Sample.no_buyers)
                   Sample.alice _) _); reflexivity.
Defined.

Section OtherLimiter.
Context (host : Host) (limiter : RateLimit).

Local Ltac same_fields :=
  cbn [with_rateLimit isEmail isUuid Date_parse now randomUUID like statement_fails];
  reflexivity.

Lemma query_limiter A : @query (with_rateLimit host limiter) A = @query host A.
Proof. unfold query. same_fields. Qed.

Lemma statement_limiter A :
  @statement (with_rateLimit host limiter) A = @statement host A.
Proof. unfold statement. same_fields. Qed.

Lemma select_users_limiter :
  select_users (with_rateLimit host limiter) = select_users host.
Proof. unfold select_users. by rewrite query_limiter. Qed.

Lemma requireAuth_limiter :
  requireAuth (with_rateLimit host limiter) = requireAuth host.
Proof. unfold requireAuth, getCurrentUser. by rewrite select_users_limiter. Qed.

Lemma parse_limiter : parse (with_rateLimit host limiter) = parse host.
Proof. unfold parse. same_fields. Qed.

Lemma validate_row_limiter :
  validate_row (with_rateLimit host limiter) = validate_row host.
Proof. unfold validate_row. by rewrite parse_limiter. Qed.

Lemma insert_buyers_limiter :
  insert_buyers (with_rateLimit host limiter) = insert_buyers host.
Proof.
  unfold insert_buyers, inserted_row, column_default. rewrite statement_limiter.
  same_fields.
Qed.

Lemma insert_buyerHistory_limiter :
  insert_buyerHistory (with_rateLimit host limiter) = insert_buyerHistory host.
Proof. unfold insert_buyerHistory. rewrite statement_limiter. same_fields. Qed.

Lemma import_row_limiter :
  import_row (with_rateLimit host limiter) = import_row host.
Proof.
  unfold import_row. by rewrite insert_buyers_limiter, insert_buyerHistory_limiter.
Qed.

Lemma select_buyers_limiter :
  select_buyers (with_rateLimit host limiter) = select_buyers host.
Proof. unfold select_buyers. by rewrite query_limiter. Qed.

Lemma whereConditions_limiter :
  whereConditions (with_rateLimit host limiter) = whereConditions host.
Proof. unfold whereConditions, sql_like. same_fields. Qed.

Lemma select_buyerHistory_limiter :
  select_buyerHistory (with_rateLimit host limiter) = select_buyerHistory host.
Proof. unfold select_buyerHistory. by rewrite query_limiter. Qed.

Lemma select_page_limiter page_of :
  select_page (with_rateLimit host limiter) page_of = select_page host page_of.
Proof. unfold select_page. same_fields. Qed.

Lemma delete_buyers_limiter :
  delete_buyers (with_rateLimit host limiter) = delete_buyers host.
Proof. unfold delete_buyers. same_fields. Qed.

End OtherLimiter.

(** X4: the import, the export, the list, the detail view and the delete never
    consult the limiter: their outcome is the same under any other limiter. *)
Theorem only_create_and_update_are_rate_limited (host : Host) (limiter : RateLimit)
    (history_after_delete :
       list (gmap string SqlVal) -> list HistoryRow -> option (list HistoryRow))
    (page_of : string -> bool -> JsVal -> JsVal ->
               list (gmap string SqlVal) -> option (list (gmap string SqlVal)))
    (request : Request) (id : string) (w : World) :
  POST_import (with_rateLimit host limiter) request w = POST_import host request w
  /\ GET_export (with_rateLimit host limiter) request w = GET_export host request w
  /\ GET_buyer (with_rateLimit host limiter) request id w = GET_buyer host request id w
  /\ DELETE_buyer (with_rateLimit host limiter) history_after_delete request id w
     = DELETE_buyer host history_after_delete request id w
  /\ GET_buyers (with_rateLimit host limiter) page_of request w
     = GET_buyers host page_of request w.
Proof.
  unfold POST_import, GET_export, GET_buyer, DELETE_buyer, GET_buyers.
  rewrite requireAuth_limiter, validate_row_limiter, import_row_limiter,
    select_buyers_limiter, whereConditions_limiter, select_buyerHistory_limiter,
    delete_buyers_limiter, select_page_limiter.
  repeat split.
Qed.

(** ** What validation returns *)

Section ObjectData.
Variable isEmail isUuid : string -> bool.

Lemma run_refinements_data refinements : forall acc,
  Zod.data (foldl Zod.run_refinement acc refinements) = Zod.data acc.
Proof.
  induction refinements as [|r rs IH]; intros acc; [done|].
  cbn [foldl]. rewrite IH. unfold Zod.run_refinement.
  destruct (Zod.aborted _); [done|]. by destruct (Zod.holds r _).
Qed.

Lemma run_properties_data call input shape : forall acc key,
  NoDup (map fst shape) ->
  Zod.data (foldl (Zod.run_property isEmail isUuid call input) acc shape) !! key =
  match find (fun e => String.eqb e.1 key) shape with
  | Some e =>
      let v := Zod.value (Zod.run isEmail isUuid e.2 (InParsed call key) (get input key)) in
      if Zod.isUndefined v then
        match input !! key with
        | Some _ => Some JUndefined
        | None => Zod.data acc !! key
        end
      else Some v
  | None => Zod.data acc !! key
  end.
Proof.
  induction shape as [|e rest IH]; intros acc key Hnd; [done|].
  apply NoDup_cons in Hnd as [Hnotin Hnd].
  cbn [foldl find]. rewrite (IH _ _ Hnd).
  destruct (String.eqb e.1 key) eqn:Hk.
  - apply String.eqb_eq in Hk. subst key.
    assert (find (fun e0 => String.eqb e0.1 e.1) rest = None) as ->.
    { destruct (find _ rest) as [e'|] eqn:Hf; [|done].
      apply find_some in Hf as [Hin Heq]. apply String.eqb_eq in Heq.
      exfalso. apply Hnotin. rewrite <- Heq. apply list_elem_of_fmap.
      exists e'. split; [done|]. by apply list_elem_of_In. }
    unfold Zod.run_property. cbn [Zod.data]. cbv zeta.
    destruct (Zod.isUndefined _).
    + destruct (input !! e.1); [by rewrite lookup_insert_eq|done].
    + by rewrite lookup_insert_eq.
  - apply String.eqb_neq in Hk.
    assert (Zod.data (Zod.run_property isEmail isUuid call input acc e) !! key
            = Zod.data acc !! key) as ->; [|done].
    unfold Zod.run_property. cbn [Zod.data].
    destruct (Zod.isUndefined _).
    + destruct (input !! e.1); [by rewrite lookup_insert_ne|done].
    + by rewrite lookup_insert_ne.
Qed.

Lemma parse_data_lookup o call input data key :
  NoDup (map fst (Zod.shape o)) ->
  Zod.parse isEmail isUuid o call input = inl data ->
  data !! key =
  match Zod.property o key with
  | Some schema =>
      let v := Zod.value (Zod.run isEmail isUuid schema (InParsed call key) (get input key)) in
      if Zod.isUndefined v then
        match input !! key with
        | Some _ => Some JUndefined
        | None => None
        end
      else Some v
  | None => None
  end.
Proof.
  intros Hnd. unfold Zod.parse, Zod.run_object, Zod.property.
  destruct (Zod.object_issues _); [|done]. intros [= <-].
  rewrite run_refinements_data, (run_properties_data _ _ _ _ _ Hnd).
  cbn [Zod.data]. rewrite lookup_empty.
  destruct (find _ (Zod.shape o)) as [e|]; [|done]. cbn [fmap option_fmap option_map snd].
  cbv zeta. destruct (Zod.isUndefined _); [|done]. by destruct (input !! key).
Qed.

Lemma parse_property_ok o call input data key schema :
  (key, schema) ∈ Zod.shape o ->
  Zod.parse isEmail isUuid o call input = inl data ->
  Zod.issues (Zod.run isEmail isUuid schema (InParsed call key) (get input key)) = [].
Proof.
  intros Hin Hparse.
  destruct (Zod.issues _) as [|i iss] eqn:Hi; [done|]. exfalso.
  destruct (property_issue_fails_parse isEmail isUuid o call input key schema Hin)
    as (issues & E); [by rewrite Hi|]. congruence.
Qed.

End ObjectData.

Lemma buyer_schemas_keys o :
  o ∈ [createBuyerSchema; updateBuyerSchema; csvImportRowSchema] ->
  NoDup (map fst (Zod.shape o)).
Proof.
  intros H.
  apply elem_of_cons in H as [->|H]; [by apply (bool_decide_unpack _); vm_compute|].
  apply elem_of_cons in H as [->|H]; [by apply (bool_decide_unpack _); vm_compute|].
  apply elem_of_cons in H as [->|H]; [by apply (bool_decide_unpack _); vm_compute|].
  by apply elem_of_nil in H.
Qed.

Lemma undeclared_key_is_dropped (host : Host) (o : Zod.ObjectSchema)
    (call : nat) (input data : gmap string JsVal) (key : string) :
  NoDup (map fst (Zod.shape o)) ->
  Zod.parse (isEmail host) (isUuid host) o call input = inl data ->
  key ∉ map fst (Zod.shape o) ->
  data !! key = None.
Proof.
  intros Hnd Hparse Hkey.
  rewrite (parse_data_lookup _ _ _ _ _ _ _ Hnd Hparse). unfold Zod.property.
  destruct (find _ (Zod.shape o)) as [e|] eqn:Hf; [|done].
  apply find_some in Hf as [Hin Heq]. apply String.eqb_eq in Heq. exfalso.
  apply Hkey. rewrite <- Heq. apply list_elem_of_fmap. exists e. split; [done|].
  by apply list_elem_of_In.
Qed.

(** X5: the data that the three schemas of the repository return has the
    declared keys only: under each of them the value its schema produces,
    and nothing under a key the schema does not declare, whatever the input
    has there. *)
Theorem validated_data_has_declared_keys_only (host : Host) (o : Zod.ObjectSchema)
    (call : nat) (input data : gmap string JsVal) :
  o ∈ [createBuyerSchema; updateBuyerSchema; csvImportRowSchema] ->
  Zod.parse (isEmail host) (isUuid host) o call input = inl data ->
  (forall key, data !! key = validated host o call input key)
  /\ (forall key, key ∉ map fst (Zod.shape o) -> data !! key = None).
Proof.
  intros Ho Hparse. pose proof (buyer_schemas_keys o Ho) as Hnd. split.
  - intros key. unfold validated.
    apply (parse_data_lookup _ _ _ _ _ _ _ Hnd Hparse).
  - intros key Hkey. by apply (undeclared_key_is_dropped host o call input).
Qed.

Lemma validated_data_has_declared_keys_only_witness :
  Scenario.validated_plot !! "ownerId" = None.
Proof.
  refine (proj2 (validated_data_has_declared_keys_only Sample.host createBuyerSchema 0
                   (<["ownerId" := JStr "mallory"]> (Sample.plot (JNum 5) (JNum 9)))
                   Scenario.validated_plot _ _) "ownerId" _).
  - apply list_elem_of_here.
  - reflexivity.
  - apply (bool_decide_unpack _). by vm_compute.
Defined.

(** ** Creating a lead *)

Lemma inserted_row_lookup host stmt values column :
  column ∈ buyerColumns ->
  inserted_row host stmt values !! column
  = Some (default (column_default host stmt column) (to_sql (get values column))).
Proof.
  unfold inserted_row. generalize buyerColumns as columns.
  induction columns as [|c columns IH]; intros Hin; [by apply elem_of_nil in Hin|].
  cbn [map]. rewrite list_to_map_cons. destruct (decide (c = column)) as [->|Hne].
  - apply lookup_insert_eq.
  - rewrite lookup_insert_ne by done. apply IH.
    by apply elem_of_cons in Hin as [->|Hin].
Qed.

(** The outcome of a create, step by step. *)
Lemma POST_buyers_run host request w user w1 :
  requireAuth host request w = (Returned user, w1) ->
  rateLimit host ("create:" +:+ user_id user) 5%nat 60000 = true ->
  POST_buyers host request w =
  match json request with
  | None => (mkResponse 500 (ErrorBody "Failed to create buyer"), w1)
  | Some body =>
      let w2 := mkWorld (db w1) (inTransaction w1) (commits w1) (statements w1)
                  (S (parses w1)) in
      match Zod.parse (isEmail host) (isUuid host) createBuyerSchema (parses w1) body with
      | inr issues => (mkResponse 400 (ErrorDetails "Validation failed" issues), w2)
      | inl validatedData =>
          let row := inserted_row host (statements w1)
                       (<["ownerId" := JStr (user_id user)]> validatedData) in
          match insert_buyers host (<["ownerId" := JStr (user_id user)]> validatedData) w2
          with
          | (Thrown _, w3) => (mkResponse 500 (ErrorBody "Failed to create buyer"), w3)
          | (Returned _, w3) =>
              match insert_buyerHistory host
                      (get (fetched_row (statements w1) 0 row) "id")
                      (JStr (user_id user))
                      {["created" := mkChange JNull (JStr "New buyer created")]} w3
              with
              | (Thrown _, w4) => (mkResponse 500 (ErrorBody "Failed to create buyer"), w4)
              | (Returned _, w4) =>
                  (mkResponse 201 (BuyerBody (Some (fetched_row (statements w1) 0 row))), w4)
              end
          end
      end
  end.
Proof.
  intros Hauth Hrate.
  unfold POST_buyers, try_catch. unfold bind at 1. rewrite Hauth, Hrate. cbn [negb].
  unfold request_json. destruct (json request) as [body|]; [|done].
  unfold bind at 1, ret at 1. unfold bind at 1. unfold parse at 1.
  destruct (Zod.parse _ _ _ _ _) as [validatedData|issues]; [|done].
  cbv zeta. unfold bind at 1. rewrite !insert_buyers_run. cbn [statements].
  destruct (statement_fails host (statements w1)); [done|].
  cbv zeta. unfold bind at 1, first_row, ret at 1. unfold bind at 1.
  rewrite !insert_buyerHistory_run. cbn [statements].
  by destruct (statement_fails host (S (statements w1))).
Qed.

(** X6: a create that answers 201 has added one record and one history entry.
    The record belongs to the caller, and the database has generated its id
    and its two timestamps: the payload chooses none of them.  The answer
    is the record as stored, and the history entry names the record and the
    caller. *)
Theorem created_record_belongs_to_caller (host : Host) (request : Request)
    (w w1 : World) (user : User) :
  requireAuth host request w = (Returned user, w1) ->
  let r := POST_buyers host request w in
  status r.1 = 201%nat ->
  exists row entry,
    buyers (db r.2) = (buyers (db w) ++ [row])%list
    /\ buyerHistory (db r.2) = (buyerHistory (db w) ++ [entry])%list
    /\ users (db r.2) = users (db w)
    /\ row !! "ownerId" = Some (SqlText (user_id user))
    /\ row !! "id" = Some (SqlText (randomUUID host (statements w1)))
    /\ row !! "createdAt" = Some (SqlTimestamp (now host))
    /\ row !! "updatedAt" = Some (SqlTimestamp (now host))
    /\ body r.1 = BuyerBody (Some (fetched_row (statements w1) 0 row))
    /\ buyerId entry = SqlText (randomUUID host (statements w1))
    /\ changedBy entry = SqlText (user_id user)
    /\ diff entry = {["created" := mkChange JNull (JStr "New buyer created")]}.
Proof.
  intros Hauth r. subst r.
  destruct (requireAuth_world _ _ _ _ _ Hauth) as (Hdb & _ & _ & _).
  destruct (rateLimit host ("create:" +:+ user_id user) 5%nat 60000) eqn:Hrate; cycle 1.
  { unfold POST_buyers, try_catch. unfold bind at 1. by rewrite Hauth, Hrate. }
  rewrite (POST_buyers_run _ _ _ _ _ Hauth Hrate).
  destruct (json request) as [input|]; [|done]. cbv zeta.
  destruct (Zod.parse _ _ _ _ _) as [validatedData|issues] eqn:Hparse; [|done].
  assert (Hkeys : forall key, key ∉ map fst (Zod.shape createBuyerSchema) ->
                              get validatedData key = JUndefined).
  { intros key Hkey. unfold get.
    by rewrite (undeclared_key_is_dropped host createBuyerSchema _ _ _ key
                  (buyer_schemas_keys _ (list_elem_of_here _ _)) Hparse Hkey). }
  rewrite insert_buyers_run. cbn [statements].
  destruct (statement_fails host (statements w1)); [done|]. cbv zeta.
  rewrite insert_buyerHistory_run. cbn [statements].
  destruct (statement_fails host (S (statements w1))); [done|]. cbv zeta.
  cbn [fst snd status body db buyers buyerHistory users].
  intros _. eexists _, _. rewrite Hdb.
  split; [reflexivity|]. split; [reflexivity|]. split; [reflexivity|].
  assert (Hid : inserted_row host (statements w1)
                  (<["ownerId" := JStr (user_id user)]> validatedData) !! "id"
                = Some (SqlText (randomUUID host (statements w1)))).
  { rewrite inserted_row_lookup by (apply (bool_decide_unpack _); by vm_compute).
    unfold get at 1. rewrite lookup_insert_ne by done. fold (get validatedData "id").
    rewrite Hkeys by (apply (bool_decide_unpack _); by vm_compute). done. }
  split.
  { rewrite inserted_row_lookup by (apply (bool_decide_unpack _); by vm_compute).
    unfold get. by rewrite lookup_insert_eq. }
  split; [done|].
  split.
  { rewrite inserted_row_lookup by (apply (bool_decide_unpack _); by vm_compute).
    unfold get at 1. rewrite lookup_insert_ne by done. fold (get validatedData "createdAt").
    rewrite Hkeys by (apply (bool_decide_unpack _); by vm_compute). done. }
  split.
  { rewrite inserted_row_lookup by (apply (bool_decide_unpack _); by vm_compute).
    unfold get at 1. rewrite lookup_insert_ne by done. fold (get validatedData "updatedAt").
    rewrite Hkeys by (apply (bool_decide_unpack _); by vm_compute). done. }
  split; [done|]. cbn [buyerId changedBy diff to_sql default from_option].
  split; [|done]. by rewrite (fetched_row_id _ _ _ _ Hid).
Qed.

Lemma created_record_belongs_to_caller_witness :
  exists row,
    buyers Sample.one_buyer = [row] /\ row !! "ownerId" = Some (SqlText "alice").
Proof.
  destruct (created_record_belongs_to_caller Sample.host Sample.create_request
              (start Sample.no_buyers) (Scenario.authenticated Sample.no_buyers)
              Sample.alice eq_refl) as (row & entry & Hrows & _ & _ & Howner & _).
  - vm_compute. reflexivity.
  - exists row. split; [exact Hrows|exact Howner].
Defined.

(** X7: a create whose body is not JSON is answered 500, and one whose body
    fails validation is answered 400 with the issues; neither issues a
    statement after the lookup of the user, so the tables and the visible
    states are as they were. *)
Theorem invalid_create_changes_nothing (host : Host) (request : Request)
    (w w1 : World) (user : User) :
  requireAuth host request w = (Returned user, w1) ->
  rateLimit host ("create:" +:+ user_id user) 5%nat 60000 = true ->
  let r := POST_buyers host request w in
  (json request = None ->
   r.1 = mkResponse 500 (ErrorBody "Failed to create buyer"))
  /\ (forall body issues,
        json request = Some body ->
        Zod.parse (isEmail host) (isUuid host) createBuyerSchema (parses w1) body
        = inr issues ->
        r.1 = mkResponse 400 (ErrorDetails "Validation failed" issues))
  /\ ((forall body, json request = Some body ->
         exists issues,
           Zod.parse (isEmail host) (isUuid host) createBuyerSchema (parses w1) body
           = inr issues) ->
      untouched w r.2 /\ statements r.2 = statements w1).
Proof.
  intros Hauth Hrate r. subst r.
  destruct (requireAuth_world _ _ _ _ _ Hauth) as (Hdb & _ & Hcommits & _).
  rewrite (POST_buyers_run _ _ _ _ _ Hauth Hrate).
  split; [by intros ->|]. split.
  - intros body issues -> Hparse. cbv zeta. by rewrite Hparse.
  - intros Hbad. destruct (json request) as [body|]; [|done].
    destruct (Hbad body eq_refl) as (issues & Hparse). cbv zeta. by rewrite Hparse.
Qed.

Lemma invalid_create_changes_nothing_witness :
  (POST_buyers Sample.host (mkRequest (Some "alice") None None ∅)
     (start Sample.no_buyers)).1
  = mkResponse 500 (ErrorBody "Failed to create buyer").
Proof.
  refine (proj1 (invalid_create_changes_nothing Sample.host
                   (mkRequest (Some "alice") None None ∅) (start Sample.no_buyers)
                   (Scenario.authenticated Sample.no_buyers) Sample.alice _ _) _);
    reflexivity.
Defined.

(** ** Updating a lead *)

Lemma set_columns_lookup values (r : gmap string SqlVal) column :
  set_columns values r !! column =
  if bool_decide (column ∈ buyerColumns) then
    match to_sql (get values column) with
    | Some v => Some v
    | None => r !! column
    end
  else r !! column.
Proof.
  unfold set_columns. generalize buyerColumns as columns. intros columns. revert r.
  induction columns as [|c columns IH]; intros r; [done|].
  cbn [foldl]. rewrite IH. destruct (decide (c = column)) as [->|Hne].
  - rewrite (bool_decide_eq_true_2 (column ∈ column :: columns))
      by apply list_elem_of_here.
    destruct (to_sql (get values column)) as [v|] eqn:Hv.
    + rewrite lookup_insert_eq. by destruct (bool_decide _).
    + by destruct (bool_decide _).
  - assert (Hsame : (match to_sql (get values c) with
                     | Some v => <[c := v]> r
                     | None => r
                     end) !! column = r !! column).
    { destruct (to_sql (get values c)); [by rewrite lookup_insert_ne|done]. }
    rewrite Hsame.
    destruct (decide (column ∈ columns)) as [Hin|Hnotin].
    + rewrite (bool_decide_eq_true_2 _ Hin).
      by rewrite (bool_decide_eq_true_2 (column ∈ c :: columns))
        by (by apply list_elem_of_further).
    + rewrite (bool_decide_eq_false_2 _ Hnotin).
      rewrite (bool_decide_eq_false_2 (column ∈ c :: columns)); [done|].
      intros [?|?]%elem_of_cons; [by subst|done].
Qed.

Lemma update_buyers_run host values cond w :
  update_buyers host values cond w =
  if statement_fails host (statements w) then
    (Thrown (Error "database error"),
     mkWorld (db w) (inTransaction w) (commits w) (S (statements w)) (parses w))
  else
    let rows := map (fun r => if cond r then set_columns values r else r)
                  (buyers (db w)) in
    let t := mkTables (users (db w)) rows (buyerHistory (db w)) in
    (Returned (fetched (statements w) (filter (fun r => cond r) rows)),
     mkWorld t (inTransaction w)
       (if inTransaction w then commits w else t :: commits w)
       (S (statements w)) (parses w)).
Proof.
  unfold update_buyers, statement.
  destruct (statement_fails host (statements w)); reflexivity.
Qed.

(** The outcome of an update, step by step. *)
Lemma PUT_buyer_run host request id w user w1 :
  requireAuth host request w = (Returned user, w1) ->
  rateLimit host ("update:" +:+ user_id user) 10%nat 60000 = true ->
  PUT_buyer host request id w =
  match json request with
  | None => (mkResponse 500 (ErrorBody "Failed to update buyer"), w1)
  | Some body =>
      let w2 := mkWorld (db w1) (inTransaction w1) (commits w1) (S (statements w1))
                  (parses w1) in
      if statement_fails host (statements w1) then
        (mkResponse 500 (ErrorBody "Failed to update buyer"), w2)
      else
        match filter (fun r => sql_eq "id" id r && sql_eq "ownerId" (user_id user) r)
                (buyers (db w1)) with
        | [] => (mkResponse 404 (ErrorBody "Buyer not found or access denied"), w2)
        | existing :: _ =>
            let existingBuyer0 := fetched_row (statements w1) 0 existing in
            match conflict host body existingBuyer0 with
            | None => (mkResponse 500 (ErrorBody "Failed to update buyer"), w2)
            | Some true =>
                (mkResponse 409 (ErrorBody "Record changed, please refresh"), w2)
            | Some false =>
                let w3 := mkWorld (db w1) (inTransaction w1) (commits w1)
                            (S (statements w1)) (S (parses w1)) in
                match Zod.parse (isEmail host) (isUuid host) updateBuyerSchema (parses w1)
                        (<["updatedAt" := get existingBuyer0 "updatedAt"]>
                           (<["id" := JStr id]> body)) with
                | inr issues =>
                    (mkResponse 400 (ErrorDetails "Validation failed" issues), w3)
                | inl validatedData =>
                    let diff := calculate_diff existingBuyer0 validatedData in
                    match update_buyers host
                            (<["updatedAt" := JDate (InHandler "updatedAt")
                                                (Some (now host))]> validatedData)
                            (sql_eq "id" id) w3 with
                    | (Thrown _, w4) =>
                        (mkResponse 500 (ErrorBody "Failed to update buyer"), w4)
                    | (Returned updatedBuyer, w4) =>
                        if (0 <? size diff)%nat then
                          match insert_buyerHistory host (JStr id) (JStr (user_id user))
                                  diff w4 with
                          | (Thrown _, w5) =>
                              (mkResponse 500 (ErrorBody "Failed to update buyer"), w5)
                          | (Returned _, w5) =>
                              (mkResponse 200 (BuyerBody (head updatedBuyer)), w5)
                          end
                        else (mkResponse 200 (BuyerBody (head updatedBuyer)), w4)
                    end
                end
            end
        end
  end.
Proof.
  intros Hauth Hrate.
  unfold PUT_buyer, try_catch. unfold bind at 1. rewrite Hauth, Hrate. cbn [negb].
  unfold request_json. destruct (json request) as [input|]; [|done].
  unfold bind at 1, ret at 1. unfold bind at 1. unfold select_buyers, query.
  destruct (statement_fails host (statements w1)); [done|]. cbv zeta.
  destruct (filter _ (buyers (db w1))) as [|existing rest]; [done|].
  cbn [take fetched imap].
  set (existingBuyer0 := fetched_row (statements w1) 0 existing).
  unfold bind at 1. unfold conflict.
  destruct (truthy (get input "updatedAt")).
  - unfold bind at 1, getTime.
    destruct (get existingBuyer0 "updatedAt"); try done.
    unfold ret at 1. unfold ret at 1.
    destruct (time_differs _ _); [done|].
    unfold bind at 1. unfold parse at 1. cbn [parses db inTransaction commits statements].
    destruct (Zod.parse _ _ _ _ _) as [validatedData|issues]; [|done].
    unfold bind at 1. rewrite !update_buyers_run. cbn [statements].
    destruct (statement_fails host (S (statements w1))); [done|]. cbv zeta.
    unfold bind at 1. destruct (0 <? size _)%nat; [|done].
    rewrite !insert_buyerHistory_run. cbn [statements].
    by destruct (statement_fails host (S (S (statements w1)))).
  - unfold ret at 1.
    unfold bind at 1. unfold parse at 1. cbn [parses db inTransaction commits statements].
    destruct (Zod.parse _ _ _ _ _) as [validatedData|issues]; [|done].
    unfold bind at 1. rewrite !update_buyers_run. cbn [statements].
    destruct (statement_fails host (S (statements w1))); [done|]. cbv zeta.
    unfold bind at 1. destruct (0 <? size _)%nat; [|done].
    rewrite !insert_buyerHistory_run. cbn [statements].
    by destruct (statement_fails host (S (S (statements w1)))).
Qed.

Lemma updateBuyerSchema_id host call input data id :
  get input "id" = JStr id ->
  Zod.parse (isEmail host) (isUuid host) updateBuyerSchema call input = inl data ->
  get data "id" = JStr id
  /\ get data "ownerId" = JUndefined /\ get data "createdAt" = JUndefined.
Proof.
  intros Hid Hparse.
  assert (Hnd : NoDup (map fst (Zod.shape updateBuyerSchema)))
    by (by apply buyer_schemas_keys, list_elem_of_further, list_elem_of_here).
  unfold get.
  rewrite (undeclared_key_is_dropped host updateBuyerSchema call input data "ownerId"
             Hnd Hparse) by (apply (bool_decide_unpack _); by vm_compute).
  rewrite (undeclared_key_is_dropped host updateBuyerSchema call input data "createdAt"
             Hnd Hparse) by (apply (bool_decide_unpack _); by vm_compute).
  split; [|done]. rewrite (parse_data_lookup _ _ _ _ _ _ _ Hnd Hparse).
  assert (Zod.property updateBuyerSchema "id" = Some (z.string |> z.uuid)) as ->
    by reflexivity.
  fold (get input "id"). rewrite Hid. reflexivity.
Qed.

Lemma updated_row_identity host call input data id stamp (r : gmap string SqlVal) :
  get input "id" = JStr id ->
  Zod.parse (isEmail host) (isUuid host) updateBuyerSchema call input = inl data ->
  sql_eq "id" id r = true ->
  identity (set_columns (<["updatedAt" := stamp]> data) r) = identity r.
Proof.
  intros Hid Hparse Hrow.
  destruct (updateBuyerSchema_id _ _ _ _ _ Hid Hparse) as (Hd & Howner & Hcreated).
  unfold identity. rewrite !set_columns_lookup.
  rewrite !bool_decide_eq_true_2 by (apply (bool_decide_unpack _); by vm_compute).
  unfold get in *. rewrite !lookup_insert_ne by done.
  rewrite Hd, Howner, Hcreated. cbn [to_sql].
  unfold sql_eq in Hrow. destruct (r !! "id") as [[]|]; try done.
  apply String.eqb_eq in Hrow. by subst.
Qed.

Lemma updated_rows_identity host call input data id stamp rows :
  get input "id" = JStr id ->
  Zod.parse (isEmail host) (isUuid host) updateBuyerSchema call input = inl data ->
  let rows' := map (fun r => if sql_eq "id" id r
                             then set_columns (<["updatedAt" := stamp]> data) r
                             else r) rows in
  map identity rows' = map identity rows
  /\ forall i row, rows !! i = Some row -> sql_eq "id" id row = false ->
                   rows' !! i = Some row.
Proof.
  intros Hid Hparse rows'. subst rows'. split.
  - rewrite map_map. apply map_ext. intros r.
    destruct (sql_eq "id" id r) eqn:Hr; [|done].
    by apply (updated_row_identity _ _ _ _ _ _ _ Hid Hparse).
  - intros i row Hi Hrow.
    change (map ?f rows) with (f <$> rows). rewrite list_lookup_fmap, Hi.
    cbn [fmap option_fmap option_map]. by rewrite Hrow.
Qed.

(** X8: no update, whatever its outcome, adds or removes a record or a user,
    changes the id, the owner or the creation time of a record, or touches
    a record whose id is not the one in the path. *)
Theorem update_keeps_identity_columns (host : Host) (request : Request)
    (id : string) (w : World) :
  let r := PUT_buyer host request id w in
  users (db r.2) = users (db w)
  /\ map identity (buyers (db r.2)) = map identity (buyers (db w))
  /\ forall i row, buyers (db w) !! i = Some row -> sql_eq "id" id row = false ->
                   buyers (db r.2) !! i = Some row.
Proof.
  intros r. subst r.
  destruct (requireAuth host request w) as [[user|e] w1] eqn:Hauth; cycle 1.
  { destruct (requireAuth_world _ _ _ _ _ Hauth) as (Hdb & _).
    assert (E : (PUT_buyer host request id w).2 = w1).
    { unfold PUT_buyer, try_catch. unfold bind at 1. by rewrite Hauth. }
    rewrite E, Hdb. done. }
  destruct (requireAuth_world _ _ _ _ _ Hauth) as (Hdb & _).
  destruct (rateLimit host ("update:" +:+ user_id user) 10%nat 60000) eqn:Hrate; cycle 1.
  { assert (E : (PUT_buyer host request id w).2 = w1).
    { unfold PUT_buyer, try_catch. unfold bind at 1. by rewrite Hauth, Hrate. }
    rewrite E, Hdb. done. }
  rewrite (PUT_buyer_run _ _ _ _ _ _ Hauth Hrate).
  destruct (json request) as [input|]; [|cbn [fst snd db users buyers buyerHistory]; rewrite ?Hdb; done]. cbv zeta.
  destruct (statement_fails host (statements w1)); [cbn [fst snd db users buyers buyerHistory]; rewrite ?Hdb; done|].
  destruct (filter _ (buyers (db w1))) as [|existing rest]; [cbn [fst snd db users buyers buyerHistory]; rewrite ?Hdb; done|].
  destruct (conflict _ _ _) as [[]|]; try (cbn [fst snd db users buyers buyerHistory]; rewrite ?Hdb; done).
  destruct (Zod.parse _ _ _ _ _) as [validatedData|issues] eqn:Hparse;
    [|cbn [fst snd db users buyers buyerHistory]; rewrite ?Hdb; done].
  assert (Hid : get (<["updatedAt" := get (fetched_row (statements w1) 0 existing) "updatedAt"]>
                       (<["id" := JStr id]> input)) "id" = JStr id).
  { unfold get at 1. rewrite lookup_insert_ne by done. by rewrite lookup_insert_eq. }
  pose proof (updated_rows_identity host _ _ _ id
                (JDate (InHandler "updatedAt") (Some (now host))) (buyers (db w))
                Hid Hparse) as [Hsame Hother].
  rewrite update_buyers_run. cbn [statements db].
  destruct (statement_fails host (S (statements w1))); [cbn [fst snd db users buyers buyerHistory]; rewrite ?Hdb; done|]. cbv zeta.
  destruct (0 <? size _)%nat.
  - rewrite insert_buyerHistory_run. cbn [statements db].
    destruct (statement_fails host (S (S (statements w1))));
      cbn [fst snd db users buyers buyerHistory]; rewrite ?Hdb; done.
  - cbn [fst snd db users buyers buyerHistory]; rewrite ?Hdb; done.
Qed.

Lemma update_keeps_identity_columns_witness :
  map identity
    (buyers (db (PUT_buyer Sample.host (Sample.status_request "Contacted")
                   Sample.stored_id (start Sample.one_buyer)).2))
  = map identity (buyers (db (start Sample.one_buyer))).
Proof.
  exact (proj1 (proj2 (update_keeps_identity_columns Sample.host
                         (Sample.status_request "Contacted") Sample.stored_id
                         (start Sample.one_buyer)))).
Defined.

(** ** Deleting a lead, and what a refused write leaves behind *)

Lemma delete_buyers_run host history_after_delete cond w :
  delete_buyers host history_after_delete cond w =
  let failed :=
    (Thrown (Error "database error"),
     mkWorld (db w) (inTransaction w) (commits w) (S (statements w)) (parses w)) in
  if statement_fails host (statements w) then failed
  else
    match history_after_delete (filter (fun r => cond r) (buyers (db w)))
            (buyerHistory (db w)) with
    | None => failed
    | Some history =>
        let t := mkTables (users (db w))
                   (filter (fun r => negb (cond r)) (buyers (db w))) history in
        (Returned tt,
         mkWorld t (inTransaction w)
           (if inTransaction w then commits w else t :: commits w)
           (S (statements w)) (parses w))
    end.
Proof. reflexivity. Qed.

(** The outcome of a delete, step by step. *)
Lemma DELETE_buyer_run host history_after_delete request id w user w1 :
  requireAuth host request w = (Returned user, w1) ->
  DELETE_buyer host history_after_delete request id w =
  let w2 := mkWorld (db w1) (inTransaction w1) (commits w1) (S (statements w1))
              (parses w1) in
  if statement_fails host (statements w1) then
    (mkReply 500 (DeleteError "Failed to delete buyer"), w2)
  else
    match filter (fun r => sql_eq "id" id r && sql_eq "ownerId" (user_id user) r)
            (buyers (db w1)) with
    | [] => (mkReply 404 (DeleteError "Buyer not found or access denied"), w2)
    | _ :: _ =>
        match delete_buyers host history_after_delete (sql_eq "id" id) w2 with
        | (Thrown _, w3) => (mkReply 500 (DeleteError "Failed to delete buyer"), w3)
        | (Returned _, w3) => (mkReply 200 DeleteSuccess, w3)
        end
    end.
Proof.
  intros Hauth. unfold DELETE_buyer, try_catch. unfold bind at 1. rewrite Hauth.
  unfold bind at 1. unfold select_buyers, query.
  destruct (statement_fails host (statements w1)); [done|]. cbv zeta.
  destruct (filter _ (buyers (db w1))) as [|existing rest]; [done|].
  cbn [take fetched imap]. unfold bind at 1.
  by destruct (delete_buyers _ _ _ _) as [[[]|e] w3].
Qed.

(** X9: a record that is missing or belongs to another user can be neither
    updated nor deleted: both requests are answered 404 after the one
    query that looks for the caller's record, and change nothing. *)
Theorem foreign_records_cannot_be_changed (host : Host) (history_after_delete :
       list (gmap string SqlVal) -> list HistoryRow -> option (list HistoryRow))
    (request : Request) (id : string) (w w1 : World) (user : User) :
  requireAuth host request w = (Returned user, w1) ->
  statement_fails host (statements w1) = false ->
  (forall r, r ∈ buyers (db w) -> sql_eq "id" id r = true ->
             sql_eq "ownerId" (user_id user) r = false) ->
  let w2 := mkWorld (db w) (inTransaction w1) (commits w) (S (statements w1))
              (parses w) in
  DELETE_buyer host history_after_delete request id w
  = (mkReply 404 (DeleteError "Buyer not found or access denied"), w2)
  /\ (rateLimit host ("update:" +:+ user_id user) 10%nat 60000 = true ->
      json request <> None ->
      PUT_buyer host request id w
      = (mkResponse 404 (ErrorBody "Buyer not found or access denied"), w2)).
Proof.
  intros Hauth Hok Hforeign w2. subst w2.
  destruct (requireAuth_world _ _ _ _ _ Hauth) as (Hdb & _ & Hcommits & Hparses).
  assert (Hnone : filter (fun r => sql_eq "id" id r && sql_eq "ownerId" (user_id user) r)
                    (buyers (db w1)) = []).
  { rewrite Hdb. apply elem_of_nil_inv. intros r [Hr Hin]%list_elem_of_filter.
    apply Is_true_true, andb_true_iff in Hr as [Hid Howner].
    by rewrite (Hforeign r Hin Hid) in Howner. }
  split.
  - rewrite (DELETE_buyer_run _ _ _ _ _ _ _ Hauth). cbv zeta.
    by rewrite Hok, Hnone, Hdb, Hcommits, Hparses.
  - intros Hrate Hjson. rewrite (PUT_buyer_run _ _ _ _ _ _ Hauth Hrate).
    destruct (json request) as [input|]; [|done]. cbv zeta.
    by rewrite Hok, Hnone, Hdb, Hcommits, Hparses.
Qed.

Lemma foreign_records_cannot_be_changed_witness :
  DELETE_buyer Sample.host Scenario.retained (Scenario.as_bob None) Sample.stored_id
    (start Scenario.shared)
  = (mkReply 404 (DeleteError "Buyer not found or access denied"),
     mkWorld Scenario.shared false [] 2 0).
Proof.
  refine (proj1 (foreign_records_cannot_be_changed Sample.host Scenario.retained (Scenario.as_bob None)
                   Sample.stored_id (start Scenario.shared)
                   (Scenario.authenticated Scenario.shared) Scenario.bob _ _ _)).
  - reflexivity.
  - reflexivity.
  - intros r Hr _. apply list_elem_of_singleton in Hr. subst r. vm_compute. reflexivity.
Defined.

Local Ltac not_listed :=
  let H := fresh in
  intros H; exfalso; repeat (apply elem_of_cons in H as [H|H]; [discriminate H|]);
  by apply elem_of_nil in H.

(** X10: a create answered 400 or 429, an update answered 400, 404, 409 or 429
    and a delete answered 404 have changed nothing: the tables and the
    visible states are as they were before the request. *)
Theorem refused_writes_change_nothing (host : Host) (history_after_delete :
       list (gmap string SqlVal) -> list HistoryRow -> option (list HistoryRow))
    (request : Request) (id : string) (w : World) :
  (status (POST_buyers host request w).1 ∈ [400; 429]%nat ->
   untouched w (POST_buyers host request w).2)
  /\ (status (PUT_buyer host request id w).1 ∈ [400; 404; 409; 429]%nat ->
      untouched w (PUT_buyer host request id w).2)
  /\ (reply_status (DELETE_buyer host history_after_delete request id w).1 = 404%nat ->
      untouched w (DELETE_buyer host history_after_delete request id w).2).
Proof.
  unfold untouched.
  destruct (requireAuth host request w) as [[user|e] w1] eqn:Hauth;
    destruct (requireAuth_world _ _ _ _ _ Hauth) as (Hdb & _ & Hcommits & _); cycle 1.
  { assert (E1 : (POST_buyers host request w).2 = w1).
    { unfold POST_buyers, try_catch. unfold bind at 1. by rewrite Hauth. }
    assert (E2 : (PUT_buyer host request id w).2 = w1).
    { unfold PUT_buyer, try_catch. unfold bind at 1. by rewrite Hauth. }
    assert (E3 : (DELETE_buyer host history_after_delete request id w).2 = w1).
    { unfold DELETE_buyer, try_catch. unfold bind at 1. by rewrite Hauth. }
    rewrite E1, E2, E3. done. }
  split; [|split].
  - destruct (rateLimit host ("create:" +:+ user_id user) 5%nat 60000) eqn:Hrate; cycle 1.
    { assert (E : (POST_buyers host request w).2 = w1).
      { unfold POST_buyers, try_catch. unfold bind at 1. by rewrite Hauth, Hrate. }
      by rewrite E. }
    rewrite (POST_buyers_run _ _ _ _ _ Hauth Hrate).
    destruct (json request) as [input|]; [|done]. cbv zeta.
    destruct (Zod.parse _ _ _ _ _) as [validatedData|issues]; [|done].
    rewrite insert_buyers_run. cbn [statements].
    destruct (statement_fails host (statements w1)); [cbn [fst status]; not_listed|].
    cbv zeta. rewrite insert_buyerHistory_run. cbn [statements].
    destruct (statement_fails host (S (statements w1))); cbn [fst status]; not_listed.
  - destruct (rateLimit host ("update:" +:+ user_id user) 10%nat 60000) eqn:Hrate; cycle 1.
    { assert (E : (PUT_buyer host request id w).2 = w1).
      { unfold PUT_buyer, try_catch. unfold bind at 1. by rewrite Hauth, Hrate. }
      by rewrite E. }
    rewrite (PUT_buyer_run _ _ _ _ _ _ Hauth Hrate).
    destruct (json request) as [input|]; [|done]. cbv zeta.
    destruct (statement_fails host (statements w1)); [done|].
    destruct (filter _ (buyers (db w1))) as [|existing rest]; [done|].
    destruct (conflict _ _ _) as [[]|]; try done.
    destruct (Zod.parse _ _ _ _ _) as [validatedData|issues]; [|done].
    rewrite update_buyers_run. cbn [statements].
    destruct (statement_fails host (S (statements w1))); [cbn [fst status]; not_listed|].
    cbv zeta. destruct (0 <? size _)%nat; [|cbn [fst status]; not_listed].
    rewrite insert_buyerHistory_run. cbn [statements].
    destruct (statement_fails host (S (S (statements w1)))); cbn [fst status]; not_listed.
  - rewrite (DELETE_buyer_run _ _ _ _ _ _ _ Hauth). cbv zeta.
    destruct (statement_fails host (statements w1)); [done|].
    destruct (filter _ (buyers (db w1))) as [|existing rest]; [done|].
    by destruct (delete_buyers _ _ _ _) as [[[]|e] w3].
Qed.

Lemma refused_writes_change_nothing_witness :
  untouched (start Sample.no_buyers)
    (POST_buyers Scenario.throttled Sample.create_request (start Sample.no_buyers)).2.
Proof.
  refine (proj1 (refused_writes_change_nothing Scenario.throttled Scenario.retained
                   Sample.create_request "" (start Sample.no_buyers)) _).
  apply list_elem_of_further, list_elem_of_here.
Defined.

(** X11: no delete adds a record, changes one or touches the users; a
    delete that answers 200 has removed every record with the id of the
    path and no other record, and any other answer has left the records as
    they were.  This holds whatever the database does with the history
    entries of a deleted record. *)
Theorem delete_removes_the_record_only (host : Host)
    (history_after_delete :
       list (gmap string SqlVal) -> list HistoryRow -> option (list HistoryRow))
    (request : Request) (id : string) (w : World) :
  let r := DELETE_buyer host history_after_delete request id w in
  users (db r.2) = users (db w)
  /\ (reply_status r.1 = 200%nat ->
      buyers (db r.2) = filter (fun row => negb (sql_eq "id" id row)) (buyers (db w))
      /\ (forall row, row ∈ buyers (db r.2) <->
                      row ∈ buyers (db w) /\ sql_eq "id" id row = false)
      /\ exists user, user ∈ users (db w)
                      /\ cookie request = Some (user_id user)
                      /\ exists row, row ∈ buyers (db w)
                                     /\ sql_eq "id" id row = true
                                     /\ sql_eq "ownerId" (user_id user) row = true)
  /\ (reply_status r.1 <> 200%nat -> untouched w r.2).
Proof.
  intros r. subst r. unfold untouched.
  destruct (requireAuth host request w) as [[user|e] w1] eqn:Hauth;
    destruct (requireAuth_world _ _ _ _ _ Hauth) as (Hdb & _ & Hcommits & _); cycle 1.
  { assert (E : DELETE_buyer host history_after_delete request id w
                = (mkReply 500 (DeleteError "Failed to delete buyer"), w1)).
    { unfold DELETE_buyer, try_catch. unfold bind at 1. by rewrite Hauth. }
    rewrite E. cbn [fst snd reply_status]. rewrite Hdb.
    split; [done|]. split; [done|]. done. }
  destruct (requireAuth_returns _ _ _ _ _ Hauth) as (Hcookie & _ & Hhead).
  rewrite (DELETE_buyer_run _ _ _ _ _ _ _ Hauth). cbv zeta.
  destruct (statement_fails host (statements w1));
    [cbn [fst snd reply_status db commits]; rewrite Hdb; by repeat split|].
  destruct (filter _ (buyers (db w1))) as [|existing rest] eqn:Hfound;
    [cbn [fst snd reply_status db commits]; rewrite Hdb; by repeat split|].
  rewrite delete_buyers_run. cbv zeta. cbn [statements db].
  destruct (statement_fails host (S (statements w1)));
    [cbn [fst snd reply_status db commits]; rewrite Hdb; by repeat split|].
  destruct (history_after_delete _ _) as [history|];
    [|cbn [fst snd reply_status db commits]; rewrite Hdb; by repeat split].
  cbn [fst snd reply_status db users buyers].
  split; [by rewrite Hdb|]. split; [|done]. intros _.
  split; [by rewrite Hdb|]. split.
  - intros row. rewrite list_elem_of_filter, Hdb. split.
    + intros [Hrow Hin]. split; [done|]. by destruct (sql_eq "id" id row).
    + intros [Hin Hrow]. split; [|done]. by rewrite Hrow.
  - exists user. split; [|split; [done|]].
    + destruct (filter _ (users (db w))) as [|u us] eqn:Hf; [done|].
      injection Hhead as ->.
      assert (Hin : user ∈ filter (fun u => String.eqb (user_id u) (user_id user))
                      (users (db w))) by (rewrite Hf; apply list_elem_of_here).
      by apply list_elem_of_filter in Hin as [_ Hin].
    + exists existing.
      assert (Hin : existing ∈ filter (fun r => sql_eq "id" id r
                                         && sql_eq "ownerId" (user_id user) r)
                      (buyers (db w1))) by (rewrite Hfound; apply list_elem_of_here).
      apply list_elem_of_filter in Hin as [Hcond Hin]. rewrite Hdb in Hin.
      apply Is_true_true, andb_true_iff in Hcond as [Hid Howner]. done.
Qed.

Lemma delete_removes_the_record_only_witness :
  buyers (db (DELETE_buyer Sample.host Scenario.retained Sample.export_request
                Sample.stored_id (start Sample.one_buyer)).2)
  = filter (fun row => negb (sql_eq "id" Sample.stored_id row))
      (buyers (db (start Sample.one_buyer))).
Proof.
  refine (proj1 (proj1 (proj2 (delete_removes_the_record_only Sample.host
                                 Scenario.retained Sample.export_request
                                 Sample.stored_id (start Sample.one_buyer))) _)).
  reflexivity.
Defined.

(** ** The history entry of an update *)

Lemma calculate_diff_reported existing validatedData key :
  calculate_diff existing validatedData !! key = reported existing validatedData key.
Proof.
  rewrite calculate_diff_lookup. unfold reported.
  destruct (validatedData !! key) as [newValue|]; [|done].
  destruct (decide (key ∈ ["id"; "updatedAt"; "ownerId"])) as [Hin|Hnotin].
  - rewrite (bool_decide_eq_true_2 _ Hin). rewrite bool_decide_eq_false_2; [done|].
    intros (H1 & H2 & H3).
    apply elem_of_cons in Hin as [->|Hin]; [done|].
    apply elem_of_cons in Hin as [->|Hin]; [done|].
    apply list_elem_of_singleton in Hin. done.
  - rewrite (bool_decide_eq_false_2 _ Hnotin). rewrite bool_decide_eq_true_2; [done|].
    repeat split; intros ->; apply Hnotin.
    + apply list_elem_of_here.
    + apply list_elem_of_further, list_elem_of_here.
    + do 2 apply list_elem_of_further. apply list_elem_of_here.
Qed.

(** X12: an update that is applied adds one history entry when some validated
    field other than [id], [updatedAt] and [ownerId] is not strictly equal
    to the stored value, and none otherwise.  The entry names the record
    and the caller, and holds the old and the new value of exactly those
    fields. *)
Theorem update_history_holds_the_changed_fields (host : Host) (request : Request)
    (id : string) (w w1 : World) (user : User) (input validatedData : gmap string JsVal)
    (existing : gmap string SqlVal) (rest : list (gmap string SqlVal)) :
  requireAuth host request w = (Returned user, w1) ->
  rateLimit host ("update:" +:+ user_id user) 10%nat 60000 = true ->
  json request = Some input ->
  (forall n, statement_fails host n = false) ->
  filter (fun r => sql_eq "id" id r && sql_eq "ownerId" (user_id user) r)
    (buyers (db w)) = existing :: rest ->
  conflict host input (fetched_row (statements w1) 0 existing) = Some false ->
  Zod.parse (isEmail host) (isUuid host) updateBuyerSchema (parses w1)
    (<["updatedAt" := get (fetched_row (statements w1) 0 existing) "updatedAt"]>
       (<["id" := JStr id]> input))
  = inl validatedData ->
  let r := PUT_buyer host request id w in
  let changes := reported (fetched_row (statements w1) 0 existing) validatedData in
  status r.1 = 200%nat
  /\ ((forall key, changes key = None) ->
      buyerHistory (db r.2) = buyerHistory (db w))
  /\ ((exists key, changes key <> None) ->
      exists entry,
        buyerHistory (db r.2) = (buyerHistory (db w) ++ [entry])%list
        /\ buyerId entry = SqlText id
        /\ changedBy entry = SqlText (user_id user)
        /\ changedAt entry = now host
        /\ forall key, diff entry !! key = changes key).
Proof.
  intros Hauth Hrate Hjson Hok Hrow Hconflict Hparse r changes. subst r.
  destruct (requireAuth_world _ _ _ _ _ Hauth) as (Hdb & _).
  rewrite (PUT_buyer_run _ _ _ _ _ _ Hauth Hrate), Hjson. cbv zeta.
  rewrite Hok, Hdb, Hrow, Hconflict, Hparse.
  rewrite update_buyers_run. cbn [statements db]. rewrite Hok. cbv zeta.
  set (diff_ := calculate_diff (fetched_row (statements w1) 0 existing) validatedData).
  assert (Hdiff : forall key, diff_ !! key = changes key)
    by (intros key; apply calculate_diff_reported).
  destruct (0 <? size diff_)%nat eqn:Hsize.
  - rewrite insert_buyerHistory_run. cbn [statements db]. rewrite Hok. cbv zeta.
    cbn [fst snd status db buyerHistory]. split; [done|]. split.
    + intros Hnone. exfalso. apply Nat.ltb_lt in Hsize.
      assert (diff_ = ∅) as Hempty by (apply map_eq; intros key; by rewrite Hdiff, Hnone).
      rewrite Hempty, map_size_empty in Hsize. lia.
    + intros _. eexists. split; [reflexivity|]. done.
  - cbn [fst snd status db buyerHistory]. split; [done|]. split; [done|].
    intros (key & Hkey). exfalso. apply Nat.ltb_ge in Hsize.
    assert (diff_ = ∅) as Hempty by (apply map_size_empty_iff; lia).
    rewrite <- Hdiff, Hempty in Hkey. done.
Qed.

Lemma update_history_holds_the_changed_fields_witness :
  status (PUT_buyer Sample.host (Sample.status_request "Contacted") Sample.stored_id
            (start Sample.one_buyer)).1 = 200%nat.
Proof.
  refine (proj1 (update_history_holds_the_changed_fields Sample.host
                   (Sample.status_request "Contacted") Sample.stored_id
                   (start Sample.one_buyer) (Scenario.authenticated Sample.one_buyer)
                   Sample.alice (Sample.payload "Contacted" (JStr Sample.iso))
                   Scenario.validated_update Sample.stored_row [] _ _ _ _ _ _ _));
    reflexivity.
Defined.

(** ** A successful import *)

Lemma import_rows_run host user rows : forall idx results w,
  inTransaction w = true ->
  (forall n, statement_fails host n = false) ->
  exists rs,
    forEach (import_row host user) rows idx results w =
    (Returned rs,
     mkWorld
       (mkTables (users (db w))
          (buyers (db w) ++ imported_rows host user (statements w) rows)
          (buyerHistory (db w) ++ imported_entries host user (statements w) rows))
       true (commits w) (statements w + 2 * length rows) (parses w))
    /\ length rs = (length results + length rows)%nat.
Proof.
  induction rows as [|rowData rows IH]; intros idx results w Htx Hok.
  - exists results. cbn [forEach imported_rows imported_entries length].
    rewrite !app_nil_r. unfold ret. split; [|lia].
    destruct w as [[] ? ? ? ?]. cbn in *. subst. do 2 f_equal. lia.
  - cbn [forEach]. unfold bind at 1. unfold import_row at 1.
    unfold bind at 1. rewrite insert_buyers_run, Hok, Htx. cbv zeta.
    unfold bind at 1, first_row, ret at 1. unfold bind at 1.
    rewrite insert_buyerHistory_run. cbn [statements inTransaction db commits parses].
    rewrite Hok. cbv zeta. unfold ret at 1.
    cbn [users buyers buyerHistory].
    match goal with |- context [forEach _ rows (S idx) ?rs0 ?w0] =>
      destruct (IH (S idx) rs0 w0 eq_refl Hok) as (rs & E & Hlen); rewrite E
    end.
    exists rs. cbn [db users buyers buyerHistory statements commits parses].
    split.
    + cbn [imported_rows imported_entries length].
      rewrite <- !app_assoc. cbn [app].
      rewrite (fetched_row_id _ _ _ _ (inserted_row_id _ _ _)).
      rewrite inserted_row_id. cbn [default from_option].
      do 2 f_equal. lia.
    + rewrite length_app in Hlen. cbn [length] in *. lia.
Qed.

Lemma passed_rows_all host headers rows : forall call index,
  failed_rows host headers call index rows = [] ->
  length (passed_rows host headers call rows) = length rows.
Proof.
  induction rows as [|r rows IH]; intros call index; [done|].
  cbn [failed_rows passed_rows].
  destruct (row_outcome host headers call r); [|done].
  cbn [app length]. intros H. by rewrite (IH _ _ H).
Qed.

Lemma imported_rows_length host user rows : forall stmt,
  length (imported_rows host user stmt rows) = length rows
  /\ length (imported_entries host user stmt rows) = length rows.
Proof.
  induction rows as [|r rows IH]; intros stmt; [done|].
  cbn [imported_rows imported_entries length]. destruct (IH (S (S stmt))). lia.
Qed.

Lemma imported_rows_owner host user rows : forall stmt,
  Forall (fun r => r !! "ownerId" = Some (SqlText (user_id user)))
    (imported_rows host user stmt rows)
  /\ Forall (fun h => changedBy h = SqlText (user_id user))
       (imported_entries host user stmt rows).
Proof.
  induction rows as [|r rows IH]; intros stmt; [by split; constructor|].
  cbn [imported_rows imported_entries]. destruct (IH (S (S stmt))) as [H1 H2].
  split; constructor; try done.
  rewrite inserted_row_lookup by (apply (bool_decide_unpack _); by vm_compute).
  unfold get. by rewrite lookup_insert_eq.
Qed.

(** X13: an import in which every data row validates and no statement fails
    answers 200 with the number of data rows, and makes one new state
    visible: the tables as they were, then one record and one history entry
    per data row, in the order of the file, each belonging to the caller.
    A file that has only its header line is such an import, of no rows. *)
Theorem import_of_valid_rows (host : Host) (request : Request) (w w1 : World)
    (user : User) (text : string) :
  requireAuth host request w = (Returned user, w1) ->
  inTransaction w = false ->
  (forall n, statement_fails host n = false) ->
  file request = Some text ->
  nonblank_lines text <> [] ->
  (length (drop 1 (nonblank_lines text)) <= 200)%nat ->
  let headers := map trim (split "," (default EmptyString (head (nonblank_lines text)))) in
  let dataRows := drop 1 (nonblank_lines text) in
  failed_rows host headers (parses w) 0 dataRows = [] ->
  let validRows := passed_rows host headers (parses w) dataRows in
  let r := POST_import host request w in
  let added := imported_rows host user (statements w1) validRows in
  let entries := imported_entries host user (statements w1) validRows in
  r.1 = mkResponse 200 (ImportedBody (length dataRows))
  /\ db r.2 = mkTables (users (db w)) (buyers (db w) ++ added)
                (buyerHistory (db w) ++ entries)
  /\ commits r.2 = db r.2 :: commits w
  /\ length added = length dataRows /\ length entries = length dataRows
  /\ Forall (fun r => r !! "ownerId" = Some (SqlText (user_id user))) added
  /\ Forall (fun h => changedBy h = SqlText (user_id user)) entries.
Proof.
  intros Hauth Htx Hok Hfile Hlines Hmax headers dataRows Hvalid validRows r added entries.
  destruct (requireAuth_world _ _ _ _ _ Hauth) as (Hdb & Htx1 & Hcommits & Hparses).
  assert (Hpassed : length validRows = length dataRows)
    by (by apply (passed_rows_all _ _ _ _ 0%nat)).
  destruct (imported_rows_length host user validRows (statements w1)) as [Hl1 Hl2].
  destruct (imported_rows_owner host user validRows (statements w1)) as [Ho1 Ho2].
  assert (E : exists w',
    POST_import host request w = (mkResponse 200 (ImportedBody (length dataRows)), w')
    /\ db w' = mkTables (users (db w)) (buyers (db w) ++ added)
                 (buyerHistory (db w) ++ entries)
    /\ commits w' = db w' :: commits w).
  { unfold POST_import, try_catch. unfold bind at 1. rewrite Hauth, Hfile. cbv zeta.
    destruct (length (nonblank_lines text) =? 0)%nat eqn:Hz.
    { apply Nat.eqb_eq, length_zero_iff_nil in Hz. done. }
    fold dataRows. fold headers.
    destruct (200 <? length dataRows)%nat eqn:Hbig; [apply Nat.ltb_lt in Hbig; unfold dataRows in Hbig; lia|].
    unfold bind at 1. rewrite validate_rows. cbn [fst snd app].
    rewrite Hparses, Hvalid. fold validRows. cbn [length Nat.ltb Nat.leb].
    unfold bind at 1, transaction.
    cbn [db commits statements parses inTransaction].
    match goal with |- context [forEach _ validRows 0%nat [] ?w0] =>
      destruct (import_rows_run host user validRows 0%nat [] w0 eq_refl Hok)
        as (rs & Eloop & Hlen); rewrite Eloop
    end.
    cbn [db commits statements parses inTransaction users buyers buyerHistory length] in *.
    unfold ret. eexists. split; [by rewrite Hlen, Hpassed|].
    cbn [db commits]. rewrite Hdb, Hcommits. done. }
  destruct E as (w' & E & Hdb' & Hcommits').
  subst r. rewrite E. cbn [fst snd]. subst added entries.
  rewrite Hl1, Hl2, Hpassed. done.
Qed.

Lemma import_of_valid_rows_witness :
  (POST_import Sample.host
     (Sample.upload (Sample.csv [Sample.good_line; Sample.good_line]))
     (start Sample.no_buyers)).1
  = mkResponse 200 (ImportedBody 2).
Proof.
  refine (proj1 (import_of_valid_rows Sample.host
                   (Sample.upload (Sample.csv [Sample.good_line; Sample.good_line]))
                   (start Sample.no_buyers) (Scenario.authenticated Sample.no_buyers)
                   Sample.alice (Sample.csv [Sample.good_line; Sample.good_line])
                   _ _ _ _ _ _ _)).
  - reflexivity.
  - reflexivity.
  - reflexivity.
  - reflexivity.
  - vm_compute. discriminate.
  - vm_compute. lia.
  - vm_compute. reflexivity.
Defined.

(** X14: an import that does not answer 200 has changed nothing, whatever went
    wrong and wherever: no file, an empty file, too many rows, an invalid
    row, or a statement that failed in the middle of the transaction. *)
Theorem failed_import_leaves_nothing (host : Host) (request : Request) (w : World) :
  inTransaction w = false ->
  status (POST_import host request w).1 <> 200%nat ->
  untouched w (POST_import host request w).2.
Proof.
  intros Htx Hstatus.
  destruct (POST_import_atomic host request w Htx) as [H|(H & _)]; [done|].
  by destruct Hstatus.
Qed.

Lemma failed_import_leaves_nothing_witness :
  untouched (start Sample.no_buyers)
    (POST_import (Sample.failing 4)
       (Sample.upload (Sample.csv [Sample.good_line; Sample.good_line]))
       (start Sample.no_buyers)).2.
Proof.
  apply failed_import_leaves_nothing; [reflexivity|].
  vm_compute. discriminate.
Defined.

(** ** Reading: the export and the detail view *)

(** X15: the export, the list and the detail view do not write: whatever the
    request and its outcome, the tables and the visible states are as
    before. *)
Theorem reads_change_nothing (host : Host)
    (page_of : string -> bool -> JsVal -> JsVal ->
               list (gmap string SqlVal) -> option (list (gmap string SqlVal)))
    (request : Request) (id : string) (w : World) :
  untouched w (GET_export host request w).2
  /\ untouched w (GET_buyer host request id w).2
  /\ untouched w (GET_buyers host page_of request w).2.
Proof.
  unfold untouched.
  destruct (requireAuth host request w) as [[user|e] w1] eqn:Hauth;
    destruct (requireAuth_world _ _ _ _ _ Hauth) as (Hdb & _ & Hcommits & _).
  - assert (E1 : exists n, (GET_export host request w).2
                   = mkWorld (db w1) (inTransaction w1) (commits w1) n (parses w1)).
    { unfold GET_export, try_catch. unfold bind at 1. rewrite Hauth. cbv zeta.
      unfold bind at 1. unfold select_buyers, query.
      destruct (statement_fails host (statements w1)); by eexists. }
    assert (E2 : exists n, (GET_buyer host request id w).2
                   = mkWorld (db w1) (inTransaction w1) (commits w1) n (parses w1)).
    { unfold GET_buyer, try_catch. unfold bind at 1. rewrite Hauth.
      unfold bind at 1. unfold select_buyers, query.
      destruct (statement_fails host (statements w1)); [by eexists|].
      destruct (filter _ (buyers (db w1))) as [|existing rest]; [by eexists|].
      cbn [take fetched imap]. unfold bind at 1. unfold select_buyerHistory, query.
      cbn [statements]. destruct (statement_fails host (S (statements w1))); by eexists. }
    assert (E3 : exists n, (GET_buyers host page_of request w).2
                   = mkWorld (db w1) (inTransaction w1) (commits w1) n (parses w1)).
    { unfold GET_buyers, try_catch. unfold bind at 1. rewrite Hauth. cbv zeta.
      unfold bind at 1. unfold select_buyers, query.
      destruct (statement_fails host (statements w1)); [by eexists|].
      unfold bind at 1. unfold select_page. cbn [statements db].
      destruct (statement_fails host (S (statements w1))); [by eexists|].
      destruct (page_of _ _ _ _ _); by eexists. }
    destruct E1 as (n1 & ->), E2 as (n2 & ->), E3 as (n3 & ->). done.
  - assert (E1 : (GET_export host request w).2 = w1).
    { unfold GET_export, try_catch. unfold bind at 1. by rewrite Hauth. }
    assert (E2 : (GET_buyer host request id w).2 = w1).
    { unfold GET_buyer, try_catch. unfold bind at 1. by rewrite Hauth. }
    assert (E3 : (GET_buyers host page_of request w).2 = w1).
    { unfold GET_buyers, try_catch. unfold bind at 1. by rewrite Hauth. }
    rewrite E1, E2, E3. done.
Qed.

(** X16: the body of an export: the header row, then one row, the quoted
    fields joined by commas, for every record that matches the filters of
    the query, whoever owns it, in ascending order of [updatedAt], the rows
    joined by line feeds.  Without filters there is a row for every record
    of the table. *)
Theorem export_lists_matching_records_of_all_owners (host : Host) (request : Request)
    (w w1 : World) (user : User) :
  requireAuth host request w = (Returned user, w1) ->
  statement_fails host (statements w1) = false ->
  exists rows,
    (GET_export host request w).1
    = mkResponse 200
        (CsvBody (String.concat (String newline EmptyString)
                    (String.concat "," csv_headers
                     :: map csv_row (fetched (statements w1) rows))))
    /\ Sorted updatedAt_le rows
    /\ rows ≡ₚ filter (fun r => forallb (fun c => c r) (whereConditions host request))
                 (buyers (db w))
    /\ (searchParams request = ∅ -> rows ≡ₚ buyers (db w)).
Proof.
  intros Hauth Hok. eexists. split; [by apply (GET_export_content _ _ _ _ _ Hauth Hok)|].
  split; [apply orderBy_updatedAt_sorted|].
  split; [apply orderBy_updatedAt_permutation|].
  intros Hnone. rewrite orderBy_updatedAt_permutation.
  unfold whereConditions, param. rewrite Hnone, !lookup_empty.
  cbn [default from_option truthy String.eqb negb app forallb].
  induction (buyers (db w)) as [|r rows IH]; [done|].
  rewrite filter_cons, decide_True by done. by rewrite IH.
Qed.

Lemma export_lists_matching_records_of_all_owners_witness :
  exists rows,
    (GET_export Sample.host (Scenario.as_bob None) (start Scenario.shared)).1
    = mkResponse 200
        (CsvBody (String.concat (String newline EmptyString)
                    (String.concat "," csv_headers :: map csv_row (fetched 1 rows))))
    /\ rows ≡ₚ buyers Scenario.shared.
Proof.
  destruct (export_lists_matching_records_of_all_owners Sample.host (Scenario.as_bob None)
              (start Scenario.shared) (Scenario.authenticated Scenario.shared)
              Scenario.bob eq_refl eq_refl) as (rows & E & _ & _ & Hall).
  exists rows. split; [exact E|exact (Hall eq_refl)].
Defined.

#[global] Instance changedAt_ge_total : Total changedAt_ge.
Proof. intros a b. unfold changedAt_ge. lia. Qed.

#[global] Instance changedAt_ge_trans : Transitive changedAt_ge.
Proof. intros a b c. unfold changedAt_ge. lia. Qed.

(** X17: the detail view of a record that exists, whoever owns it: the first
    record with the id of the path, and of the history entries of that id
    the five newest, newest first (all of them when there are at most
    five). *)
Theorem detail_shows_the_five_newest_entries (host : Host) (request : Request)
    (id : string) (w w1 : World) (user : User)
    (existing : gmap string SqlVal) (rest : list (gmap string SqlVal)) :
  requireAuth host request w = (Returned user, w1) ->
  statement_fails host (statements w1) = false ->
  statement_fails host (S (statements w1)) = false ->
  filter (fun r => sql_eq "id" id r) (buyers (db w)) = existing :: rest ->
  exists history,
    (GET_buyer host request id w).1
    = mkReply 200 (Detail (fetched_row (statements w1) 0 existing) history)
    /\ length history = Nat.min 5 (length (filter (fun h => history_of id h)
                                            (buyerHistory (db w))))
    /\ Sorted changedAt_ge history
    /\ (forall h, h ∈ history -> h ∈ buyerHistory (db w) /\ buyerId h = SqlText id)
    /\ (forall h older, h ∈ history -> older ∈ buyerHistory (db w) ->
          buyerId older = SqlText id -> older ∉ history ->
          changedAt older <= changedAt h).
Proof.
  intros Hauth Hok Hok2 Hrow.
  destruct (requireAuth_world _ _ _ _ _ Hauth) as (Hdb & _).
  set (matching := filter (fun h => history_of id h) (buyerHistory (db w))).
  set (sorted := merge_sort changedAt_ge matching).
  exists (take 5 sorted).
  assert (Hperm : sorted ≡ₚ matching) by apply merge_sort_Permutation.
  assert (Hsorted : StronglySorted changedAt_ge (take 5 sorted ++ drop 5 sorted)%list).
  { rewrite take_drop. apply StronglySorted_merge_sort; apply _. }
  split; [|split; [|split; [|split]]].
  - unfold GET_buyer, try_catch. unfold bind at 1. rewrite Hauth.
    unfold bind at 1. unfold select_buyers, query. rewrite Hok, Hdb, Hrow.
    cbn [take fetched imap]. unfold bind at 1. unfold select_buyerHistory, query.
    cbn [statements db]. rewrite Hok2. reflexivity.
  - rewrite length_take. by rewrite Hperm.
  - apply StronglySorted_Sorted. by apply StronglySorted_app_1_l in Hsorted.
  - intros h Hh. assert (Hin : h ∈ matching).
    { rewrite <- Hperm. rewrite <- (take_drop 5 sorted). apply elem_of_app. by left. }
    apply list_elem_of_filter in Hin as [Hid Hin]. split; [done|].
    unfold history_of in Hid. by apply bool_decide_unpack in Hid.
  - intros h older Hh Holder Hid Hnot.
    assert (Hin : older ∈ (take 5 sorted ++ drop 5 sorted)%list).
    { rewrite take_drop, Hperm. apply list_elem_of_filter. split; [|done].
      unfold history_of. by apply bool_decide_pack. }
    apply elem_of_app in Hin as [Hin|Hin]; [done|].
    apply (StronglySorted_app_1_elem_of _ _ _ h older Hsorted Hh Hin).
Qed.

Lemma detail_shows_the_five_newest_entries_witness :
  exists history,
    (GET_buyer Sample.host (Scenario.as_bob None) Sample.stored_id
       (start Scenario.shared)).1
    = mkReply 200 (Detail (fetched_row 1 0 Sample.stored_row) history)
    /\ Sorted changedAt_ge history.
Proof.
  destruct (detail_shows_the_five_newest_entries Sample.host (Scenario.as_bob None)
              Sample.stored_id (start Scenario.shared)
              (Scenario.authenticated Scenario.shared) Scenario.bob
              Sample.stored_row [] eq_refl eq_refl eq_refl)
    as (history & E & _ & Hsorted & _).
  - reflexivity.
  - exists history. split; [exact E|exact Hsorted].
Defined.

(** X18: the detail view of an id that no record has is answered 404, after one
    query. *)
Theorem detail_of_missing_record_is_404 (host : Host) (request : Request)
    (id : string) (w w1 : World) (user : User) :
  requireAuth host request w = (Returned user, w1) ->
  statement_fails host (statements w1) = false ->
  (forall r, r ∈ buyers (db w) -> sql_eq "id" id r = false) ->
  GET_buyer host request id w
  = (mkReply 404 (DetailError "Buyer not found"),
     mkWorld (db w1) (inTransaction w1) (commits w1) (S (statements w1)) (parses w1)).
Proof.
  intros Hauth Hok Hnone.
  destruct (requireAuth_world _ _ _ _ _ Hauth) as (Hdb & _).
  unfold GET_buyer, try_catch. unfold bind at 1. rewrite Hauth.
  unfold bind at 1. unfold select_buyers, query. rewrite Hok, Hdb.
  assert (filter (fun r => sql_eq "id" id r) (buyers (db w)) = []) as ->; [|done].
  apply elem_of_nil_inv. intros r [Hr Hin]%list_elem_of_filter.
  by rewrite (Hnone r Hin) in Hr.
Qed.

Lemma detail_of_missing_record_is_404_witness :
  (GET_buyer Sample.host (Scenario.as_bob None) "none" (start Scenario.shared)).1
  = mkReply 404 (DetailError "Buyer not found").
Proof.
  refine (f_equal fst (detail_of_missing_record_is_404 Sample.host (Scenario.as_bob None)
                         "none" (start Scenario.shared)
                         (Scenario.authenticated Scenario.shared) Scenario.bob
                         eq_refl eq_refl _)).
  intros r Hr. apply list_elem_of_singleton in Hr. subst r. vm_compute. reflexivity.
Defined.

(** ** Logging in *)

(** The outcome of a login, step by step. *)
Lemma POST_login_run host param_text request w :
  POST_login host param_text request w =
  match json request with
  | None => (mkLoginReply 500 (LoginError "Failed to login") None, w)
  | Some input =>
      let email := get input "email" in
      if negb (truthy email) then
        (mkLoginReply 400 (LoginError "Email is required") None, w)
      else
        let w1 := mkWorld (db w) (inTransaction w) (commits w) (S (statements w))
                    (parses w) in
        if statement_fails host (statements w) then
          (mkLoginReply 500 (LoginError "Failed to login") None, w1)
        else
          match filter (fun u => String.eqb (user_email u) (param_text email))
                  (users (db w)) with
          | existingUser0 :: _ =>
              (mkLoginReply 200 (LoggedIn existingUser0) (Some (user_id existingUser0)),
               w1)
          | [] =>
              if statement_fails host (S (statements w)) then
                (mkLoginReply 500 (LoginError "Failed to login") None,
                 mkWorld (db w) (inTransaction w) (commits w) (S (S (statements w)))
                   (parses w))
              else
                let user := mkUser (randomUUID host (S (statements w)))
                              (param_text email)
                              (name_column param_text (get input "name")) in
                let t := mkTables (users (db w) ++ [user]) (buyers (db w))
                           (buyerHistory (db w)) in
                (mkLoginReply 200 (LoggedIn user) (Some (user_id user)),
                 mkWorld t (inTransaction w)
                   (if inTransaction w then commits w else t :: commits w)
                   (S (S (statements w))) (parses w))
          end
  end.
Proof.
  unfold POST_login, try_catch. unfold bind at 1. unfold request_json.
  destruct (json request) as [input|]; [|done]. unfold ret at 1. cbv zeta.
  destruct (negb (truthy (get input "email"))); [done|].
  unfold bind at 1. unfold createDemoUser. unfold bind at 1.
  unfold select_users, query.
  destruct (statement_fails host (statements w)); [done|].
  destruct (filter _ (users (db w))) as [|u rest]; [|done].
  cbn [take]. unfold bind at 1. unfold insert_users, statement. cbn [statements].
  destruct (statement_fails host (S (statements w))); [done|].
  reflexivity.
Qed.

(** X19: a login without a truthy email is answered 400, and one whose body is
    not JSON is answered 500; neither issues a statement or sets the
    cookie. *)
Theorem login_requires_an_email (host : Host) (param_text : JsVal -> string)
    (request : Request) (w : World) :
  (json request = None ->
   POST_login host param_text request w
   = (mkLoginReply 500 (LoginError "Failed to login") None, w))
  /\ (forall input, json request = Some input -> truthy (get input "email") = false ->
      POST_login host param_text request w
      = (mkLoginReply 400 (LoginError "Email is required") None, w)).
Proof.
  split.
  - intros Hjson. by rewrite POST_login_run, Hjson.
  - intros input Hjson Hemail. rewrite POST_login_run, Hjson. cbv zeta.
    by rewrite Hemail.
Qed.

Lemma login_requires_an_email_witness :
  POST_login Sample.host Scenario.param_text (Scenario.login_request "")
    (start Sample.no_buyers)
  = (mkLoginReply 400 (LoginError "Email is required") None, start Sample.no_buyers).
Proof.
  refine (proj2 (login_requires_an_email Sample.host Scenario.param_text
                   (Scenario.login_request "") (start Sample.no_buyers)) _ _ _);
    reflexivity.
Defined.

(** X20: a login with an email finds or creates: when a user has the email, the
    first such user is the answer and nothing is written; otherwise one
    user is added, with a generated id, the email and the name, and is the
    answer.  In both cases the cookie is set to the id of the user, and the
    leads and their history are not touched. *)
Theorem login_finds_or_creates (host : Host) (param_text : JsVal -> string)
    (request : Request) (w : World) (input : gmap string JsVal) :
  json request = Some input ->
  truthy (get input "email") = true ->
  statement_fails host (statements w) = false ->
  statement_fails host (S (statements w)) = false ->
  let r := POST_login host param_text request w in
  let known := filter (fun u => String.eqb (user_email u) (param_text (get input "email")))
                 (users (db w)) in
  let created := mkUser (randomUUID host (S (statements w)))
                   (param_text (get input "email"))
                   (name_column param_text (get input "name")) in
  let user := default created (head known) in
  r.1 = mkLoginReply 200 (LoggedIn user) (Some (user_id user))
  /\ users (db r.2)
     = (users (db w) ++ match known with [] => [created] | _ :: _ => [] end)%list
  /\ buyers (db r.2) = buyers (db w)
  /\ buyerHistory (db r.2) = buyerHistory (db w).
Proof.
  intros Hjson Hemail Hok1 Hok2 r known created user. subst r.
  rewrite POST_login_run, Hjson. cbv zeta. rewrite Hemail, Hok1, Hok2. cbn [negb].
  subst user. fold known. destruct known as [|u rest].
  - done.
  - cbn [fst snd db head default from_option]. by rewrite app_nil_r.
Qed.

Lemma login_finds_or_creates_witness :
  (POST_login Sample.host Scenario.param_text (Scenario.login_request "bob@example.com")
     (start Sample.no_buyers)).1
  = mkLoginReply 200
      (LoggedIn (mkUser "00000000-0000-4000-8000-000000000001" "bob@example.com" None))
      (Some "00000000-0000-4000-8000-000000000001").
Proof.
  refine (proj1 (login_finds_or_creates Sample.host Scenario.param_text
                   (Scenario.login_request "bob@example.com") (start Sample.no_buyers)
                   {["email" := JStr "bob@example.com"]} _ _ _ _));
    reflexivity.
Defined.

(** X21: logging in again with the same email gives the same user and adds no
    user: there is one account per email, however often its owner logs
    in. *)
Theorem login_twice_is_one_user (host : Host) (param_text : JsVal -> string)
    (request : Request) (w : World) :
  (forall n, statement_fails host n = false) ->
  let first := POST_login host param_text request w in
  let second := POST_login host param_text request first.2 in
  second.1 = first.1 /\ users (db second.2) = users (db first.2).
Proof.
  intros Hok first second. subst second first.
  rewrite (POST_login_run host param_text request w).
  destruct (json request) as [input|] eqn:Hjson; cycle 1.
  { cbn [fst snd]. rewrite POST_login_run, Hjson. done. }
  cbv zeta. destruct (negb (truthy (get input "email"))) eqn:Hemail.
  { cbn [fst snd]. rewrite POST_login_run, Hjson. cbv zeta. by rewrite Hemail. }
  rewrite !Hok.
  destruct (filter _ (users (db w))) as [|u rest] eqn:Hknown.
  - cbn [fst snd]. rewrite POST_login_run, Hjson. cbv zeta. rewrite Hemail, !Hok.
    cbn [db users]. rewrite filter_app, Hknown. cbn [app].
    rewrite filter_cons, decide_True
      by (cbn [user_email]; apply Is_true_true, String.eqb_refl).
    done.
  - cbn [fst snd]. rewrite POST_login_run, Hjson. cbv zeta. rewrite Hemail, !Hok.
    cbn [db]. rewrite Hknown. done.
Qed.

Lemma login_twice_is_one_user_witness :
  let first := POST_login Sample.host Scenario.param_text
                 (Scenario.login_request "bob@example.com") (start Sample.no_buyers) in
  users (db (POST_login Sample.host Scenario.param_text
               (Scenario.login_request "bob@example.com") first.2).2)
  = users (db first.2).
Proof.
  refine (proj2 (login_twice_is_one_user Sample.host Scenario.param_text
                   (Scenario.login_request "bob@example.com") (start Sample.no_buyers) _)).
  reflexivity.
Defined.

(** X22: the cookie of a login opens the session of that user: when the ids of
    the users are distinct and not empty, a request that carries the cookie
    is authenticated as the user the login answered. *)
Theorem login_cookie_authenticates (host : Host) (param_text : JsVal -> string)
    (request next : Request) (w : World) (user : User) :
  let r := POST_login host param_text request w in
  login_body r.1 = LoggedIn user ->
  NoDup (map user_id (users (db r.2))) ->
  user_id user <> "" ->
  cookie next = set_cookie r.1 ->
  statement_fails host (statements r.2) = false ->
  set_cookie r.1 = Some (user_id user)
  /\ user ∈ users (db r.2)
  /\ exists w', requireAuth host next r.2 = (Returned user, w').
Proof.
  intros r Hbody Hnodup Hid Hcookie Hok.
  assert (Hlogin : set_cookie r.1 = Some (user_id user) /\ user ∈ users (db r.2)).
  { subst r. revert Hbody. clear. rewrite POST_login_run.
    destruct (json request) as [input|]; [|done]. cbv zeta.
    destruct (negb (truthy _)); [done|].
    destruct (statement_fails host (statements w)); [done|].
    destruct (filter _ (users (db w))) as [|u rest] eqn:Hknown.
    - destruct (statement_fails host (S (statements w))); [done|].
      cbn [fst snd login_body set_cookie db users]. intros [= <-].
      split; [done|]. apply elem_of_app. right. apply list_elem_of_here.
    - cbn [fst snd login_body set_cookie db users]. intros [= <-].
      split; [done|].
      assert (Hin : u ∈ filter (fun u0 => String.eqb (user_email u0)
                                   (param_text (get input "email"))) (users (db w)))
        by (rewrite Hknown; apply list_elem_of_here).
      by apply list_elem_of_filter in Hin as [_ Hin]. }
  destruct Hlogin as [Hset Hin]. split; [done|]. split; [done|].
  rewrite Hset in Hcookie.
  unfold requireAuth, bind, getCurrentUser. rewrite Hcookie.
  assert (truthy (JStr (user_id user)) = true) as ->.
  { cbn [truthy]. apply negb_true_iff, String.eqb_neq. done. }
  cbn [negb]. unfold catch, bind, select_users, query, ret. rewrite Hok.
  assert (Hfirst : filter (fun u => String.eqb (user_id u) (user_id user))
                     (users (db r.2)) = [user]).
  { revert Hnodup Hin. generalize (users (db r.2)) as l. clear.
    induction l as [|u l IH]; intros Hnodup Hin; [by apply elem_of_nil in Hin|].
    cbn [map] in Hnodup. apply NoDup_cons in Hnodup as [Hu Hnodup].
    rewrite filter_cons. apply elem_of_cons in Hin as [<-|Hin].
    - rewrite decide_True by (apply Is_true_true, String.eqb_refl).
      f_equal. apply elem_of_nil_inv. intros u' [Heq Hu']%list_elem_of_filter.
      apply Is_true_true, String.eqb_eq in Heq. apply Hu. rewrite <- Heq.
      apply list_elem_of_fmap. by exists u'.
    - rewrite decide_False; [by apply IH|].
      intros Heq. apply Is_true_true, String.eqb_eq in Heq. apply Hu. rewrite Heq.
      apply list_elem_of_fmap. by exists user. }
  rewrite Hfirst. by eexists.
Qed.

Lemma login_cookie_authenticates_witness :
  exists w',
    requireAuth Sample.host
      (mkRequest (Some "00000000-0000-4000-8000-000000000001") None None ∅)
      (POST_login Sample.host Scenario.param_text
         (Scenario.login_request "bob@example.com") (start Sample.no_buyers)).2
    = (Returned (mkUser "00000000-0000-4000-8000-000000000001" "bob@example.com" None),
       w').
Proof.
  refine (proj2 (proj2 (login_cookie_authenticates Sample.host Scenario.param_text
                          (Scenario.login_request "bob@example.com")
                          (mkRequest (Some "00000000-0000-4000-8000-000000000001")
                             None None ∅)
                          (start Sample.no_buyers)
                          (mkUser "00000000-0000-4000-8000-000000000001"
                             "bob@example.com" None) _ _ _ _ _))).
  - reflexivity.
  - apply (bool_decide_unpack _). by vm_compute.
  - discriminate.
  - reflexivity.
  - reflexivity.
Defined.

(** ** The rules of the schemas *)

Section SchemaRules.
Variable isEmail isUuid : string -> bool.

Lemma property_in_shape o key schema :
  Zod.property o key = Some schema -> (key, schema) ∈ Zod.shape o.
Proof.
  unfold Zod.property. destruct (find _ (Zod.shape o)) as [[k s]|] eqn:Hf; [|done].
  intros [= <-]. apply find_some in Hf as [Hin Heq].
  apply String.eqb_eq in Heq. cbn in Heq. subst k. by apply list_elem_of_In.
Qed.

Lemma run_refinement_issues acc r :
  Zod.object_issues (Zod.run_refinement acc r) = [] ->
  Zod.object_issues acc = [] /\ Zod.holds r (Zod.data acc) = true.
Proof.
  unfold Zod.run_refinement. destruct (Zod.aborted _) eqn:Ha.
  - intros H. rewrite H in Ha. done.
  - destruct (Zod.holds r _); [done|]. cbn [Zod.object_issues].
    intros H. by apply app_eq_nil in H as [_ H].
Qed.

Lemma run_refinements_hold refinements : forall acc,
  Zod.object_issues (foldl Zod.run_refinement acc refinements) = [] ->
  Forall (fun r => Zod.holds r (Zod.data acc) = true) refinements.
Proof.
  induction refinements as [|r rs IH]; intros acc H; [constructor|].
  cbn [foldl] in H.
  destruct (run_refinements_issues rs (Zod.run_refinement acc r)) as (more & Hmore).
  rewrite H in Hmore. symmetry in Hmore. apply app_eq_nil in Hmore as [Hr _].
  apply run_refinement_issues in Hr as [_ Hr].
  constructor; [done|]. specialize (IH _ H).
  pose proof (run_refinements_data [r] acc) as Hdata. cbn [foldl] in Hdata.
  by rewrite Hdata in IH.
Qed.

Lemma parse_refinements_hold o call input data :
  Zod.parse isEmail isUuid o call input = inl data ->
  Forall (fun r => Zod.holds r data = true) (Zod.refinements o).
Proof.
  unfold Zod.parse, Zod.run_object.
  destruct (Zod.object_issues _) eqn:Hi; [|done]. intros [= <-].
  rewrite run_refinements_data. by apply run_refinements_hold.
Qed.

Lemma parse_data_get o call input data key schema :
  NoDup (map fst (Zod.shape o)) ->
  Zod.parse isEmail isUuid o call input = inl data ->
  Zod.property o key = Some schema ->
  get data key
  = Zod.value (Zod.run isEmail isUuid schema (InParsed call key) (get input key))
  /\ Zod.issues (Zod.run isEmail isUuid schema (InParsed call key) (get input key)) = [].
Proof.
  intros Hnd Hparse Hprop. split.
  - unfold get at 1. rewrite (parse_data_lookup _ _ _ _ _ _ _ Hnd Hparse), Hprop.
    cbv zeta.
    destruct (Zod.value _) eqn:Hv; cbn [Zod.isUndefined]; try done.
    by destruct (input !! key).
  - apply (parse_property_ok _ _ o _ _ data); [by apply property_in_shape|done].
Qed.

Lemma run_length_rule a m1 b m2 here v :
  Zod.issues (Zod.run isEmail isUuid
                (Zod.ZString [Zod.min_length a m1; Zod.max_length b m2]) here v) = [] ->
  exists s, v = JStr s /\ (a <= String.length s <= b)%nat.
Proof.
  destruct v; try done. cbn [Zod.run Zod.issues flat_map Zod.run_check].
  unfold Zod.check_issue.
  destruct (a <=? String.length s)%nat eqn:H1; [|done].
  destruct (String.length s <=? b)%nat eqn:H2; [|done].
  intros _. exists s. apply Nat.leb_le in H1, H2. done.
Qed.

Lemma run_regex_rule re m here v :
  Zod.issues (Zod.run isEmail isUuid (Zod.ZString [Zod.regex_format re m]) here v) = [] ->
  exists s, v = JStr s /\ re s = true.
Proof.
  destruct v; try done. cbn [Zod.run Zod.issues flat_map Zod.run_check].
  unfold Zod.check_issue. destruct (re s) eqn:H; [|done]. by exists s.
Qed.

Lemma run_enum_rule values here v :
  Zod.issues (Zod.run isEmail isUuid (Zod.ZEnum values) here v) = [] ->
  exists s, v = JStr s /\ s ∈ values
            /\ Zod.run isEmail isUuid (Zod.ZEnum values) here v = Zod.ok v.
Proof.
  destruct v; try done. cbn [Zod.run].
  destruct (bool_decide (s ∈ values)) eqn:H; [|done].
  apply bool_decide_eq_true_1 in H. by exists s.
Qed.

(** What the two bhk schemas make of a falsy input they accept. *)
Lemma bhk_stays_falsy schema here v :
  schema ∈ [bhkEnum |> z.optional;
            bhkEnum |> z.optional |> z.or (z.literal "")] ->
  truthy v = false ->
  Zod.issues (Zod.run isEmail isUuid schema here v) = [] ->
  truthy (Zod.value (Zod.run isEmail isUuid schema here v)) = false.
Proof.
  intros Hs Hv.
  assert (Hfalsy : v = JUndefined \/ v = JNull \/ v = JNaN \/ v = JBool false
                   \/ v = JNum 0 \/ v = JStr "").
  { destruct v; cbn [truthy] in Hv; try discriminate; auto.
    - destruct b; [done|auto].
    - apply negb_false_iff, Z.eqb_eq in Hv. subst. auto 6.
    - apply negb_false_iff, String.eqb_eq in Hv. subst. auto 6. }
  apply elem_of_cons in Hs as [->|Hs];
    [|apply list_elem_of_singleton in Hs as ->];
    destruct Hfalsy as [-> | [-> | [-> | [-> | [-> | -> ]]]]]; by vm_compute.
Qed.

End SchemaRules.

(** X23: a lead of type Apartment or Villa whose [bhk] is missing, empty or
    otherwise falsy is rejected, by the schema of the create and by the
    schema of the CSV rows alike. *)
Theorem bhk_is_required_for_apartments_and_villas (host : Host)
    (o : Zod.ObjectSchema) (call : nat) (input : gmap string JsVal) :
  o ∈ [createBuyerSchema; csvImportRowSchema] ->
  get input "propertyType" ∈ [JStr "Apartment"; JStr "Villa"] ->
  truthy (get input "bhk") = false ->
  exists issues, Zod.parse (isEmail host) (isUuid host) o call input = inr issues.
Proof.
  intros Ho Htype Hbhk.
  destruct (Zod.parse _ _ o call input) as [data|issues] eqn:Hparse; [|by eexists].
  exfalso.
  pose proof (parse_refinements_hold _ _ _ _ _ _ Hparse) as Hrefs.
  assert (Hnd : NoDup (map fst (Zod.shape o))).
  { apply buyer_schemas_keys.
    apply elem_of_cons in Ho as [->|Ho]; [apply list_elem_of_here|].
    apply list_elem_of_singleton in Ho as ->.
    do 2 apply list_elem_of_further. apply list_elem_of_here. }
  assert (Hrule : bhkRefinement data = true).
  { apply elem_of_cons in Ho as [->|Ho];
      [|apply list_elem_of_singleton in Ho as ->];
      by apply Forall_cons in Hrefs as [Hrefs _]. }
  assert (Hprops : exists schema,
             Zod.property o "propertyType" = Some propertyTypeEnum
             /\ Zod.property o "bhk" = Some schema
             /\ schema ∈ [bhkEnum |> z.optional;
                          bhkEnum |> z.optional |> z.or (z.literal "")]).
  { apply elem_of_cons in Ho as [->|Ho];
      [|apply list_elem_of_singleton in Ho as ->]; eexists.
    - split; [reflexivity|]. split; [reflexivity|]. apply list_elem_of_here.
    - split; [reflexivity|]. split; [reflexivity|].
      apply list_elem_of_further, list_elem_of_here. }
  destruct Hprops as (schema & Hp1 & Hp2 & Hschema).
  destruct (parse_data_get _ _ _ _ _ _ _ _ Hnd Hparse Hp1) as [Hd1 Hi1].
  destruct (parse_data_get _ _ _ _ _ _ _ _ Hnd Hparse Hp2) as [Hd2 Hi2].
  unfold propertyTypeEnum, z.enum in Hd1, Hi1.
  apply run_enum_rule in Hi1 as (s & Hs & _ & Hrun). rewrite Hrun in Hd1.
  cbn [Zod.value Zod.ok] in Hd1.
  pose proof (bhk_stays_falsy _ _ _ _ _ Hschema Hbhk Hi2) as Hfalsy.
  rewrite <- Hd2 in Hfalsy.
  unfold bhkRefinement in Hrule. rewrite Hd1, Hfalsy in Hrule.
  apply elem_of_cons in Htype as [Htype|Htype];
    [|apply list_elem_of_singleton in Htype];
    rewrite Htype in Hrule; by vm_compute in Hrule.
Qed.

Lemma bhk_is_required_for_apartments_and_villas_witness :
  exists issues,
    Zod.parse (isEmail Sample.host) (isUuid Sample.host) csvImportRowSchema 0
      (<["propertyType" := JStr "Villa"]> Sample.csvRowOfEmptyStrings) = inr issues.
Proof.
  apply (bhk_is_required_for_apartments_and_villas Sample.host csvImportRowSchema 0).
  - apply list_elem_of_further, list_elem_of_here.
  - apply list_elem_of_further, list_elem_of_here.
  - reflexivity.
Defined.

Lemma create_or_csv o :
  o ∈ [createBuyerSchema; csvImportRowSchema] ->
  o = createBuyerSchema \/ o = csvImportRowSchema.
Proof.
  intros Ho. apply elem_of_cons in Ho as [->|Ho]; [by left|].
  apply list_elem_of_singleton in Ho. by right.
Qed.

Lemma create_or_csv_keys o :
  o ∈ [createBuyerSchema; csvImportRowSchema] -> NoDup (map fst (Zod.shape o)).
Proof.
  intros [->| ->]%create_or_csv; apply buyer_schemas_keys.
  - apply list_elem_of_here.
  - do 2 apply list_elem_of_further. apply list_elem_of_here.
Qed.

(** X24: what the create schema and the CSV schema accept satisfies the rules of
    the fields: the name has 2 to 80 characters, the phone 10 to 15 digits,
    the five enum fields hold one of their values, which is kept as it is;
    and the two rules across fields: an Apartment or a Villa has a bhk, and
    of two budgets the minimum is at most the maximum unless one of them is
    zero. *)
Theorem accepted_lead_satisfies_the_rules (host : Host) (o : Zod.ObjectSchema)
    (call : nat) (input data : gmap string JsVal) :
  o ∈ [createBuyerSchema; csvImportRowSchema] ->
  Zod.parse (isEmail host) (isUuid host) o call input = inl data ->
  (exists name, get input "fullName" = JStr name
                /\ (2 <= String.length name <= 80)%nat)
  /\ (exists phone, get input "phone" = JStr phone /\ phoneRegex phone = true)
  /\ (forall key schema, (key, schema) ∈ enum_fields ->
        exists s, get input key = JStr s /\ s ∈ values_of schema
                  /\ get data key = JStr s)
  /\ (get data "propertyType" ∈ [JStr "Apartment"; JStr "Villa"] ->
      truthy (get data "bhk") = true)
  /\ (forall lo hi, get data "budgetMin" = JNum lo -> get data "budgetMax" = JNum hi ->
        lo = 0 \/ hi = 0 \/ lo <= hi).
Proof.
  intros Ho Hparse.
  pose proof (create_or_csv_keys o Ho) as Hnd.
  pose proof (parse_refinements_hold _ _ _ _ _ _ Hparse) as Hrefs.
  apply create_or_csv in Ho.
  assert (Hrules : bhkRefinement data = true /\ budgetRefinement data = true).
  { destruct Ho as [-> | ->];
      apply Forall_cons in Hrefs as [H1 Hrefs]; by apply Forall_cons in Hrefs as [H2 _]. }
  destruct Hrules as [Hbhk Hbudget].
  split; [|split; [|split; [|split]]].
  - assert (exists m1 m2, Zod.property o "fullName"
              = Some (Zod.ZString [Zod.min_length 2 m1; Zod.max_length 80 m2]))
      as (m1 & m2 & Hp) by (destruct Ho as [-> | ->]; by eexists _, _).
    destruct (parse_data_get _ _ _ _ _ _ _ _ Hnd Hparse Hp) as [_ Hi].
    by apply run_length_rule in Hi.
  - assert (exists m, Zod.property o "phone"
              = Some (Zod.ZString [Zod.regex_format phoneRegex m]))
      as (m & Hp) by (destruct Ho as [-> | ->]; by eexists).
    destruct (parse_data_get _ _ _ _ _ _ _ _ Hnd Hparse Hp) as [_ Hi].
    by apply run_regex_rule in Hi.
  - intros key schema Hkey.
    assert (Hp : Zod.property o key = Some schema
                 /\ schema = Zod.ZEnum (values_of schema)).
    { unfold enum_fields in Hkey.
      repeat (apply elem_of_cons in Hkey as [[= -> ->]|Hkey];
              [by destruct Ho as [-> | ->]|]).
      by apply elem_of_nil in Hkey. }
    destruct Hp as [Hp Hschema].
    destruct (parse_data_get _ _ _ _ _ _ _ _ Hnd Hparse Hp) as [Hd Hi].
    rewrite Hschema in Hd, Hi.
    apply run_enum_rule in Hi as (s & Hs & Hin & Hrun). rewrite Hrun in Hd.
    exists s. rewrite Hd, Hs. done.
  - intros Htype. unfold bhkRefinement in Hbhk.
    assert (includes ["Apartment"; "Villa"] (get data "propertyType") = true) as Hinc.
    { apply elem_of_cons in Htype as [->|Htype]; [done|].
      by apply list_elem_of_singleton in Htype as ->. }
    rewrite Hinc in Hbhk. by destruct (truthy (get data "bhk")).
  - intros lo hi Hlo Hhi.
    destruct (decide (lo <> 0 /\ hi <> 0 /\ hi < lo)) as [Hbad|Hgood]; [|lia].
    apply (budgetRefinement_fails_iff data lo hi Hlo Hhi) in Hbad. congruence.
Qed.

Lemma accepted_lead_satisfies_the_rules_witness :
  exists phone,
    get (Sample.plot (JNum 5) (JNum 9)) "phone" = JStr phone
    /\ phoneRegex phone = true.
Proof.
  refine (proj1 (proj2 (accepted_lead_satisfies_the_rules Sample.host createBuyerSchema 0
                          (Sample.plot (JNum 5) (JNum 9)) Scenario.validated_lead _ _))).
  - apply list_elem_of_here.
  - reflexivity.
Defined.

(** X25: a create payload without [status] or [tags] is stored as New and with
    no tags; a CSV row without a status column is imported as New. *)
Theorem missing_status_and_tags_get_defaults (host : Host) (o : Zod.ObjectSchema)
    (call : nat) (input data : gmap string JsVal) :
  o ∈ [createBuyerSchema; csvImportRowSchema] ->
  Zod.parse (isEmail host) (isUuid host) o call input = inl data ->
  (get input "status" = JUndefined -> get data "status" = JStr "New")
  /\ (o = createBuyerSchema -> get input "tags" = JUndefined ->
      get data "tags" = JArr (InParsed call "tags") []).
Proof.
  intros Ho Hparse. pose proof (create_or_csv_keys o Ho) as Hnd.
  apply create_or_csv in Ho. split.
  - intros Hstatus.
    assert (Hp : Zod.property o "status"
                 = Some (statusEnum |> z.default_ (fun _ => JStr "New")))
      by (by destruct Ho as [-> | ->]).
    destruct (parse_data_get _ _ _ _ _ _ _ _ Hnd Hparse Hp) as [Hd _].
    by rewrite Hd, Hstatus.
  - intros -> Htags.
    assert (Hp : Zod.property createBuyerSchema "tags"
                 = Some (z.array z.string |> z.optional
                           |> z.default_ (fun here => JArr here []))) by done.
    destruct (parse_data_get _ _ _ _ _ _ _ _ Hnd Hparse Hp) as [Hd _].
    by rewrite Hd, Htags.
Qed.

Lemma missing_status_and_tags_get_defaults_witness :
  get Scenario.validated_lead "status" = JStr "New".
Proof.
  refine (proj1 (missing_status_and_tags_get_defaults Sample.host createBuyerSchema 0
                   (Sample.plot (JNum 5) (JNum 9)) Scenario.validated_lead _ _) _).
  - apply list_elem_of_here.
  - reflexivity.
  - reflexivity.
Defined.

(** X26: the schema of an update has the field rules only: when every field of
    the payload passes its own rule, the payload is accepted, whatever the
    bhk rule and the budget rule of a create would say. *)
Theorem update_has_no_rules_across_fields (host : Host) (call : nat)
    (input : gmap string JsVal) :
  (forall key schema, (key, schema) ∈ Zod.shape updateBuyerSchema ->
     Zod.issues (Zod.run (isEmail host) (isUuid host) schema (InParsed call key)
                   (get input key)) = []) ->
  exists data,
    Zod.parse (isEmail host) (isUuid host) updateBuyerSchema call input = inl data.
Proof.
  intros Hfields. unfold Zod.parse, Zod.run_object.
  assert (Zod.refinements updateBuyerSchema = []) as -> by reflexivity.
  cbn [foldl]. rewrite run_properties_issues. cbn [Zod.object_issues app].
  assert (flat_map
            (fun e => Zod.prefixIssues e.1
               (Zod.issues (Zod.run (isEmail host) (isUuid host) e.2
                              (InParsed call e.1) (get input e.1))))
            (Zod.shape updateBuyerSchema) = []) as ->; [|by eexists].
  generalize Hfields. generalize (Zod.shape updateBuyerSchema) as shape.
  induction shape as [|[key schema] shape IH]; intros H; [done|].
  cbn [flat_map fst snd]. rewrite (H key schema) by apply list_elem_of_here.
  cbn [Zod.prefixIssues map app]. apply IH. intros k s Hin. apply H.
  by apply list_elem_of_further.
Qed.

Lemma update_has_no_rules_across_fields_witness :
  exists data,
    Zod.parse (isEmail Sample.host) (isUuid Sample.host) updateBuyerSchema 0
      (list_to_map [("id", JStr Sample.stored_id);
                    ("updatedAt", JDate (InRow 1 0 "updatedAt") (Some Sample.instant));
                    ("propertyType", JStr "Villa");
                    ("budgetMin", JNum 9); ("budgetMax", JNum 5)])
    = inl data.
Proof.
  apply (update_has_no_rules_across_fields Sample.host 0).
  intros key schema Hin.
  repeat (apply elem_of_cons in Hin as [[= -> ->]|Hin]; [reflexivity|]).
  by apply elem_of_nil in Hin.
Defined.

(** ** Reading a CSV row *)

Lemma cell_or_empty (values : list string) i :
  js_or (from_option JStr JUndefined (values !! i)) (JStr "")
  = JStr (default "" (values !! i)).
Proof.
  destruct (values !! i) as [v|]; [|done]. cbn [from_option default].
  unfold js_or. cbn [truthy]. destruct (String.eqb_spec v ""); by subst.
Qed.

Lemma build_rowData_snoc headers header values :
  build_rowData (headers ++ [header]) values
  = <[header := JStr (default "" (values !! length headers))]>
      (build_rowData headers values).
Proof.
  unfold build_rowData. rewrite imap_app, foldl_app. cbn [imap foldl fst snd].
  by rewrite Nat.add_0_r, cell_or_empty.
Qed.

Lemma build_rowData_lookup (headers values : list string) i header :
  headers !! i = Some header ->
  (forall j, (i < j)%nat -> headers !! j <> Some header) ->
  build_rowData headers values !! header = Some (JStr (default "" (values !! i))).
Proof.
  revert i header. induction headers as [|h headers IH] using rev_ind;
    intros i header Hi Hlast; [by rewrite lookup_nil in Hi|].
  rewrite build_rowData_snoc.
  destruct (decide (i = length headers)) as [->|Hne].
  - rewrite lookup_app_r, Nat.sub_diag in Hi by lia. injection Hi as ->.
    by rewrite lookup_insert_eq.
  - assert (Hlt : (i < length headers)%nat).
    { apply lookup_lt_Some in Hi. rewrite length_app in Hi. cbn in Hi. lia. }
    rewrite lookup_app_l in Hi by done.
    rewrite lookup_insert_ne.
    + apply IH; [done|]. intros j Hj Hjh. apply (Hlast j Hj).
      rewrite lookup_app_l; [done|]. by apply lookup_lt_Some in Hjh.
    + intros ->. apply (Hlast (length headers) Hlt).
      by rewrite lookup_app_r, Nat.sub_diag by lia.
Qed.






(** ** Importing what the export wrote *)

Lemma append_assoc (a b c : string) : (a +:+ b) +:+ c = a +:+ (b +:+ c).
Proof.
  induction a as [|x a IH]; [done|].
  change ((String x a +:+ b) +:+ c) with (String x ((a +:+ b) +:+ c)).
  by rewrite IH.
Qed.

Lemma rev_app_acc p : forall cur,
  String.rev_app p cur = String.rev_app p "" +:+ cur.
Proof.
  induction p as [|c p IH]; intros cur; [done|].
  cbn [String.rev_app]. rewrite (IH (String c cur)), (IH (String c "")).
  by rewrite append_assoc.
Qed.

Lemma rev_app_append a b : forall acc,
  String.rev_app (a +:+ b) acc = String.rev_app b (String.rev_app a acc).
Proof. induction a as [|c a IH]; intros acc; [done|]. apply IH. Qed.

Lemma rev_snoc t c : String.rev (t +:+ String c "") = String c (String.rev t).
Proof. unfold String.rev. by rewrite rev_app_append. Qed.

Lemma split_go_piece sep rest p : forall cur,
  forallb (fun c => negb (Ascii.eqb c sep)) (list_ascii_of_string p) = true ->
  split_go sep cur (p +:+ String sep rest)
  = String.rev (String.rev_app p cur) :: split_go sep "" rest.
Proof.
  induction p as [|c p IH]; intros cur Hfree.
  - change ("" +:+ String sep rest) with (String sep rest).
    cbn [split_go String.rev_app]. by rewrite Ascii.eqb_refl.
  - cbn [list_ascii_of_string forallb] in Hfree. apply andb_true_iff in Hfree as [Hc Hfree].
    apply negb_true_iff in Hc. cbn [String.rev_app].
    change (String c p +:+ String sep rest) with (String c (p +:+ String sep rest)).
    cbn [split_go]. rewrite Hc. by apply IH.
Qed.

Lemma split_comma_piece rest p cur :
  forallb (fun c => negb (Ascii.eqb c ",")) (list_ascii_of_string p) = true ->
  split_go "," cur (p +:+ "," +:+ rest)
  = String.rev (String.rev_app p cur) :: split_go "," "" rest.
Proof. apply split_go_piece. Qed.

Lemma split_go_first sep s : forall cur,
  exists p tail, split_go sep cur s = String.rev (String.rev_app p cur) :: tail.
Proof.
  induction s as [|c s IH]; intros cur.
  - by exists "", [].
  - cbn [split_go]. destruct (Ascii.eqb c sep).
    + by exists "", (split_go sep "" s).
    + destruct (IH (String c cur)) as (p & tail & E).
      exists (String c p), tail. by rewrite E.
Qed.

Lemma trimStart_keeps_last c u :
  Ascii.is_space c = false ->
  exists u', trimStart (u +:+ String c "") = u' +:+ String c "".
Proof.
  intros Hc. induction u as [|d u IH].
  - exists "". change ("" +:+ String c "") with (String c ""). cbn [trimStart].
    by rewrite Hc.
  - change (String d u +:+ String c "") with (String d (u +:+ String c "")).
    cbn [trimStart]. destruct (Ascii.is_space d); [done|]. by exists (String d u).
Qed.

(** A cell that begins with a double quote still does after trimming, and
    is no phone number. *)
Lemma quoted_cell_is_no_phone x :
  exists y, trim (String dquote x) = String dquote y
            /\ phoneRegex (String dquote y) = false.
Proof.
  unfold trim. cbn [trimStart].
  assert (Ascii.is_space dquote = false) as Hq by reflexivity. rewrite Hq.
  assert (String.rev (String dquote x) = String.rev x +:+ String dquote "") as ->.
  { unfold String.rev. cbn [String.rev_app]. apply rev_app_acc. }
  destruct (trimStart_keeps_last dquote (String.rev x) Hq) as (u' & ->).
  rewrite rev_snoc. by eexists.
Qed.

Lemma quoted_comma_free field :
  comma_free (toString field) = true ->
  forallb (fun c => negb (Ascii.eqb c ",")) (list_ascii_of_string (quoted field)) = true.
Proof.
  unfold comma_free, quoted.
  change (String dquote (toString field) +:+ String dquote "")
    with (String dquote (toString field +:+ String dquote "")).
  cbn [list_ascii_of_string forallb]. generalize (toString field) as s.
  induction s as [|c s IH]; [done|].
  cbn [list_ascii_of_string forallb]. intros [Hc Hs]%andb_true_iff.
  change (String c s +:+ String dquote "") with (String c (s +:+ String dquote "")).
  cbn [list_ascii_of_string forallb]. specialize (IH Hs).
  apply andb_true_iff in IH as [_ IH]. rewrite Hc. cbn [andb] in *.
  by rewrite IH.
Qed.

(** X29: the export puts every field in double quotes and the import takes a
    cell as it stands, quotes included.  So a line that the export wrote
    for a record whose name and email have no comma is rejected by the
    import under the header the export wrote: its phone cell begins with a
    double quote. *)
Theorem exported_line_fails_the_import (host : Host) (call : nat)
    (buyer : gmap string JsVal) :
  comma_free (toString (get buyer "fullName")) = true ->
  comma_free (toString (js_or (get buyer "email") (JStr ""))) = true ->
  exists issues, row_outcome host csv_headers call (csv_row buyer) = inr issues.
Proof.
  intros Hname Hemail. unfold row_outcome.
  assert (Hcell : exists c1 c2 y tail,
            map trim (split "," (csv_row buyer)) = c1 :: c2 :: String dquote y :: tail
            /\ phoneRegex (String dquote y) = false).
  { unfold csv_row, csv_fields. cbn [map String.concat]. unfold split.
    rewrite (split_comma_piece _ _ _ (quoted_comma_free _ Hname)).
    rewrite (split_comma_piece _ _ _ (quoted_comma_free _ Hemail)).
    unfold quoted at 3.
    match goal with |- context [split_go _ _ ((String dquote ?a +:+ ?b) +:+ ?c)] =>
      change ((String dquote a +:+ b) +:+ c) with (String dquote ((a +:+ b) +:+ c));
      generalize ((a +:+ b) +:+ c) as line
    end.
    intros line. cbn [split_go].
    assert (Ascii.eqb dquote "," = false) as -> by reflexivity.
    destruct (split_go_first "," line (String dquote "")) as (p & tail & ->).
    rewrite (rev_app_acc p (String dquote "")), rev_snoc. cbn [map].
    destruct (quoted_cell_is_no_phone (String.rev (String.rev_app p ""))) as (y & -> & Hy).
    by eexists _, _, _, _. }
  destruct Hcell as (c1 & c2 & y & tail & -> & Hphone).
  apply (property_issue_fails_parse _ _ csvImportRowSchema call _ "phone"
           (z.string |> z.regex phoneRegex None)).
  { by apply property_in_shape. }
  assert (get (build_rowData csv_headers (c1 :: c2 :: String dquote y :: tail)) "phone"
          = JStr (String dquote y)) as ->.
  { unfold get.
    rewrite (build_rowData_lookup csv_headers _ 2%nat "phone" eq_refl); [done|].
    intros j Hj. do 14 (destruct j as [|j]; [lia || discriminate|]). done. }
  cbn [z.regex z.add_check z.string app Zod.run Zod.issues flat_map Zod.run_check].
  unfold Zod.check_issue. by rewrite Hphone.
Qed.

Lemma exported_line_fails_the_import_witness :
  exists issues,
    row_outcome Sample.host csv_headers 0
      (csv_row (fetched_row 1 0 Sample.stored_row)) = inr issues.
Proof.
  apply exported_line_fails_the_import; reflexivity.
Defined.

(** The file that the export writes for Alice's lead, uploaded as it is:
    its only data row is rejected. *)
Example exported_file_is_rejected :
  reported_rows
    (POST_import Sample.host (Sample.upload Scenario.exported_file)
       (start Sample.one_buyer)).1 = [2%nat].
Proof. vm_compute. reflexivity. Qed.

(** ** The list of leads *)

Lemma fetched_length stmt rows : length (fetched stmt rows) = length rows.
Proof. unfold fetched. apply length_imap. Qed.

(** X30: the list answers with the page that the query gives for the sort key,
    the direction, the limit and the offset [(page - 1) * limit], and with
    the number of all records that match the filters, whoever owns them and
    whatever the page is.  These are the records of the export: for the
    same query its body is the header row and the row of each of them, in
    ascending order of [updatedAt].  Without [page], [limit], [sortBy] and
    [sortOrder] in the query the list asks for page 1 of 10 records, newest
    [updatedAt] first. *)
Theorem list_counts_what_the_export_writes (host : Host)
    (page_of : string -> bool -> JsVal -> JsVal ->
               list (gmap string SqlVal) -> option (list (gmap string SqlVal)))
    (request : Request) (w w1 : World) (user : User)
    (rows : list (gmap string SqlVal)) :
  requireAuth host request w = (Returned user, w1) ->
  statement_fails host (statements w1) = false ->
  statement_fails host (S (statements w1)) = false ->
  let page := parseInt_any_radix (param_or request "page" "1") in
  let limit := parseInt_any_radix (param_or request "limit" "10") in
  let matching := filter (fun r => forallb (fun c => c r) (whereConditions host request))
                    (buyers (db w)) in
  page_of (param_or request "sortBy" "updatedAt")
    (String.eqb (param_or request "sortOrder" "desc") "asc")
    limit (js_mul (js_sub page (JNum 1)) limit) matching = Some rows ->
  (GET_buyers host page_of request w).1
  = mkReply 200
      (Listing (fetched (S (statements w1)) rows) (json_number page) (json_number limit)
         (length matching) (totalPages_of (length matching) limit))
  /\ (GET_export host request w).1
     = mkResponse 200
         (CsvBody (String.concat (String newline EmptyString)
                     (String.concat "," csv_headers
                      :: map csv_row (fetched (statements w1)
                                        (orderBy_updatedAt matching)))))
  /\ orderBy_updatedAt matching ≡ₚ matching
  /\ length (map csv_row (fetched (statements w1) (orderBy_updatedAt matching)))
     = length matching
  /\ (searchParams request = ∅ ->
      page = JNum 1 /\ limit = JNum 10
      /\ js_mul (js_sub page (JNum 1)) limit = JNum 0
      /\ param_or request "sortBy" "updatedAt" = "updatedAt"
      /\ String.eqb (param_or request "sortOrder" "desc") "asc" = false)
  /\ (forall l, limit = JNum l -> 0 < l ->
        totalPages_of (length matching) limit
        = JNum ((Z.of_nat (length matching) + l - 1) / l)).
Proof.
  intros Hauth Hok1 Hok2 page limit matching Hpage.
  destruct (requireAuth_world _ _ _ _ _ Hauth) as (Hdb & _).
  split; [|split; [|split; [|split; [|split]]]].
  - unfold GET_buyers, try_catch. unfold bind at 1. rewrite Hauth. cbv zeta.
    unfold bind at 1. unfold select_buyers, query. rewrite Hok1, Hdb.
    unfold bind at 1. unfold select_page. cbn [statements db]. rewrite Hok2.
    fold matching page limit. rewrite Hpage. unfold ret. cbn [fst].
    by rewrite fetched_length.
  - by apply (GET_export_content _ _ _ _ _ Hauth Hok1).
  - apply orderBy_updatedAt_permutation.
  - rewrite length_map, fetched_length.
    apply Permutation_length, orderBy_updatedAt_permutation.
  - intros Hnone. subst page limit. unfold param_or, param.
    rewrite Hnone, !lookup_empty. done.
  - intros l -> Hl. unfold totalPages_of.
    destruct (Z.eqb_spec l 0) as [->|_]; [lia|]. f_equal.
    set (n := Z.of_nat (length matching)).
    pose proof (Z.div_mod (n + l - 1) l ltac:(lia)) as Hdm.
    pose proof (Z.mod_pos_bound (n + l - 1) l Hl) as Hb.
    assert (Hq : (- n) / l = - ((n + l - 1) / l)).
    { symmetry. apply (Z.div_unique (- n) l _ (l - 1 - (n + l - 1) mod l)); [lia|].
      rewrite Z.mul_opp_r. lia. }
    rewrite Hq. lia.
Qed.

Lemma list_counts_what_the_export_writes_witness :
  (GET_buyers Sample.host Scenario.page_of Sample.export_request
     (start Sample.one_buyer)).1
  = mkReply 200
      (Listing (fetched 2 [Sample.stored_row]) (JNum 1) (JNum 10) 1 (JNum 1)).
Proof.
  refine (proj1 (list_counts_what_the_export_writes Sample.host Scenario.page_of
                   Sample.export_request (start Sample.one_buyer)
                   (Scenario.authenticated Sample.one_buyer) Sample.alice
                   [Sample.stored_row] _ _ _ _));
    reflexivity.
Defined.
